(** * Frenkeinstein front end: booking, slot resolution, payment and store

    A shallow embedding of the parts of the React front end that carry the
    booking and payment-confirmation workflow:

    - [src/frontend/src/context/AppContext.jsx]: the store ([appReducer],
      the action creators of [AppProvider]);
    - [src/frontend/src/components/Appointment/BookingForm.jsx]: the
      catalogue [serviceTypes], [fetchAvailableSlots], [onSubmit], the
      derived [timeSlots] and the validation rules given to [register];
    - [src/frontend/src/components/Payment/CheckoutForm.jsx]:
      [handleSubmit];
    - [src/frontend/src/components/Appointment/Confirmation.jsx]:
      [handlePayment] and the label table;
    - [src/frontend/src/components/Appointment/CalendarView.jsx]: the
      day's appointments, the tiles and the displayed order;
    - [src/frontend/src/components/Voice/VoiceInput.jsx] and
      [TTSPlayer.jsx]: the recognition handlers and [playTTS];
    - [src/frontend/src/services/api.js] and the authentication service:
      the interceptors, [login], [logout], [isAuthenticated].

    Asynchronous handlers are sequential programs in a state-and-exception
    monad: every [await] is a call whose answer is chosen by the remote
    party, which is a parameter of the model. *)

From Stdlib Require Import List ZArith NArith String Ascii Bool Lia.
From Stdlib Require Import Permutation Sorted.
Import ListNotations.

Set Implicit Arguments.

(* ===================================================================== *)
(** * JavaScript strings                                                  *)
(* ===================================================================== *)

(** A JavaScript string is a sequence of UTF-16 code units; [length] and
    regular expressions without the [u] flag work on code units. *)
Definition JSString := list N.

(** A literal whose characters are all ASCII. *)
Definition str (s : string) : JSString :=
  List.map N_of_ascii (list_ascii_of_string s).

(** [a === b] on strings. *)
Fixpoint jseqb (a b : JSString) : bool :=
  match a, b with
  | [], [] => true
  | x :: a', y :: b' => N.eqb x y && jseqb a' b'
  | _, _ => false
  end.

(** The empty string is the only falsy string. *)
Definition falsy (s : JSString) : bool :=
  match s with [] => true | _ => false end.

(** [s || d] where [s] is a string. *)
Definition or_else (s d : JSString) : JSString :=
  if falsy s then d else s.

(** [s || null]. *)
Definition or_null (s : JSString) : option JSString :=
  if falsy s then None else Some s.

(* ===================================================================== *)
(** * Regular expressions                                                 *)
(* ===================================================================== *)

(** The patterns of the form are anchored at both ends ([^...$], no [m]
    flag), so [test] asks whether the whole string belongs to the language
    of the pattern.  Membership is decided with Brzozowski derivatives. *)
Inductive regex : Type :=
| Void
| Eps
| Class (p : N -> bool)
| Cat (r s : regex)
| Alt (r s : regex)
| Star (r : regex).

Fixpoint nullable (r : regex) : bool :=
  match r with
  | Void => false
  | Eps => true
  | Class _ => false
  | Cat r s => nullable r && nullable s
  | Alt r s => nullable r || nullable s
  | Star _ => true
  end.

Fixpoint deriv (c : N) (r : regex) : regex :=
  match r with
  | Void => Void
  | Eps => Void
  | Class p => if p c then Eps else Void
  | Cat r s =>
      if nullable r then Alt (Cat (deriv c r) s) (deriv c s)
      else Cat (deriv c r) s
  | Alt r s => Alt (deriv c r) (deriv c s)
  | Star r => Cat (deriv c r) (Star r)
  end.

Fixpoint matches (r : regex) (s : JSString) : bool :=
  match s with
  | [] => nullable r
  | c :: s' => matches (deriv c r) s'
  end.

(** [r?], [r+], [r{n}] and [r{n,}]. *)
Definition Opt (r : regex) : regex := Alt Eps r.
Definition Plus (r : regex) : regex := Cat r (Star r).

Fixpoint Times (n : nat) (r : regex) : regex :=
  match n with
  | O => Eps
  | S n' => Cat r (Times n' r)
  end.

Definition AtLeast (n : nat) (r : regex) : regex := Cat (Times n r) (Star r).

(** The language of a pattern, as a relation. *)
Inductive lang : regex -> JSString -> Prop :=
| lang_eps : lang Eps []
| lang_class p c : p c = true -> lang (Class p) [c]
| lang_cat r s u v : lang r u -> lang s v -> lang (Cat r s) (u ++ v)
| lang_alt_l r s u : lang r u -> lang (Alt r s) u
| lang_alt_r r s u : lang s u -> lang (Alt r s) u
| lang_star_nil r : lang (Star r) []
| lang_star_cons r c u v :
    lang r (c :: u) -> lang (Star r) v -> lang (Star r) (c :: u ++ v).

(** Character classes. *)
Definition in_range (lo hi c : N) : bool := (N.leb lo c && N.leb c hi)%bool.
Definition is_char (a : ascii) (c : N) : bool := N.eqb c (N_of_ascii a).

Definition digit (c : N) : bool := in_range 48 57 c.
Definition upper (c : N) : bool := in_range 65 90 c.
Definition lower (c : N) : bool := in_range 97 122 c.

(** [\s]: WhiteSpace and LineTerminator of ECMAScript. *)
Definition white_space (c : N) : bool :=
  (in_range 9 13 c || N.eqb c 32 || N.eqb c 160 || N.eqb c 5760
   || in_range 8192 8202 c || N.eqb c 8232 || N.eqb c 8233
   || N.eqb c 8239 || N.eqb c 8287 || N.eqb c 12288 || N.eqb c 65279)%bool.

(** [[A-Z]] under the [i] flag: a code unit matches when its upper-case
    form is in the range; a code unit of 128 or more is never folded to
    an ASCII one, so the class is the two ASCII alphabets. *)
Definition letter_i (c : N) : bool := (upper c || lower c)%bool.

(* ===================================================================== *)
(** * JavaScript values                                                   *)
(* ===================================================================== *)

(** What a property of a response body can hold, other than [null]; a
    value that may also be [null] or [undefined] is an [option] of it.  A
    number is [m] times two to the [e]. *)
Unset Elimination Schemes.
Inductive JSValue : Type :=
| VBoolean (b : bool)
| VNumber (m e : Z)
| VString (s : JSString)
| VArray (items : list (option JSValue))
| VObject (members : list (JSString * option JSValue)).
Set Elimination Schemes.

(** [ToBoolean]: [null], [undefined], [false], zero and the empty string
    are falsy; every array and every object is truthy. *)
Definition truthy (v : option JSValue) : bool :=
  match v with
  | None => false
  | Some (VBoolean b) => b
  | Some (VNumber m _) => negb (Z.eqb m 0)
  | Some (VString s) => negb (falsy s)
  | Some (VArray _) | Some (VObject _) => true
  end.

(** [v || d] where [d] is a string literal: [v] itself when it is truthy,
    whatever its type. *)
Definition value_or (v : option JSValue) (d : JSString) : option JSValue :=
  if truthy v then v else Some (VString d).


(* ===================================================================== *)
(** * api.js: the axios instance and its interceptors                     *)
(* ===================================================================== *)

(** A string-keyed store of strings: [localStorage], and the headers of a
    request. *)
Definition Dict : Type := list (string * JSString).

Fixpoint getItem (d : Dict) (key : string) : option JSString :=
  match d with
  | [] => None
  | (k, v) :: rest => if String.eqb k key then Some v else getItem rest key
  end.

Definition removeItem (key : string) (d : Dict) : Dict :=
  List.filter (fun kv => negb (String.eqb (fst kv) key)) d.

Definition setItem (key : string) (value : JSString) (d : Dict) : Dict :=
  (key, value) :: removeItem key d.

Module Api.

Record Config : Type := mkConfig {
  method : string;
  url : JSString;
  headers : Dict
}.

(** A rejected request: [error.response?.status] and
    [error.response?.data?.detail], which are [undefined] when there is no
    response, no body or no such field.  The body says what [detail] is: a
    string, a list of validation errors, or anything else. *)
Record HttpError : Type := mkError {
  status : option Z;
  detail : option JSValue
}.

(** What the interceptors can reach of the browser. *)
Record Browser : Type := mkBrowser {
  localStorage : Dict;
  href : JSString
}.

(** The request interceptor. *)
Definition onRequest (storage : Dict) (config : Config) : Config :=
  match getItem storage "authToken" with
  | Some token =>
      if falsy token then config
      else
        {| method := method config; url := url config;
           headers := setItem "Authorization" (str "Bearer " ++ token)
                        (headers config) |}
  | None => config
  end.

(** The response interceptor on a rejection; the rejection is passed on
    as it is. *)
Definition onResponseError (error : HttpError) (b : Browser) : Browser :=
  match status error with
  | Some code =>
      if Z.eqb code 401
      then {| localStorage := removeItem "authToken" (localStorage b);
              href := str "/login" |}
      else b
  | None => b
  end.

(** The headers every request starts from. *)
Definition default_headers : Dict :=
  [("Content-Type"%string, str "application/json")].

(** [apiService.appointments.getAll()], as it leaves the instance. *)
Definition getAll_config : Config :=
  {| method := "GET"; url := str "/api/appointments";
     headers := default_headers |}.

(** [apiService.auth.login(username, password)], as it leaves the
    instance. *)
Definition login_config : Config :=
  {| method := "POST"; url := str "/api/auth/token";
     headers := setItem "Content-Type" (str "multipart/form-data")
                  default_headers |}.

End Api.

(** The answer to a request: the promise resolves with [response.data] or
    rejects with an error of the instance. *)
Inductive Response (A : Type) : Type :=
| Resolved (data : A)
| Rejected (error : Api.HttpError).

Arguments Resolved {A} data.
Arguments Rejected {A} error.

(* ===================================================================== *)
(** * Handlers as programs: state, exceptions and [finally]               *)
(* ===================================================================== *)

(** What a [catch] clause can receive. *)
Inductive JSError : Type :=
| TypeError                                 (* property read on null/undefined *)
| RangeError                                (* Invalid time value *)
| RequestError (error : Api.HttpError)      (* rejected request, or any thrown
                                               object with a [response] *)
| ForeignError (message : JSString)         (* an error, or another value
                                               without a [response], thrown
                                               by code outside the component *)
| ThrownNullish.                            (* [throw null], [throw undefined] *)

(** A handler returns, throws, or never resumes because the page was left. *)
Inductive Result (A : Type) : Type :=
| Ok (a : A)
| Throw (e : JSError)
| Unloaded.

Arguments Ok {A} a.
Arguments Throw {A} e.
Arguments Unloaded {A}.

Definition M (W A : Type) : Type := W -> Result A * W.

Definition ret {W A} (a : A) : M W A := fun w => (Ok a, w).

Definition bind {W A B} (c : M W A) (k : A -> M W B) : M W B :=
  fun w =>
    match c w with
    | (Ok a, w') => k a w'
    | (Throw e, w') => (Throw e, w')
    | (Unloaded, w') => (Unloaded, w')
    end.

Definition throw {W A} (e : JSError) : M W A := fun w => (Throw e, w).

Definition gets {W A} (f : W -> A) : M W A := fun w => (Ok (f w), w).

Definition modify {W} (f : W -> W) : M W unit := fun w => (Ok tt, f w).

(** [try { body } catch (error) { handler }]. *)
Definition try_catch {W A} (body : M W A) (handler : JSError -> M W A) : M W A :=
  fun w =>
    match body w with
    | (Throw e, w') => handler e w'
    | r => r
    end.

(** [try { body } finally { fin }]: [fin] runs after a return and after a
    throw, and its own abrupt completion wins. *)
Definition try_finally {W A} (body : M W A) (fin : M W unit) : M W A :=
  fun w =>
    match body w with
    | (Unloaded, w') => (Unloaded, w')
    | (r, w') =>
        match fin w' with
        | (Ok _, w'') => (r, w'')
        | (Throw e, w'') => (Throw e, w'')
        | (Unloaded, w'') => (Unloaded, w'')
        end
    end.

Declare Scope js_scope.
Delimit Scope js_scope with js.
Notation "x <- c ;; k" := (bind c (fun x => k))
  (at level 61, c at next level, right associativity) : js_scope.
Notation "c ;; k" := (bind c (fun _ => k))
  (at level 61, right associativity) : js_scope.

(** Lifting a pure fallible computation. *)
Definition lift {W A} (r : Result A) : M W A := fun w => (r, w).

(* ===================================================================== *)
(** * Data model                                                          *)
(* ===================================================================== *)

Inductive Status : Type := pending | confirmed | completed | cancelled.

(** The appointment record the server returns. *)
Module Appointment.
Record t : Type := mk {
  id : Z;
  customer_name : JSString;
  customer_phone : JSString;
  customer_email : option JSString;
  appointment_datetime : JSString;
  service_type : JSString;
  service_duration : Z;
  service_price : Z;
  notes : option JSString;
  requires_prepayment : bool;
  status : Status
}.
End Appointment.

(** One entry of [available_slots] in the availability response. *)
Record Slot : Type := mkSlot {
  start_time : JSString;
  available : bool
}.

(* ===================================================================== *)
(** * The store: AppContext.jsx                                           *)
(* ===================================================================== *)

Module AppContext.

Record State : Type := mkState {
  user : option JSString;
  appointments : list Appointment.t;
  loading : bool;
  error : option JSValue;       (* [null], or whatever [setError] was given *)
  currentBooking : option Appointment.t;
  availableSlots : list Slot;
  voiceSupported : bool
}.

Definition initialState : State :=
  {| user := None;
     appointments := [];
     loading := false;
     error := None;
     currentBooking := None;
     availableSlots := [];
     voiceSupported := false |}.

(** [ActionTypes]. *)
Definition SET_LOADING : string := "SET_LOADING".
Definition SET_ERROR : string := "SET_ERROR".
Definition SET_USER : string := "SET_USER".
Definition SET_APPOINTMENTS : string := "SET_APPOINTMENTS".
Definition ADD_APPOINTMENT : string := "ADD_APPOINTMENT".
Definition UPDATE_APPOINTMENT : string := "UPDATE_APPOINTMENT".
Definition SET_CURRENT_BOOKING : string := "SET_CURRENT_BOOKING".
Definition SET_AVAILABLE_SLOTS : string := "SET_AVAILABLE_SLOTS".
Definition SET_VOICE_SUPPORTED : string := "SET_VOICE_SUPPORTED".
Definition CLEAR_ERROR : string := "CLEAR_ERROR".

Definition ActionTypes : list string :=
  [SET_LOADING; SET_ERROR; SET_USER; SET_APPOINTMENTS; ADD_APPOINTMENT;
   UPDATE_APPOINTMENT; SET_CURRENT_BOOKING; SET_AVAILABLE_SLOTS;
   SET_VOICE_SUPPORTED; CLEAR_ERROR].

(** The arm of [switch (action.type)] that a type string selects; the
    [case] labels are tried in the order of the source. *)
Inductive Case : Type :=
| CaseSetLoading | CaseSetError | CaseClearError | CaseSetUser
| CaseSetAppointments | CaseAddAppointment | CaseUpdateAppointment
| CaseSetCurrentBooking | CaseSetAvailableSlots | CaseSetVoiceSupported
| CaseDefault.

Definition switch (type : string) : Case :=
  if String.eqb type SET_LOADING then CaseSetLoading
  else if String.eqb type SET_ERROR then CaseSetError
  else if String.eqb type CLEAR_ERROR then CaseClearError
  else if String.eqb type SET_USER then CaseSetUser
  else if String.eqb type SET_APPOINTMENTS then CaseSetAppointments
  else if String.eqb type ADD_APPOINTMENT then CaseAddAppointment
  else if String.eqb type UPDATE_APPOINTMENT then CaseUpdateAppointment
  else if String.eqb type SET_CURRENT_BOOKING then CaseSetCurrentBooking
  else if String.eqb type SET_AVAILABLE_SLOTS then CaseSetAvailableSlots
  else if String.eqb type SET_VOICE_SUPPORTED then CaseSetVoiceSupported
  else CaseDefault.

(** The payload each arm reads.  [CLEAR_ERROR] is dispatched without a
    payload, and the default arm never looks at it. *)
Definition PayloadOf (c : Case) : Type :=
  match c with
  | CaseSetLoading => bool
  | CaseSetError => option JSValue
  | CaseClearError => unit
  | CaseSetUser => option JSString
  | CaseSetAppointments => list Appointment.t
  | CaseAddAppointment => Appointment.t
  | CaseUpdateAppointment => Appointment.t
  | CaseSetCurrentBooking => option Appointment.t
  | CaseSetAvailableSlots => list Slot
  | CaseSetVoiceSupported => bool
  | CaseDefault => unit
  end.

Record Action : Type := mkAction {
  type : string;
  payload : PayloadOf (switch type)
}.

(** [state.appointments.map(apt => apt.id === action.payload.id ?
    action.payload : apt)]. *)
Definition replace_by_id (payload : Appointment.t)
    (appointments : list Appointment.t) : list Appointment.t :=
  List.map
    (fun apt =>
       if Z.eqb (Appointment.id apt) (Appointment.id payload)
       then payload else apt)
    appointments.

Definition appReducer (state : State) (action : Action) : State :=
  match switch (type action) as c return PayloadOf c -> State with
  | CaseSetLoading => fun payload =>
      {| user := user state; appointments := appointments state;
         loading := payload;
         error := error state; currentBooking := currentBooking state;
         availableSlots := availableSlots state;
         voiceSupported := voiceSupported state |}
  | CaseSetError => fun payload =>
      {| user := user state; appointments := appointments state;
         loading := false;
         error := payload;
         currentBooking := currentBooking state;
         availableSlots := availableSlots state;
         voiceSupported := voiceSupported state |}
  | CaseClearError => fun _ =>
      {| user := user state; appointments := appointments state;
         loading := loading state;
         error := None;
         currentBooking := currentBooking state;
         availableSlots := availableSlots state;
         voiceSupported := voiceSupported state |}
  | CaseSetUser => fun payload =>
      {| user := payload;
         appointments := appointments state; loading := loading state;
         error := error state; currentBooking := currentBooking state;
         availableSlots := availableSlots state;
         voiceSupported := voiceSupported state |}
  | CaseSetAppointments => fun payload =>
      {| user := user state;
         appointments := payload;
         loading := loading state; error := error state;
         currentBooking := currentBooking state;
         availableSlots := availableSlots state;
         voiceSupported := voiceSupported state |}
  | CaseAddAppointment => fun payload =>
      {| user := user state;
         appointments := appointments state ++ [payload];
         loading := loading state; error := error state;
         currentBooking := currentBooking state;
         availableSlots := availableSlots state;
         voiceSupported := voiceSupported state |}
  | CaseUpdateAppointment => fun payload =>
      {| user := user state;
         appointments := replace_by_id payload (appointments state);
         loading := loading state; error := error state;
         currentBooking := currentBooking state;
         availableSlots := availableSlots state;
         voiceSupported := voiceSupported state |}
  | CaseSetCurrentBooking => fun payload =>
      {| user := user state; appointments := appointments state;
         loading := loading state; error := error state;
         currentBooking := payload;
         availableSlots := availableSlots state;
         voiceSupported := voiceSupported state |}
  | CaseSetAvailableSlots => fun payload =>
      {| user := user state; appointments := appointments state;
         loading := loading state; error := error state;
         currentBooking := currentBooking state;
         availableSlots := payload;
         voiceSupported := voiceSupported state |}
  | CaseSetVoiceSupported => fun payload =>
      {| user := user state; appointments := appointments state;
         loading := loading state; error := error state;
         currentBooking := currentBooking state;
         availableSlots := availableSlots state;
         voiceSupported := payload |}
  | CaseDefault => fun _ => state
  end (payload action).

(** The action creators of [AppProvider]. *)
Module actions.
Definition setLoading (loading : bool) : Action :=
  @mkAction SET_LOADING loading.
Definition setError (error : option JSValue) : Action :=
  @mkAction SET_ERROR error.
Definition clearError : Action :=
  @mkAction CLEAR_ERROR tt.
Definition setUser (user : option JSString) : Action :=
  @mkAction SET_USER user.
Definition setAppointments (appointments : list Appointment.t) : Action :=
  @mkAction SET_APPOINTMENTS appointments.
Definition addAppointment (appointment : Appointment.t) : Action :=
  @mkAction ADD_APPOINTMENT appointment.
Definition updateAppointment (appointment : Appointment.t) : Action :=
  @mkAction UPDATE_APPOINTMENT appointment.
Definition setCurrentBooking (booking : option Appointment.t) : Action :=
  @mkAction SET_CURRENT_BOOKING booking.
Definition setAvailableSlots (slots : list Slot) : Action :=
  @mkAction SET_AVAILABLE_SLOTS slots.
Definition setVoiceSupported (supported : bool) : Action :=
  @mkAction SET_VOICE_SUPPORTED supported.
End actions.

End AppContext.

(* ===================================================================== *)
(** * Dates                                                               *)
(* ===================================================================== *)

(** The [Date] object and the date-fns functions the form uses ([format]
    and [addDays]; [format] throws on an Invalid Date, as it does since
    version 2 of the library).  A date is its time value in milliseconds
    since the epoch; [None] is the Invalid Date.  How a string is parsed
    and how local time is formatted belongs to the engine and its time
    zone, so the model takes them as an interface; [IsoDate] below is an
    implementation for ISO strings. *)
Class DateApi : Type := {
  Date_parse : JSString -> option Z;      (* [new Date(string)] *)
  toISOString : Z -> JSString;            (* of a valid date *)
  format_HHmm : Z -> JSString;            (* [format(d, 'HH:mm')] *)
  format_yyyyMMdd : Z -> JSString;        (* [format(d, 'yyyy-MM-dd')] *)
  addDays : Z -> Z -> Z
}.

Section DateOps.
Context {date_api : DateApi}.

(** [new Date(s).toISOString()] throws a RangeError on the Invalid Date. *)
Definition Date_toISOString (d : option Z) : Result JSString :=
  match d with
  | Some t => Ok (toISOString t)
  | None => Throw RangeError
  end.

(** [format(d, 'HH:mm')] throws a RangeError on the Invalid Date. *)
Definition format_time (d : option Z) : Result JSString :=
  match d with
  | Some t => Ok (format_HHmm t)
  | None => Throw RangeError
  end.
End DateOps.

(** [array.map(f)] with a callback that may throw: the first throw aborts
    the whole call. *)
Fixpoint map_result {A B} (f : A -> Result B) (l : list A) : Result (list B) :=
  match l with
  | [] => Ok []
  | x :: l' =>
      match f x with
      | Ok y =>
          match map_result f l' with
          | Ok ys => Ok (y :: ys)
          | Throw e => Throw e
          | Unloaded => Unloaded
          end
      | Throw e => Throw e
      | Unloaded => Unloaded
      end
  end.

(* ===================================================================== *)
(** * react-hook-form: the rules of [register] and [handleSubmit]         *)
(* ===================================================================== *)

(** The library is not part of the repository; this is its documented
    behaviour for inputs whose value is a string, under the default options
    (one error per field, no native validation): [required] fails on the
    empty string; [minLength] and [pattern] are looked at only when the
    value is not empty; the first failing rule gives the field's error. *)
Module ReactHookForm.

Record Rules : Type := mkRules {
  required : option JSString;
  minLength : option (nat * JSString);
  pattern : option (regex * JSString)
}.

Definition no_rules : Rules :=
  {| required := None; minLength := None; pattern := None |}.

Definition check_required (rules : Rules) (value : JSString) : option JSString :=
  match required rules with
  | Some message => if falsy value then Some message else None
  | None => None
  end.

Definition check_minLength (rules : Rules) (value : JSString) : option JSString :=
  match minLength rules with
  | Some (n, message) =>
      if negb (falsy value) && Nat.ltb (List.length value) n
      then Some message else None
  | None => None
  end.

Definition check_pattern (rules : Rules) (value : JSString) : option JSString :=
  match pattern rules with
  | Some (re, message) =>
      if negb (falsy value) && negb (matches re value)
      then Some message else None
  | None => None
  end.

Definition validateField (rules : Rules) (value : JSString) : option JSString :=
  match check_required rules value with
  | Some message => Some message
  | None =>
      match check_minLength rules value with
      | Some message => Some message
      | None => check_pattern rules value
      end
  end.

(** [formState.errors]: field name and message, in registration order. *)
Definition Errors : Type := list (string * JSString).

Fixpoint validate {D} (fields : list (string * Rules * (D -> JSString)))
    (data : D) : Errors :=
  match fields with
  | [] => []
  | (name, rules, get) :: rest =>
      match validateField rules (get data) with
      | Some message => (name, message) :: validate rest data
      | None => validate rest data
      end
  end.

End ReactHookForm.

(* ===================================================================== *)
(** * BookingForm.jsx                                                     *)
(* ===================================================================== *)

Module ServiceType.
Record t : Type := mk {
  value : JSString;
  label : JSString;
  price : Z;
  duration : Z
}.
End ServiceType.

(** The values [handleSubmit] passes to [onSubmit]. *)
Module FormData.
Record t : Type := mk {
  customer_name : JSString;
  customer_phone : JSString;
  customer_email : JSString;
  service_type : JSString;
  appointment_date : JSString;
  appointment_time : JSString;
  notes : JSString;
  requires_prepayment : bool
}.
End FormData.

(** The body of [POST /api/appointments]. *)
Module AppointmentData.
Record t : Type := mk {
  customer_name : JSString;
  customer_phone : JSString;
  customer_email : option JSString;
  appointment_datetime : JSString;
  service_type : JSString;
  service_duration : Z;
  service_price : Z;
  notes : option JSString;
  requires_prepayment : bool
}.
End AppointmentData.

(** The query of [GET /api/appointments/availability]. *)
Module AvailabilityParams.
Record t : Type := mk {
  start_date : JSString;
  end_date : JSString;
  duration_minutes : Z
}.
End AvailabilityParams.

(** An entry of the derived [timeSlots]. *)
Module TimeOption.
Record t : Type := mk {
  value : JSString;
  label : JSString;
  datetime : JSString
}.
End TimeOption.

Module BookingForm.

Definition serviceTypes : list ServiceType.t :=
  [ ServiceType.mk (str "haircut") (str "Taglio di Capelli") 25 30;
    ServiceType.mk (str "beard_trim") (str "Sistemazione Barba") 15 20;
    ServiceType.mk (str "shave") (str "Rasatura") 20 25;
    ServiceType.mk (str "wash_and_cut") (str "Lavaggio e Taglio") 35 45;
    ServiceType.mk (str "styling") (str "Styling") 30 40 ].

(** What the component does that can be observed from outside, in order. *)
Inductive Event : Type :=
| GetAvailability (params : AvailabilityParams.t)
| CreateAppointment (data : AppointmentData.t)
| CalledOnSuccess (appointment : Appointment.t)
| ConsoleError.

Definition is_request (e : Event) : bool :=
  match e with
  | GetAvailability _ | CreateAppointment _ => true
  | _ => false
  end.

(** The remote booking source.  Its answer may depend on everything the
    component did before. *)
Class Backend : Type := {
  create : list Event -> AppointmentData.t -> Response Appointment.t;
  getAvailability :
    list Event -> AvailabilityParams.t -> Response (option (list Slot))
}.

(** The store, the form of [useForm], the component's own [useState]
    cells, the trace of outside effects, and what the interceptors of
    the instance reach of the browser. *)
Record World : Type := mkWorld {
  store : AppContext.State;
  values : FormData.t;
  errors : ReactHookForm.Errors;
  availableSlots : list Slot;
  selectedService : option ServiceType.t;
  log : list Event;
  browser : Api.Browser
}.

Definition with_store (f : AppContext.State -> AppContext.State) (w : World) : World :=
  {| store := f (store w); values := values w; errors := errors w;
     availableSlots := availableSlots w;
     selectedService := selectedService w; log := log w;
     browser := browser w |}.

Definition with_errors (e : ReactHookForm.Errors) (w : World) : World :=
  {| store := store w; values := values w; errors := e;
     availableSlots := availableSlots w;
     selectedService := selectedService w; log := log w;
     browser := browser w |}.

Definition with_availableSlots (l : list Slot) (w : World) : World :=
  {| store := store w; values := values w; errors := errors w;
     availableSlots := l;
     selectedService := selectedService w; log := log w;
     browser := browser w |}.

Definition with_selectedService (s : option ServiceType.t) (w : World) : World :=
  {| store := store w; values := values w; errors := errors w;
     availableSlots := availableSlots w;
     selectedService := s; log := log w;
     browser := browser w |}.

Definition with_event (e : Event) (w : World) : World :=
  {| store := store w; values := values w; errors := errors w;
     availableSlots := availableSlots w;
     selectedService := selectedService w; log := log w ++ [e];
     browser := browser w |}.

Definition with_browser (f : Api.Browser -> Api.Browser) (w : World) : World :=
  {| store := store w; values := values w; errors := errors w;
     availableSlots := availableSlots w;
     selectedService := selectedService w; log := log w;
     browser := f (browser w) |}.

(** [dispatch(action)] of [useReducer]. *)
Definition dispatch (action : AppContext.Action) : M World unit :=
  modify (with_store (fun state => AppContext.appReducer state action)).

(** The rules given to [register], field by field. *)
Definition phone_char (c : N) : bool :=
  (digit c || white_space c || is_char "-" c || is_char "(" c
   || is_char ")" c)%bool.

(** [/^[\+]?[0-9\s\-\(\)]{10,}$/] *)
Definition phone_pattern : regex :=
  Cat (Opt (Class (is_char "+"))) (AtLeast 10 (Class phone_char)).

Definition email_local_char (c : N) : bool :=
  (letter_i c || digit c || is_char "." c || is_char "_" c
   || is_char "%" c || is_char "+" c || is_char "-" c)%bool.

Definition email_domain_char (c : N) : bool :=
  (letter_i c || digit c || is_char "." c || is_char "-" c)%bool.

(** [/^[A-Z0-9._%+-]+@[A-Z0-9.-]+\.[A-Z]{2,}$/i] *)
Definition email_pattern : regex :=
  Cat (Plus (Class email_local_char))
    (Cat (Class (is_char "@"))
       (Cat (Plus (Class email_domain_char))
          (Cat (Class (is_char "."))
             (AtLeast 2 (Class letter_i))))).

Definition e_grave : JSString := [232%N].

Definition rules_customer_name : ReactHookForm.Rules :=
  {| ReactHookForm.required :=
       Some (str "Il nome " ++ e_grave ++ str " obbligatorio");
     ReactHookForm.minLength :=
       Some (2, str "Il nome deve essere di almeno 2 caratteri");
     ReactHookForm.pattern := None |}.

Definition rules_customer_phone : ReactHookForm.Rules :=
  {| ReactHookForm.required :=
       Some (str "Il numero di telefono " ++ e_grave ++ str " obbligatorio");
     ReactHookForm.minLength := None;
     ReactHookForm.pattern :=
       Some (phone_pattern, str "Inserisci un numero di telefono valido") |}.

Definition rules_customer_email : ReactHookForm.Rules :=
  {| ReactHookForm.required := None;
     ReactHookForm.minLength := None;
     ReactHookForm.pattern :=
       Some (email_pattern, str "Inserisci un indirizzo email valido") |}.

Definition rules_required (message : string) : ReactHookForm.Rules :=
  {| ReactHookForm.required := Some (str message);
     ReactHookForm.minLength := None;
     ReactHookForm.pattern := None |}.

(** The [register] calls of the form, in the order of the source. *)
Definition registered :
    list (string * ReactHookForm.Rules * (FormData.t -> JSString)) :=
  [ ("customer_name"%string, rules_customer_name, FormData.customer_name);
    ("customer_phone"%string, rules_customer_phone, FormData.customer_phone);
    ("customer_email"%string, rules_customer_email, FormData.customer_email);
    ("service_type"%string, rules_required "Seleziona un servizio",
      FormData.service_type);
    ("appointment_date"%string, rules_required "Seleziona una data",
      FormData.appointment_date);
    ("appointment_time"%string, rules_required "Seleziona un orario",
      FormData.appointment_time);
    ("notes"%string, ReactHookForm.no_rules, FormData.notes) ].

(** [serviceTypes.find(s => s.value === watchedService)]. *)
Definition find_service (watchedService : JSString) : option ServiceType.t :=
  List.find (fun s => jseqb (ServiceType.value s) watchedService) serviceTypes.

(** The first effect: [setSelectedService(service)]. *)
Definition sync_selectedService : M World unit :=
  modify (fun w =>
    with_selectedService (find_service (FormData.service_type (values w))) w).

(** The effects have run: [selectedService] is the catalogue entry of the
    watched service. *)
Definition settled (w : World) : Prop :=
  selectedService w = find_service (FormData.service_type (values w)).

(** [error.response?.data?.detail] of a caught value: reading [response]
    of [null] or [undefined] throws a TypeError; an error without a
    [response] gives [undefined]. *)
Definition response_detail (error : JSError) : Result (option JSValue) :=
  match error with
  | RequestError e => Ok (Api.detail e)
  | ThrownNullish => Throw TypeError
  | TypeError | RangeError | ForeignError _ => Ok None
  end.

Definition default_submit_message : JSString :=
  str "Errore nella creazione dell'appuntamento".

Definition default_slots_message : JSString :=
  str "Errore nel caricamento degli orari disponibili".

Section Handlers.
Context {date_api : DateApi} {backend : Backend}.

(** The [onSuccess] prop: absent, or a callback that returns ([None]) or
    throws, be it an error, an object or [null]. *)
Variable onSuccess : option (Appointment.t -> option JSError).

Local Open Scope js_scope.

(** [await apiService.appointments.create(data)], then [.data].  A
    rejection passes through the response interceptor of the instance
    before it reaches the caller. *)
Definition api_create (data : AppointmentData.t) : M World Appointment.t :=
  fun w =>
    let w' := with_event (CreateAppointment data) w in
    match create (log w) data with
    | Resolved appointment => (Ok appointment, w')
    | Rejected error =>
        (Throw (RequestError error),
         with_browser (Api.onResponseError error) w')
    end.

(** [await apiService.appointments.getAvailability(params)], then
    [.data.available_slots]. *)
Definition api_getAvailability (params : AvailabilityParams.t)
    : M World (option (list Slot)) :=
  fun w =>
    let w' := with_event (GetAvailability params) w in
    match getAvailability (log w) params with
    | Resolved slots => (Ok slots, w')
    | Rejected error =>
        (Throw (RequestError error),
         with_browser (Api.onResponseError error) w')
    end.

(** The object literal [appointmentData]; its properties are evaluated
    in order: [toISOString] throws a RangeError on an Invalid Date, and
    [selectedService.duration] a TypeError when no service is selected. *)
Definition appointmentData (selectedService : option ServiceType.t)
    (data : FormData.t) : Result AppointmentData.t :=
  match Date_toISOString
          (Date_parse (FormData.appointment_date data ++ str "T"
                       ++ FormData.appointment_time data)) with
  | Ok datetime =>
      match selectedService with
      | Some service =>
          Ok {| AppointmentData.customer_name := FormData.customer_name data;
                AppointmentData.customer_phone := FormData.customer_phone data;
                AppointmentData.customer_email :=
                  or_null (FormData.customer_email data);
                AppointmentData.appointment_datetime := datetime;
                AppointmentData.service_type := FormData.service_type data;
                AppointmentData.service_duration := ServiceType.duration service;
                AppointmentData.service_price := ServiceType.price service;
                AppointmentData.notes := or_null (FormData.notes data);
                AppointmentData.requires_prepayment :=
                  FormData.requires_prepayment data |}
      | None => Throw TypeError
      end
  | Throw e => Throw e
  | Unloaded => Unloaded
  end.

Definition call_onSuccess (appointment : Appointment.t) : M World unit :=
  match onSuccess with
  | Some callback =>
      fun w =>
        let w' := with_event (CalledOnSuccess appointment) w in
        match callback appointment with
        | None => (Ok tt, w')
        | Some e => (Throw e, w')
        end
  | None => ret tt
  end.

Definition onSubmit (data : FormData.t) : M World unit :=
  try_finally
    (try_catch
       (dispatch (AppContext.actions.setLoading true) ;;
        dispatch AppContext.actions.clearError ;;
        service <- gets selectedService ;;
        appointmentData <- lift (appointmentData service data) ;;
        response_data <- api_create appointmentData ;;
        dispatch (AppContext.actions.addAppointment response_data) ;;
        call_onSuccess response_data)
       (fun error =>
          detail <- lift (response_detail error) ;;
          let errorMessage := value_or detail default_submit_message in
          dispatch (AppContext.actions.setError errorMessage)))
    (dispatch (AppContext.actions.setLoading false)).

(** [handleSubmit(onSubmit)] of react-hook-form: every registered field
    is validated; [onSubmit] is called with the values only when no
    field has an error. *)
Definition handleSubmit (onValid : FormData.t -> M World unit) : M World unit :=
  fun w =>
    let data := values w in
    let errs := ReactHookForm.validate registered data in
    match errs with
    | [] => onValid data (with_errors [] w)
    | _ => (Ok tt, with_errors errs w)
    end.

(** Submitting the form: the function given to the form's [onSubmit]. *)
Definition submit : M World unit := handleSubmit onSubmit.

(** The browser's part.  The date input is rendered with [min={minDate}]
    and the form has no [noValidate], so a browser that knows date inputs
    does not fire the submit event while the chosen date is before [min]
    (date strings of the form [yyyy-MM-dd] are ordered as texts).  [min] is
    the attribute as the last render left it. *)
Fixpoint text_before (a b : JSString) : bool :=
  match a, b with
  | _, [] => false
  | [], _ :: _ => true
  | x :: a', y :: b' =>
      if N.ltb x y then true
      else if N.eqb x y then text_before a' b'
      else false
  end.

Definition rangeUnderflow (value min : JSString) : bool :=
  (negb (falsy value) && text_before value min)%bool.

Definition requestSubmit (min : JSString) : M World unit :=
  fun w =>
    if rangeUnderflow (FormData.appointment_date (values w)) min
    then (Ok tt, w)
    else submit w.

Definition fetchAvailableSlots : M World unit :=
  fun w =>
    let watchedDate := FormData.appointment_date (values w) in
    match selectedService w with
    | Some service =>
        if falsy watchedDate then (Ok tt, w)
        else
          try_finally
            (try_catch
               (dispatch (AppContext.actions.setLoading true) ;;
                let startDate := Date_parse (watchedDate ++ str "T09:00:00") in
                let endDate := Date_parse (watchedDate ++ str "T18:00:00") in
                start_date <- lift (Date_toISOString startDate) ;;
                end_date <- lift (Date_toISOString endDate) ;;
                available_slots <-
                  api_getAvailability
                    {| AvailabilityParams.start_date := start_date;
                       AvailabilityParams.end_date := end_date;
                       AvailabilityParams.duration_minutes :=
                         ServiceType.duration service |} ;;
                modify (with_availableSlots
                          (match available_slots with
                           | Some slots => slots
                           | None => []
                           end)))
               (fun error =>
                  dispatch (AppContext.actions.setError
                              (Some (VString default_slots_message))) ;;
                  modify (with_event ConsoleError)))
            (dispatch (AppContext.actions.setLoading false))
            w
    | None => (Ok tt, w)
    end.

(** The derived [timeSlots] of a render. *)
Definition timeSlots (availableSlots : list Slot) : Result (list TimeOption.t) :=
  map_result
    (fun slot =>
       match format_time (Date_parse (start_time slot)) with
       | Ok time =>
           Ok {| TimeOption.value := time;
                 TimeOption.label := time;
                 TimeOption.datetime := start_time slot |}
       | Throw e => Throw e
       | Unloaded => Unloaded
       end)
    (List.filter available availableSlots).

(** [getAvailableSlots]: the query followed by the render that derives
    the selectable slots from what the query stored. *)
Definition getAvailableSlots : World -> Result (list TimeOption.t) * World :=
  fun w =>
    match fetchAvailableSlots w with
    | (Ok _, w') => (timeSlots (availableSlots w'), w')
    | (Throw e, w') => (Throw e, w')
    | (Unloaded, w') => (Unloaded, w')
    end.

(** What [timeSlots] makes of one slot. *)
Definition option_of (slot : Slot) (o : TimeOption.t) : Prop :=
  TimeOption.datetime o = start_time slot
  /\ format_time (Date_parse (start_time slot)) = Ok (TimeOption.value o)
  /\ TimeOption.label o = TimeOption.value o.

(** The instants that a sequence of start times denotes, the start
    instants of a sequence of selectable slots, and what it means for a
    sequence to be ordered by them. *)
Definition instants (l : list JSString) : list Z :=
  List.flat_map
    (fun s =>
       match Date_parse s with
       | Some t => [t]
       | None => []
       end)
    l.

Definition startInstants (l : list TimeOption.t) : list Z :=
  instants (List.map TimeOption.datetime l).

Fixpoint ascending (l : list Z) : bool :=
  match l with
  | a :: (b :: _) as rest => (Z.leb a b && ascending rest)%bool
  | _ => true
  end.

(** The [min] attribute of the date input: tomorrow's date. *)
Definition minDate (now : Z) : JSString :=
  format_yyyyMMdd (addDays now 1).

End Handlers.

End BookingForm.

(* ===================================================================== *)
(** * An implementation of the date interface                             *)
(* ===================================================================== *)

(** Dates for an engine whose local zone is a fixed [offset] (in minutes
    east of UTC).  [Date_parse] reads the date-time form without zone
    designator, [YYYY-MM-DDTHH:mm] or [YYYY-MM-DDTHH:mm:ss], as local time,
    which is what ECMAScript prescribes for it.  These are the strings
    that the form builds and the zone-less start times of the runs below;
    any other string is taken as the Invalid Date here, also where an
    engine reads more (a zone designator, milliseconds, a day past the end
    of its month).  The theorems stated over [DateApi] do not depend on
    this implementation. *)
Module IsoDate.

Local Open Scope Z_scope.

Definition is_leap (y : Z) : bool :=
  ((y mod 4 =? 0) && (negb (y mod 100 =? 0) || (y mod 400 =? 0)))%bool.

Definition days_in_month (y m : Z) : Z :=
  if m =? 2 then (if is_leap y then 29 else 28)
  else if (m =? 4) || (m =? 6) || (m =? 9) || (m =? 11) then 30
  else 31.

(** Days since 1970-01-01 of a date of the proleptic Gregorian calendar. *)
Definition days_from_civil (y m d : Z) : Z :=
  let y' := if m <=? 2 then y - 1 else y in
  let era := y' / 400 in
  let yoe := y' - era * 400 in
  let mp := (m + 9) mod 12 in
  let doy := (153 * mp + 2) / 5 + d - 1 in
  let doe := yoe * 365 + yoe / 4 - yoe / 100 + doy in
  era * 146097 + doe - 719468.

Definition civil_from_days (z : Z) : Z * Z * Z :=
  let z := z + 719468 in
  let era := z / 146097 in
  let doe := z - era * 146097 in
  let yoe := (doe - doe / 1460 + doe / 36524 - doe / 146096) / 365 in
  let y := yoe + era * 400 in
  let doy := doe - (365 * yoe + yoe / 4 - yoe / 100) in
  let mp := (5 * doy + 2) / 153 in
  let d := doy - (153 * mp + 2) / 5 + 1 in
  let m := if mp <? 10 then mp + 3 else mp - 9 in
  (if m <=? 2 then y + 1 else y, m, d).

Fixpoint number (s : JSString) (acc : Z) : option Z :=
  match s with
  | [] => Some acc
  | c :: rest =>
      if digit c then number rest (10 * acc + (Z.of_N c - 48)) else None
  end.

(** The decimal number written in [len] digits from position [from]. *)
Definition field (s : JSString) (from len : nat) : option Z :=
  let digits := firstn len (skipn from s) in
  if Nat.eqb (List.length digits) len then number digits 0 else None.

Definition sep (s : JSString) (pos : nat) (a : ascii) : bool :=
  match nth_error s pos with
  | Some c => is_char a c
  | None => false
  end.

Definition ms_per_minute : Z := 60000.
Definition ms_per_day : Z := 86400000.

Definition parse (offset : Z) (s : JSString) : option Z :=
  let n := List.length s in
  if (Nat.eqb n 16 || Nat.eqb n 19)%bool
     && sep s 4 "-" && sep s 7 "-" && sep s 10 "T" && sep s 13 ":"
     && (Nat.eqb n 16 || sep s 16 ":")%bool
  then
    match field s 0 4, field s 5 2, field s 8 2, field s 11 2, field s 14 2,
          (if Nat.eqb n 16 then Some 0 else field s 17 2) with
    | Some y, Some m, Some d, Some h, Some mi, Some sec =>
        if (1 <=? m) && (m <=? 12) && (1 <=? d) && (d <=? days_in_month y m)
           && (h <=? 23) && (mi <=? 59) && (sec <=? 59)
        then Some (days_from_civil y m d * ms_per_day
                   + (h * 60 + mi - offset) * ms_per_minute + sec * 1000)
        else None
    | _, _, _, _, _, _ => None
    end
  else None.

(** The last [width] decimal digits of [z], most significant first. *)
Fixpoint pad (width : nat) (z : Z) : JSString :=
  match width with
  | O => []
  | S width' => pad width' (z / 10) ++ [Z.to_N (48 + z mod 10)]
  end.

Definition year_text (y : Z) : JSString :=
  if (0 <=? y) && (y <=? 9999) then pad 4 y
  else if y <? 0 then str "-" ++ pad 6 (- y)
  else str "+" ++ pad 6 y.

Definition date_text (day : Z) : JSString :=
  let '(y, m, d) := civil_from_days day in
  year_text y ++ str "-" ++ pad 2 m ++ str "-" ++ pad 2 d.

Definition toISOString (t : Z) : JSString :=
  let ms := t mod ms_per_day in
  date_text (t / ms_per_day) ++ str "T"
    ++ pad 2 (ms / 3600000) ++ str ":"
    ++ pad 2 (ms / 60000 mod 60) ++ str ":"
    ++ pad 2 (ms / 1000 mod 60) ++ str "."
    ++ pad 3 (ms mod 1000) ++ str "Z".

Definition local (offset t : Z) : Z := t + offset * ms_per_minute.

Definition format_HHmm (offset t : Z) : JSString :=
  let ms := local offset t mod ms_per_day in
  pad 2 (ms / 3600000) ++ str ":" ++ pad 2 (ms / 60000 mod 60).

Definition format_yyyyMMdd (offset t : Z) : JSString :=
  date_text (local offset t / ms_per_day).

Definition addDays (t amount : Z) : Z := t + amount * ms_per_day.

Definition api (offset : Z) : DateApi :=
  Build_DateApi (parse offset) toISOString (format_HHmm offset)
    (format_yyyyMMdd offset) addDays.

End IsoDate.

(* ===================================================================== *)
(** * CheckoutForm.jsx                                                    *)
(* ===================================================================== *)

Module CheckoutForm.

Module BillingDetails.
Record t : Type := mk {
  name : JSString;
  email : JSString;
  phone : JSString
}.
End BillingDetails.

(** The [paymentIntent] of a confirmation. *)
Module PaymentIntent.
Record t : Type := mk {
  id : JSString;
  status : JSString
}.
End PaymentIntent.

Inductive Event : Type :=
| CreateIntent (amount : Z) (currency : JSString) (appointment_id : Z)
| ConfirmPayment (clientSecret : JSString) (return_url : JSString)
    (billing_details : BillingDetails.t)
| CalledOnSuccess (paymentIntent : PaymentIntent.t) (appointment : Appointment.t)
| CalledOnError (error : JSError)
| ConsoleError.

(** What [await stripe.confirmPayment(...)] can do with
    [redirect: 'if_required']. *)
Inductive Confirmation : Type :=
| WithError (message : JSString)               (* resolves with [{ error }] *)
| WithIntent (paymentIntent : PaymentIntent.t) (* resolves with [{ paymentIntent }] *)
| Redirects                                    (* the browser leaves the page *)
| Rejects (message : JSString).                (* the promise rejects *)

(** The back end's [create-intent] endpoint and the payment processor.
    Their answers may depend on everything the component did before. *)
Class Processor : Type := {
  createIntent : list Event -> Z -> JSString -> Z -> Response JSString;
  confirmPayment :
    list Event -> JSString -> JSString -> BillingDetails.t -> Confirmation
}.

(** The hooks of the component and the trace of outside effects. *)
Record World : Type := mkWorld {
  stripe : bool;                (* [useStripe()] is not null *)
  elements : bool;              (* [useElements()] is not null *)
  isProcessing : bool;
  message : option JSString;
  email : JSString;
  log : list Event
}.

Definition setIsProcessing (b : bool) : M World unit :=
  modify (fun w =>
    {| stripe := stripe w; elements := elements w; isProcessing := b;
       message := message w; email := email w; log := log w |}).

Definition setMessage (m : option JSString) : M World unit :=
  modify (fun w =>
    {| stripe := stripe w; elements := elements w;
       isProcessing := isProcessing w;
       message := m; email := email w; log := log w |}).

Definition with_event (e : Event) (w : World) : World :=
  {| stripe := stripe w; elements := elements w;
     isProcessing := isProcessing w;
     message := message w; email := email w; log := log w ++ [e] |}.

Definition console_error : M World unit := modify (with_event ConsoleError).

Definition party_popper : JSString := [55356%N; 57225%N].

Definition success_message : JSString :=
  str "Pagamento completato con successo! " ++ party_popper.

Definition failure_message : JSString :=
  str "Si " ++ [232%N] ++ str " verificato un errore durante il pagamento.".

Definition succeeded : JSString := str "succeeded".

Section Handlers.
Context {processor : Processor}.

(** The props; [appointment] may be missing, the callbacks are
    optional and return or throw. *)
Variable appointment : option Appointment.t.
Variable onSuccess :
  option (PaymentIntent.t -> Appointment.t -> option JSError).
Variable onError : option (JSError -> option JSError).

(** [window.location.origin]. *)
Variable origin : JSString.

Local Open Scope js_scope.

(** [appointment.service_price] and the like. *)
Definition read_appointment {A} (f : Appointment.t -> A) : M World A :=
  match appointment with
  | Some a => ret (f a)
  | None => throw TypeError
  end.

(** [await apiService.payments.createIntent(...)], then
    [.data.client_secret].  The response interceptor of the instance touches
    [localStorage] and [location] only, which the component does not read:
    the rejection reaches the handler as it is. *)
Definition api_createIntent (amount : Z) (currency : JSString)
    (appointment_id : Z) : M World JSString :=
  fun w =>
    let w' := with_event (CreateIntent amount currency appointment_id) w in
    match createIntent (log w) amount currency appointment_id with
    | Resolved client_secret => (Ok client_secret, w')
    | Rejected error => (Throw (RequestError error), w')
    end.

(** [await stripe.confirmPayment({...})]; the result is the pair
    [error], [paymentIntent]. *)
Definition stripe_confirmPayment (clientSecret return_url : JSString)
    (billing_details : BillingDetails.t)
    : M World (option JSString * option PaymentIntent.t) :=
  fun w =>
    let w' :=
      with_event (ConfirmPayment clientSecret return_url billing_details) w in
    match confirmPayment (log w) clientSecret return_url billing_details with
    | WithError message => (Ok (Some message, None), w')
    | WithIntent paymentIntent => (Ok (None, Some paymentIntent), w')
    | Redirects => (Unloaded, w')
    | Rejects message => (Throw (ForeignError message), w')
    end.

Definition call_onError (error : JSError) : M World unit :=
  match onError with
  | Some callback =>
      fun w =>
        let w' := with_event (CalledOnError error) w in
        match callback error with
        | None => (Ok tt, w')
        | Some e => (Throw e, w')
        end
  | None => ret tt
  end.

Definition call_onSuccess (paymentIntent : PaymentIntent.t) : M World unit :=
  match onSuccess, appointment with
  | Some callback, Some a =>
      fun w =>
        let w' := with_event (CalledOnSuccess paymentIntent a) w in
        match callback paymentIntent a with
        | None => (Ok tt, w')
        | Some e => (Throw e, w')
        end
  | _, _ => ret tt
  end.

Definition handleSubmit : M World unit :=
  fun w =>
    if (negb (stripe w) || negb (elements w))%bool then (Ok tt, w)
    else
      (setIsProcessing true ;;
       setMessage None ;;
       try_finally
         (try_catch
            (amount <- read_appointment Appointment.service_price ;;
             appointment_id <- read_appointment Appointment.id ;;
             client_secret <-
               api_createIntent amount (str "eur") appointment_id ;;
             name <- read_appointment Appointment.customer_name ;;
             email <- gets email ;;
             phone <- read_appointment Appointment.customer_phone ;;
             result <-
               stripe_confirmPayment client_secret
                 (origin ++ str "/payment-success")
                 {| BillingDetails.name := name;
                    BillingDetails.email := email;
                    BillingDetails.phone := phone |} ;;
             match result with
             | (Some error_message, _) =>
                 console_error ;;
                 setMessage (Some error_message) ;;
                 call_onError (ForeignError error_message)
             | (None, Some paymentIntent) =>
                 if jseqb (PaymentIntent.status paymentIntent) succeeded
                 then
                   setMessage (Some success_message) ;;
                   call_onSuccess paymentIntent
                 else ret tt
             | (None, None) => ret tt
             end)
            (fun error =>
               console_error ;;
               setMessage (Some failure_message) ;;
               call_onError error))
         (setIsProcessing false))
        w.

Definition is_request (e : Event) : bool :=
  match e with
  | CreateIntent _ _ _ | ConfirmPayment _ _ _ => true
  | _ => false
  end.

(** The confirm request that a submission makes for an appointment, with
    the email of the form, once it holds the handle [clientSecret]. *)
Definition confirm_request (a : Appointment.t) (origin email clientSecret : JSString)
    : Event :=
  ConfirmPayment clientSecret (origin ++ str "/payment-success")
    {| BillingDetails.name := Appointment.customer_name a;
       BillingDetails.email := email;
       BillingDetails.phone := Appointment.customer_phone a |}.

(** The confirm requests in a trace that carry a given handle. *)
Definition confirms_of (clientSecret : JSString) (l : list Event) : list Event :=
  List.filter
    (fun e =>
       match e with
       | ConfirmPayment secret _ _ => jseqb secret clientSecret
       | _ => false
       end)
    l.

End Handlers.

End CheckoutForm.

(* ===================================================================== *)
(** * Concrete runs                                                       *)
(* ===================================================================== *)

(** A browser in a zone one hour east of UTC, a customer, and a few remote
    parties, to run the handlers on. *)
Module Scenario.

Definition rome : DateApi := IsoDate.api 60.

(** Monday 2 November 2026, 12:00 UTC. *)
Definition now : Z := 1793620800000.

Definition draft (phone service date time : string) (prepay : bool) : FormData.t :=
  {| FormData.customer_name := str "Mario Rossi";
     FormData.customer_phone := str phone;
     FormData.customer_email := [];
     FormData.service_type := str service;
     FormData.appointment_date := str date;
     FormData.appointment_time := str time;
     FormData.notes := [];
     FormData.requires_prepayment := prepay |}.

(** Scenario A of the specification, on a fixed future day. *)
Definition mario : FormData.t :=
  draft "+39 123 456 7890" "haircut" "2030-01-15" "10:00" false.

(** The record the server makes of a request. *)
Definition record_of (id : Z) (data : AppointmentData.t) : Appointment.t :=
  {| Appointment.id := id;
     Appointment.customer_name := AppointmentData.customer_name data;
     Appointment.customer_phone := AppointmentData.customer_phone data;
     Appointment.customer_email := AppointmentData.customer_email data;
     Appointment.appointment_datetime := AppointmentData.appointment_datetime data;
     Appointment.service_type := AppointmentData.service_type data;
     Appointment.service_duration := AppointmentData.service_duration data;
     Appointment.service_price := AppointmentData.service_price data;
     Appointment.notes := AppointmentData.notes data;
     Appointment.requires_prepayment := AppointmentData.requires_prepayment data;
     Appointment.status :=
       if AppointmentData.requires_prepayment data then pending else confirmed |}.

(** The request for a haircut that a draft gives rise to, [datetime]
    being the ISO text of its instant. *)
Definition haircut_request (d : FormData.t) (datetime : string) : AppointmentData.t :=
  {| AppointmentData.customer_name := FormData.customer_name d;
     AppointmentData.customer_phone := FormData.customer_phone d;
     AppointmentData.customer_email := None;
     AppointmentData.appointment_datetime := str datetime;
     AppointmentData.service_type := str "haircut";
     AppointmentData.service_duration := 30;
     AppointmentData.service_price := 25;
     AppointmentData.notes := None;
     AppointmentData.requires_prepayment := FormData.requires_prepayment d |}.

(** A draft for a day long gone. *)
Definition stale : FormData.t :=
  draft "+39 123 456 7890" "haircut" "2020-01-01" "10:00" false.

(** The page is rendered late on Monday 2 November 2026 (23:30 local
    time) and the form is sent the next morning (11:00 local time) for a
    slot of that morning (10:00 local time). *)
Definition rendered : Z := 1793658600000.
Definition sent : Z := 1793700000000.
Definition overnight : FormData.t :=
  draft "+39 123 456 7890" "haircut" "2026-11-03" "10:00" false.

(** A draft with a phone number that is not one. *)
Definition mistyped : FormData.t :=
  draft "abc" "haircut" "2030-01-15" "10:00" false.

Definition morning : list Slot :=
  [ {| start_time := str "2030-01-15T10:00:00"; available := true |};
    {| start_time := str "2030-01-15T09:30:00"; available := false |};
    {| start_time := str "2030-01-15T09:00:00"; available := true |} ].

(** A server that accepts every booking and lists the morning's slots
    latest first. *)
Definition accepting : BookingForm.Backend :=
  {| BookingForm.create := fun _ data => Resolved (record_of 7 data);
     BookingForm.getAvailability := fun _ _ => Resolved (Some morning) |}.

(** A server that refuses every booking and answers the availability
    query without an [available_slots] field. *)
Definition refusing : BookingForm.Backend :=
  {| BookingForm.create :=
       fun _ _ =>
         Rejected {| Api.status := Some 409%Z;
                     Api.detail := Some (VString (str "Slot non disponibile")) |};
     BookingForm.getAvailability := fun _ _ => Resolved None |}.

(** The form as mounted, with a draft typed in and the effects run. *)
Definition world (data : FormData.t) : BookingForm.World :=
  {| BookingForm.store := AppContext.initialState;
     BookingForm.values := data;
     BookingForm.errors := [];
     BookingForm.availableSlots := [];
     BookingForm.selectedService :=
       BookingForm.find_service (FormData.service_type data);
     BookingForm.log := [];
     BookingForm.browser :=
       {| Api.localStorage := [("authToken"%string, str "tok_mario")];
          Api.href := str "/booking" |} |}.

(** The appointment to pay for. *)
Definition booked : Appointment.t :=
  {| Appointment.id := 7;
     Appointment.customer_name := str "Mario Rossi";
     Appointment.customer_phone := str "+39 123 456 7890";
     Appointment.customer_email := None;
     Appointment.appointment_datetime := str "2030-01-15T09:00:00.000Z";
     Appointment.service_type := str "haircut";
     Appointment.service_duration := 30;
     Appointment.service_price := 25;
     Appointment.notes := None;
     Appointment.requires_prepayment := true;
     Appointment.status := pending |}.

Definition secret : JSString := str "pi_7_secret_1".

Definition paid : CheckoutForm.PaymentIntent.t :=
  {| CheckoutForm.PaymentIntent.id := str "pi_7";
     CheckoutForm.PaymentIntent.status := CheckoutForm.succeeded |}.

(** A back end that hands out the same handle for the same appointment,
    with a processor that accepts the payment. *)
Definition approving : CheckoutForm.Processor :=
  {| CheckoutForm.createIntent := fun _ _ _ _ => Resolved secret;
     CheckoutForm.confirmPayment := fun _ _ _ _ => CheckoutForm.WithIntent paid |}.

(** The same back end with a processor that declines the card. *)
Definition declining : CheckoutForm.Processor :=
  {| CheckoutForm.createIntent := fun _ _ _ _ => Resolved secret;
     CheckoutForm.confirmPayment :=
       fun _ _ _ _ => CheckoutForm.WithError (str "Your card was declined.") |}.

(** The checkout form once Stripe has loaded. *)
Definition checkout : CheckoutForm.World :=
  {| CheckoutForm.stripe := true;
     CheckoutForm.elements := true;
     CheckoutForm.isProcessing := false;
     CheckoutForm.message := None;
     CheckoutForm.email := str "mario.rossi@email.com";
     CheckoutForm.log := [] |}.

Definition origin : JSString := str "https://barbiere.example".

End Scenario.

(* ===================================================================== *)
(** * Runs of the store                                                   *)
(* ===================================================================== *)

(** [useReducer] applies the dispatched actions one after the other, in
    the order of dispatch. *)
Definition dispatch_all (state : AppContext.State)
    (actions : list AppContext.Action) : AppContext.State :=
  List.fold_left AppContext.appReducer actions state.

(** The ids of the cached appointments, in list order. *)
Definition ids (state : AppContext.State) : list Z :=
  List.map Appointment.id (AppContext.appointments state).

(* ===================================================================== *)
(** * More remote parties                                                 *)
(* ===================================================================== *)

Module Cases.

(** A processor that has not finished with the payment when it answers. *)
Definition stalling : CheckoutForm.Processor :=
  {| CheckoutForm.createIntent := fun _ _ _ _ => Resolved Scenario.secret;
     CheckoutForm.confirmPayment :=
       fun _ _ _ _ =>
         CheckoutForm.WithIntent
           {| CheckoutForm.PaymentIntent.id := str "pi_7";
              CheckoutForm.PaymentIntent.status := str "processing" |} |}.

(** The error of a request that got no response. *)
Definition no_response : Api.HttpError :=
  {| Api.status := None; Api.detail := None |}.




(** A back end that cannot create payment intents. *)
Definition unreachable : CheckoutForm.Processor :=
  {| CheckoutForm.createIntent :=
       fun _ _ _ _ =>
         Rejected {| Api.status := Some 503%Z;
                     Api.detail :=
                       Some (VString (str "Payment service unavailable")) |};
     CheckoutForm.confirmPayment :=
       fun _ _ _ _ => CheckoutForm.Rejects (str "unreachable") |}.

End Cases.

(* ===================================================================== *)
(** * Confirmation.jsx                                                    *)
(* ===================================================================== *)

Module Confirmation.

Inductive Event : Type :=
| CalledOnPaymentRequired (appointment : Appointment.t)
| ConsoleError.

Record World : Type := mkWorld {
  isProcessing : bool;
  log : list Event
}.

Definition setIsProcessing (b : bool) : M World unit :=
  modify (fun w => {| isProcessing := b; log := log w |}).

Definition with_event (e : Event) (w : World) : World :=
  {| isProcessing := isProcessing w; log := log w ++ [e] |}.

(** The label table of the page. *)
Definition serviceTypeLabels : list (JSString * JSString) :=
  [ (str "haircut", str "Taglio di Capelli");
    (str "beard_trim", str "Sistemazione Barba");
    (str "shave", str "Rasatura");
    (str "wash_and_cut", str "Lavaggio e Taglio");
    (str "styling", str "Styling") ].

(** The own property of an object literal under a key. *)
Fixpoint own (table : list (JSString * JSString)) (key : JSString)
    : option JSString :=
  match table with
  | [] => None
  | (k, v) :: rest => if jseqb k key then Some v else own rest key
  end.

Section Handlers.

(** The handlers exist only past the early return on a missing
    appointment. *)
Variable appointment : Appointment.t.

(** The [onPaymentRequired] prop: absent, or an asynchronous callback that
    resolves or rejects. *)
Variable onPaymentRequired : option (Appointment.t -> option JSError).

(** Whether a key names a member that every object inherits
    ([constructor], [toString], ...): reading it from the table gives that
    member, which is no text. *)
Variable inherited : JSString -> bool.

Local Open Scope js_scope.

Definition handlePayment : M World unit :=
  fun w =>
    match onPaymentRequired with
    | Some callback =>
        if negb (Appointment.requires_prepayment appointment) then (Ok tt, w)
        else
          (setIsProcessing true ;;
           try_finally
             (try_catch
                (fun w1 =>
                   let w2 := with_event (CalledOnPaymentRequired appointment) w1 in
                   match callback appointment with
                   | None => (Ok tt, w2)
                   | Some e => (Throw e, w2)
                   end)
                (fun error => modify (with_event ConsoleError)))
             (setIsProcessing false))
            w
    | None => (Ok tt, w)
    end.

(** [serviceTypeLabels[appointment.service_type] ||
    appointment.service_type]: the text shown, or [None] when the value is
    an inherited member. *)
Definition shown_service (code : JSString) : option JSString :=
  match own serviceTypeLabels code with
  | Some label => Some (or_else label code)
  | None => if inherited code then None else Some code
  end.

End Handlers.

End Confirmation.

(* ===================================================================== *)
(** * CalendarView.jsx                                                    *)
(* ===================================================================== *)

(** [parseISO] and the day comparison behind [isSameDay], which belong to
    date-fns and to the time zone. *)
Class CalendarDates : Type := {
  parseISO : JSString -> option Z;
  same_local_day : Z -> Z -> bool
}.

(** [array.sort((a, b) => key(a) - key(b))]: since the comparator is a
    difference of numbers it orders consistently, and the sort is stable;
    insertion from the right gives that order. *)
Fixpoint insert_by {A} (key : A -> Z) (x : A) (l : list A) : list A :=
  match l with
  | [] => [x]
  | y :: l' => if Z.leb (key x) (key y) then x :: l else y :: insert_by key x l'
  end.

Fixpoint sort_by {A} (key : A -> Z) (l : list A) : list A :=
  match l with
  | [] => []
  | x :: l' => insert_by key x (sort_by key l')
  end.

Module CalendarView.

Section View.
Context {date_api : DateApi} {calendar_dates : CalendarDates}.

(** [isSameDay(parseISO(text), date)]; an Invalid Date is the same day as
    nothing. *)
Definition isSameDay (text : JSString) (date : Z) : bool :=
  match parseISO text with
  | Some t => same_local_day t date
  | None => false
  end.

(** The effect on [selectedDate] and [appointments]. *)
Definition dayAppointments (appointments : list Appointment.t)
    (selectedDate : Z) : list Appointment.t :=
  List.filter
    (fun apt => isSameDay (Appointment.appointment_datetime apt) selectedDate)
    appointments.

(** [tileContent]: whether the tile gets its dot. *)
Definition tileContent (appointments : list Appointment.t) (date : Z)
    (view : JSString) : bool :=
  if jseqb view (str "month")
  then Nat.ltb 0 (List.length (dayAppointments appointments date))
  else false.

(** [tileClassName]. *)
Definition tileClassName (appointments : list Appointment.t) (date : Z)
    (view : JSString) : option JSString :=
  if jseqb view (str "month")
  then
    if List.existsb
         (fun apt => isSameDay (Appointment.appointment_datetime apt) date)
         appointments
    then Some (str "has-appointments")
    else None
  else None.

(** [new Date(apt.appointment_datetime)] as a number; an Invalid Date is
    NaN. *)
Definition instant (apt : Appointment.t) : option Z :=
  Date_parse (Appointment.appointment_datetime apt).

Definition instant_or_zero (apt : Appointment.t) : Z :=
  match instant apt with
  | Some t => t
  | None => 0
  end.

(** The day's list as displayed:
    [dayAppointments.sort((a, b) => new Date(a...) - new Date(b...))].
    With an Invalid Date among them the comparator yields NaN and the
    language leaves the order to the engine: [None]. *)
Definition displayed (day : list Appointment.t) : option (list Appointment.t) :=
  if List.forallb
       (fun apt => match instant apt with Some _ => true | None => false end)
       day
  then Some (sort_by instant_or_zero day)
  else None.

End View.

End CalendarView.

(* ===================================================================== *)
(** * VoiceInput.jsx                                                      *)
(* ===================================================================== *)

Module VoiceInput.

(** One entry of [event.results]: the text of its first alternative and
    whether it is final. *)
Record SpeechResult : Type := mkResult {
  transcript : JSString;
  isFinal : bool
}.

Record ResultEvent : Type := mkEvent {
  resultIndex : nat;
  results : list SpeechResult
}.

Inductive Event : Type :=
| CalledOnTranscript (text : JSString)
| CalledOnError (error : JSString)
| ConsoleError
| Start
| Stop.

Record World : Type := mkWorld {
  isListening : bool;
  heard : JSString;                 (* the state [transcript] *)
  interimTranscript : JSString;
  recognition : bool;               (* [recognitionRef.current] is set *)
  log : list Event
}.

Definition setIsListening (b : bool) (w : World) : World :=
  {| isListening := b; heard := heard w;
     interimTranscript := interimTranscript w;
     recognition := recognition w; log := log w |}.

Definition setTranscript (f : JSString -> JSString) (w : World) : World :=
  {| isListening := isListening w; heard := f (heard w);
     interimTranscript := interimTranscript w;
     recognition := recognition w; log := log w |}.

Definition setInterimTranscript (s : JSString) (w : World) : World :=
  {| isListening := isListening w; heard := heard w;
     interimTranscript := s;
     recognition := recognition w; log := log w |}.

Definition with_event (e : Event) (w : World) : World :=
  {| isListening := isListening w; heard := heard w;
     interimTranscript := interimTranscript w;
     recognition := recognition w; log := log w ++ [e] |}.

(** The body of the [for] loop, on the pair of accumulators. *)
Definition take_part (acc : JSString * JSString) (r : SpeechResult)
    : JSString * JSString :=
  let '(finalTranscript, interim) := acc in
  if isFinal r then (finalTranscript ++ transcript r, interim)
  else (finalTranscript, interim ++ transcript r).

(** [for (let i = event.resultIndex; i < event.results.length; i++)]. *)
Definition collect (event : ResultEvent) : JSString * JSString :=
  List.fold_left take_part (List.skipn (resultIndex event) (results event))
    ([], []).

Section Handlers.

Variable onTranscript : option (JSString -> option JSError).
Variable onError : option (JSString -> option JSError).

Local Open Scope js_scope.

(** [recognition.onresult]. *)
Definition onresult (event : ResultEvent) : M World unit :=
  let '(finalTranscript, interim) := collect event in
  modify (setTranscript (fun prev => prev ++ finalTranscript)) ;;
  modify (setInterimTranscript interim) ;;
  match onTranscript with
  | Some callback =>
      if falsy finalTranscript then ret tt
      else
        fun w =>
          let w' := with_event (CalledOnTranscript finalTranscript) w in
          match callback finalTranscript with
          | None => (Ok tt, w')
          | Some e => (Throw e, w')
          end
  | None => ret tt
  end.

(** [recognition.onerror]. *)
Definition onerror (error : JSString) : M World unit :=
  modify (with_event ConsoleError) ;;
  modify (setIsListening false) ;;
  match onError with
  | Some callback =>
      fun w =>
        let w' := with_event (CalledOnError error) w in
        match callback error with
        | None => (Ok tt, w')
        | Some e => (Throw e, w')
        end
  | None => ret tt
  end.

Definition onstart : M World unit := modify (setIsListening true).
Definition onend : M World unit := modify (setIsListening false).

Definition startListening : M World unit :=
  fun w =>
    if (recognition w && negb (isListening w))%bool
    then
      (modify (setTranscript (fun _ => [])) ;;
       modify (setInterimTranscript []) ;;
       modify (with_event Start)) w
    else (Ok tt, w).

Definition stopListening : M World unit :=
  fun w =>
    if (recognition w && isListening w)%bool
    then modify (with_event Stop) w
    else (Ok tt, w).

Definition clearTranscript : M World unit :=
  modify (setTranscript (fun _ => [])) ;;
  modify (setInterimTranscript []).

End Handlers.

End VoiceInput.

(* ===================================================================== *)
(** * TTSPlayer.jsx                                                       *)
(* ===================================================================== *)

(** [String.prototype.trim]: white space and line terminators are taken
    off both ends. *)
Fixpoint trimStart (s : JSString) : JSString :=
  match s with
  | [] => []
  | c :: rest => if white_space c then trimStart rest else s
  end.

Definition trimEnd (s : JSString) : JSString :=
  List.rev (trimStart (List.rev s)).

Definition trim (s : JSString) : JSString := trimEnd (trimStart s).

Module TTSPlayer.

Inductive Event : Type :=
| Synthesize (text language : JSString)
| CreateObjectURL
| RevokeObjectURL (url : JSString)
| Pause (url : JSString)
| Rewind (url : JSString)
| Play (url : JSString)
| ConsoleError.

(** The synthesis endpoint and the browser: the object URL it makes for
    the next blob, and whether playing it starts or is refused. *)
Class Player : Type := {
  synthesize : list Event -> JSString -> JSString -> Response JSString;
  createObjectURL : list Event -> JSString;
  play : list Event -> JSString -> option JSError
}.

Record World : Type := mkWorld {
  isPlaying : bool;
  isLoading : bool;
  error : option JSString;
  audio : option JSString;        (* [audioRef.current], by its [src] *)
  log : list Event
}.

Definition setIsPlaying (b : bool) (w : World) : World :=
  {| isPlaying := b; isLoading := isLoading w; error := error w;
     audio := audio w; log := log w |}.

Definition setIsLoading (b : bool) (w : World) : World :=
  {| isPlaying := isPlaying w; isLoading := b; error := error w;
     audio := audio w; log := log w |}.

Definition setError (e : option JSString) (w : World) : World :=
  {| isPlaying := isPlaying w; isLoading := isLoading w; error := e;
     audio := audio w; log := log w |}.

Definition setAudio (a : option JSString) (w : World) : World :=
  {| isPlaying := isPlaying w; isLoading := isLoading w; error := error w;
     audio := a; log := log w |}.

Definition with_event (e : Event) (w : World) : World :=
  {| isPlaying := isPlaying w; isLoading := isLoading w; error := error w;
     audio := audio w; log := log w ++ [e] |}.

(** [!text || text.trim() === '']. *)
Definition blank (text : JSString) : bool :=
  (falsy text || jseqb (trim text) [])%bool.

Definition synthesis_message : JSString := str "Errore nella sintesi vocale".
Definition playback_message : JSString := str "Errore nella riproduzione audio".

Section Handlers.
Context {player : Player}.

Variable text : JSString.
Variable language : JSString.

Local Open Scope js_scope.

(** [await apiService.tts.synthesize(text, language)], then [.data]; as
    for the other components, the interceptor leaves the rejection as it
    is. *)
Definition api_synthesize : M World JSString :=
  fun w =>
    let w' := with_event (Synthesize text language) w in
    match synthesize (log w) text language with
    | Resolved data => (Ok data, w')
    | Rejected error => (Throw (RequestError error), w')
    end.

Definition URL_createObjectURL : M World JSString :=
  fun w => (Ok (createObjectURL (log w)), with_event CreateObjectURL w).

Definition audio_play (url : JSString) : M World unit :=
  fun w =>
    let w' := with_event (Play url) w in
    match play (log w) url with
    | None => (Ok tt, w')
    | Some e => (Throw e, w')
    end.

Definition playTTS : M World unit :=
  fun w =>
    if blank text then (Ok tt, w)
    else
      try_finally
        (try_catch
           (modify (setIsLoading true) ;;
            modify (setError None) ;;
            data <- api_synthesize ;;
            audioUrl <- URL_createObjectURL ;;
            current <- gets audio ;;
            match current with
            | Some old =>
                modify (with_event (Pause old)) ;;
                modify (with_event (RevokeObjectURL old))
            | None => ret tt
            end ;;
            modify (setAudio (Some audioUrl)) ;;
            audio_play audioUrl)
           (fun e =>
              modify (with_event ConsoleError) ;;
              modify (setError (Some synthesis_message))))
        (modify (setIsLoading false))
        w.

Definition stopTTS : M World unit :=
  fun w =>
    match audio w with
    | Some url =>
        (modify (with_event (Pause url)) ;;
         modify (with_event (Rewind url)) ;;
         modify (setIsPlaying false)) w
    | None => (Ok tt, w)
    end.

(** The handlers that [playTTS] puts on the audio it creates. *)
Definition audio_onplay : M World unit := modify (setIsPlaying true).

Definition audio_onended (audioUrl : JSString) : M World unit :=
  modify (setIsPlaying false) ;;
  modify (with_event (RevokeObjectURL audioUrl)).

Definition audio_onerror (audioUrl : JSString) : M World unit :=
  modify (setIsPlaying false) ;;
  modify (setError (Some playback_message)) ;;
  modify (with_event (RevokeObjectURL audioUrl)).

End Handlers.

End TTSPlayer.

(* ===================================================================== *)
(** * The authentication service                                          *)
(* ===================================================================== *)

Module AuthService.

(** [response.data] of the token endpoint. *)
Record Tokens : Type := mkTokens {
  access_token : JSString;
  token_type : JSString
}.

(** What [login] resolves with. *)
Inductive LoginResult : Type :=
| Success (user : JSString)
| Failure (error : option JSValue).

Record World : Type := mkWorld {
  token : option JSString;          (* [this.token] *)
  user : option JSString;           (* [this.user], by its username *)
  browser : Api.Browser;
  sent : list Api.Config
}.

Section Service.

(** The token endpoint, and [JSON.stringify] of [{ username }]. *)
Variable token_endpoint :
  list Api.Config -> Api.Config -> JSString -> JSString -> Response Tokens.
Variable stringify_user : JSString -> JSString.

Definition login (username password : JSString) : World -> LoginResult * World :=
  fun w =>
    let config := Api.onRequest (Api.localStorage (browser w)) Api.login_config in
    match token_endpoint (sent w) config username password with
    | Resolved tokens =>
        (Success username,
         {| token := Some (access_token tokens);
            user := Some username;
            browser :=
              {| Api.localStorage :=
                   setItem "user" (stringify_user username)
                     (setItem "authToken" (access_token tokens)
                        (Api.localStorage (browser w)));
                 Api.href := Api.href (browser w) |};
            sent := sent w ++ [config] |})
    | Rejected error =>
        (Failure (value_or (Api.detail error) (str "Login failed")),
         {| token := token w;
            user := user w;
            browser := Api.onResponseError error (browser w);
            sent := sent w ++ [config] |})
    end.

Definition logout (w : World) : World :=
  {| token := None;
     user := None;
     browser :=
       {| Api.localStorage :=
            removeItem "user"
              (removeItem "authToken" (Api.localStorage (browser w)));
          Api.href := Api.href (browser w) |};
     sent := sent w |}.

(** [!!this.token]. *)
Definition isAuthenticated (w : World) : bool :=
  match token w with
  | Some t => negb (falsy t)
  | None => false
  end.

(** The [Authorization] header with which the next request for the
    appointments would leave. *)
Definition next_authorization (w : World) : option JSString :=
  getItem
    (Api.headers (Api.onRequest (Api.localStorage (browser w)) Api.getAll_config))
    "Authorization".

End Service.

End AuthService.


(* ===================================================================== *)
(** * More concrete runs                                                  *)
(* ===================================================================== *)

Module Fixtures.

(** date-fns in the zone of [Scenario.rome]: a date-time without zone is
    local, and two instants are the same day when their local dates are. *)
Definition rome_calendar : CalendarDates :=
  {| parseISO := IsoDate.parse 60;
     same_local_day :=
       fun a b =>
         Z.eqb (IsoDate.local 60 a / IsoDate.ms_per_day)
               (IsoDate.local 60 b / IsoDate.ms_per_day) |}.

Definition at_ (id : Z) (datetime : string) : Appointment.t :=
  {| Appointment.id := id;
     Appointment.customer_name := str "Mario Rossi";
     Appointment.customer_phone := str "+39 123 456 7890";
     Appointment.customer_email := None;
     Appointment.appointment_datetime := str datetime;
     Appointment.service_type := str "haircut";
     Appointment.service_duration := 30;
     Appointment.service_price := 25;
     Appointment.notes := None;
     Appointment.requires_prepayment := false;
     Appointment.status := confirmed |}.

(** Three appointments, two of them on 15 January 2030, the later one
    first. *)
Definition agenda : list Appointment.t :=
  [ at_ 1 "2030-01-15T10:00:00";
    at_ 2 "2030-01-16T09:00:00";
    at_ 3 "2030-01-15T09:00:00" ].

(** Noon of 15 January 2030, local time. *)
Definition that_day : Z := 1894705200000.

(** A speech event: one result already delivered, then a final part and a
    part still in progress. *)
Definition speech : VoiceInput.ResultEvent :=
  {| VoiceInput.resultIndex := 1;
     VoiceInput.results :=
       [ VoiceInput.mkResult (str "voglio ") true;
         VoiceInput.mkResult (str "prenotare ") true;
         VoiceInput.mkResult (str "un tag") false ] |}.

Definition listening : VoiceInput.World :=
  {| VoiceInput.isListening := true;
     VoiceInput.heard := str "voglio ";
     VoiceInput.interimTranscript := str "pren";
     VoiceInput.recognition := true;
     VoiceInput.log := [] |}.

(** A synthesis service that answers, in a browser that numbers its
    object URLs and lets the audio play. *)
Definition speaking : TTSPlayer.Player :=
  {| TTSPlayer.synthesize := fun _ _ _ => Resolved (str "RIFF");
     TTSPlayer.createObjectURL :=
       fun log => str "blob:" ++ IsoDate.pad 3 (Z.of_nat (List.length log));
     TTSPlayer.play := fun _ _ => None |}.

(** A synthesis service that is down. *)
Definition mute : TTSPlayer.Player :=
  {| TTSPlayer.synthesize :=
       fun _ _ _ => Rejected {| Api.status := None; Api.detail := None |};
     TTSPlayer.createObjectURL := fun _ => str "blob:000";
     TTSPlayer.play := fun _ _ => None |}.

(** The player while an earlier text is being played. *)
Definition playing : TTSPlayer.World :=
  {| TTSPlayer.isPlaying := true;
     TTSPlayer.isLoading := false;
     TTSPlayer.error := None;
     TTSPlayer.audio := Some (str "blob:old");
     TTSPlayer.log := [] |}.

(** A token endpoint that knows one password. *)
Definition endpoint (_ : list Api.Config) (_ : Api.Config)
    (username password : JSString) : Response AuthService.Tokens :=
  if jseqb password (str "forbici")
  then Resolved
         {| AuthService.access_token := str "tok_" ++ username;
            AuthService.token_type := str "bearer" |}
  else Rejected
         {| Api.status := Some 401%Z;
            Api.detail :=
              Some (VString (str "Incorrect username or password")) |}.

(** [JSON.stringify({ username })] for a name that needs no escaping. *)
Definition stringify (username : JSString) : JSString :=
  [123; 34]%N ++ str "username" ++ [34; 58; 34]%N ++ username ++ [34; 125]%N.

(** A visitor who is not logged in, and one who is. *)
Definition anonymous : AuthService.World :=
  {| AuthService.token := None;
     AuthService.user := None;
     AuthService.browser :=
       {| Api.localStorage := [("theme"%string, str "dark")];
          Api.href := str "/" |};
     AuthService.sent := [] |}.

Definition logged_in : AuthService.World :=
  {| AuthService.token := Some (str "tok_old");
     AuthService.user := Some (str "mario");
     AuthService.browser :=
       {| Api.localStorage :=
            [ ("authToken"%string, str "tok_old");
              ("theme"%string, str "dark") ];
          Api.href := str "/" |};
     AuthService.sent := [] |}.

End Fixtures.


(* ===================================================================== *)
(** * Properties of the patterns                                          *)
(* ===================================================================== *)

(** The matcher decides the language of the pattern. *)

Lemma lang_void_inv s : ~ lang Void s.
Proof. intro H. inversion H. Qed.

Lemma lang_eps_inv s : lang Eps s -> s = [].
Proof. intro H. inversion H. reflexivity. Qed.

Lemma lang_class_inv p s : lang (Class p) s -> exists c, s = [c] /\ p c = true.
Proof. intro H. inversion H; subst. exists c. split; [reflexivity | assumption]. Qed.

Lemma lang_cat_inv r1 r2 s :
  lang (Cat r1 r2) s -> exists u v, s = u ++ v /\ lang r1 u /\ lang r2 v.
Proof. intro H. inversion H; subst. exists u, v. repeat split; assumption. Qed.

Lemma lang_alt_inv r1 r2 s : lang (Alt r1 r2) s -> lang r1 s \/ lang r2 s.
Proof. intro H. inversion H; subst; [left | right]; assumption. Qed.

Lemma lang_star_inv r s :
  lang (Star r) s ->
  s = [] \/ exists c u v, s = c :: u ++ v /\ lang r (c :: u) /\ lang (Star r) v.
Proof.
  intro H. inversion H; subst.
  - left. reflexivity.
  - right. exists c, u, v. repeat split; assumption.
Qed.

Lemma nullable_lang r : nullable r = true <-> lang r [].
Proof.
  induction r as [| |p|r1 IH1 r2 IH2|r1 IH1 r2 IH2|r IH]; simpl.
  - split; [discriminate | intro H; destruct (lang_void_inv H)].
  - split; [intros _; constructor | reflexivity].
  - split; [discriminate|].
    intro H. apply lang_class_inv in H. destruct H as (c & E & _). discriminate E.
  - rewrite andb_true_iff, IH1, IH2. split.
    + intros [H1 H2]. exact (lang_cat H1 H2).
    + intro H. apply lang_cat_inv in H. destruct H as (u & v & E & H1 & H2).
      symmetry in E. apply app_eq_nil in E. destruct E as [-> ->].
      split; assumption.
  - rewrite orb_true_iff, IH1, IH2. split.
    + intros [H|H]; [apply lang_alt_l | apply lang_alt_r]; exact H.
    + apply lang_alt_inv.
  - split; [intros _; constructor | reflexivity].
Qed.

Lemma deriv_lang c r : forall s, lang (deriv c r) s <-> lang r (c :: s).
Proof.
  induction r as [| |p|r1 IH1 r2 IH2|r1 IH1 r2 IH2|r IH]; intro s; simpl.
  - split; intro H; destruct (lang_void_inv H).
  - split; intro H; [destruct (lang_void_inv H)|].
    apply lang_eps_inv in H. discriminate H.
  - destruct (p c) eqn:Hp; split; intro H.
    + apply lang_eps_inv in H. subst. constructor. exact Hp.
    + apply lang_class_inv in H. destruct H as (c' & E & _).
      injection E as _ ->. constructor.
    + destruct (lang_void_inv H).
    + apply lang_class_inv in H. destruct H as (c' & E & Hc).
      injection E as <- _. congruence.
  - assert (Hleft : lang (Cat (deriv c r1) r2) s -> lang (Cat r1 r2) (c :: s)).
    { intro H. apply lang_cat_inv in H. destruct H as (u & v & -> & H1 & H2).
      apply IH1 in H1. exact (lang_cat H1 H2). }
    assert (Hback : lang (Cat r1 r2) (c :: s) ->
                    lang (Cat (deriv c r1) r2) s
                    \/ (lang r1 [] /\ lang (deriv c r2) s)).
    { intro H. apply lang_cat_inv in H. destruct H as (u & v & E & H1 & H2).
      destruct u as [|c' u]; simpl in E.
      - subst v. right. split; [exact H1 | apply IH2; exact H2].
      - injection E as -> ->. left.
        apply lang_cat; [apply IH1; exact H1 | exact H2]. }
    destruct (nullable r1) eqn:Hn; split; intro H.
    + apply lang_alt_inv in H. destruct H as [H|H]; [exact (Hleft H)|].
      apply IH2 in H. apply nullable_lang in Hn.
      exact (lang_cat Hn H).
    + destruct (Hback H) as [H'|[_ H']];
        [apply lang_alt_l | apply lang_alt_r]; exact H'.
    + exact (Hleft H).
    + destruct (Hback H) as [H'|[H' _]]; [exact H'|].
      apply nullable_lang in H'. congruence.
  - split; intro H.
    + apply lang_alt_inv in H.
      destruct H as [H|H]; [apply lang_alt_l, IH1 | apply lang_alt_r, IH2]; exact H.
    + apply lang_alt_inv in H.
      destruct H as [H|H]; [apply lang_alt_l, IH1 | apply lang_alt_r, IH2]; exact H.
  - split; intro H.
    + apply lang_cat_inv in H. destruct H as (u & v & -> & H1 & H2).
      apply IH in H1. exact (lang_star_cons H1 H2).
    + apply lang_star_inv in H. destruct H as [E|(c' & u & v & E & H1 & H2)];
        [discriminate E|].
      injection E as <- ->. apply lang_cat; [apply IH; exact H1 | exact H2].
Qed.

Theorem matches_lang r s : matches r s = true <-> lang r s.
Proof.
  revert r. induction s as [|c s IH]; intro r; simpl.
  - apply nullable_lang.
  - rewrite IH. apply deriv_lang.
Qed.

(** Repetitions of a character class. *)

Lemma lang_star_class p s :
  lang (Star (Class p)) s <-> forallb p s = true.
Proof.
  split.
  - revert p. intros p H. remember (Star (Class p)) as r eqn:Er.
    induction H as [| | | | | r' | r' c u v H1 _ H2 IH2]; try discriminate Er.
    + reflexivity.
    + injection Er as ->.
      apply lang_class_inv in H1. destruct H1 as (c' & E & Hc).
      injection E as -> ->. simpl. rewrite Hc. apply IH2. reflexivity.
  - induction s as [|c s IH]; simpl; intro H.
    + constructor.
    + apply andb_true_iff in H. destruct H as [Hc Hs].
      apply (@lang_star_cons (Class p) c [] s);
        [constructor; exact Hc | apply IH; exact Hs].
Qed.

Lemma lang_times_class p n s :
  lang (Times n (Class p)) s <-> List.length s = n /\ forallb p s = true.
Proof.
  revert s. induction n as [|n IH]; intro s; simpl.
  - split.
    + intro H. apply lang_eps_inv in H. subst. split; reflexivity.
    + intros [H _]. apply length_zero_iff_nil in H. subst. constructor.
  - split.
    + intro H. apply lang_cat_inv in H. destruct H as (u & v & -> & H1 & H2).
      apply lang_class_inv in H1. destruct H1 as (c & -> & Hc).
      apply IH in H2. destruct H2 as [Hl Hv].
      simpl. rewrite Hc, Hl. split; [reflexivity | exact Hv].
    + intros [Hl Hv]. destruct s as [|c s]; [discriminate Hl|].
      simpl in *. apply andb_true_iff in Hv. destruct Hv as [Hc Hv].
      injection Hl as Hl.
      apply (@lang_cat (Class p) (Times n (Class p)) [c] s);
        [constructor; exact Hc | apply IH; split; assumption].
Qed.

Lemma lang_at_least_class p n s :
  lang (AtLeast n (Class p)) s <-> (n <= List.length s)%nat /\ forallb p s = true.
Proof.
  unfold AtLeast. split.
  - intro H. apply lang_cat_inv in H. destruct H as (u & v & -> & H1 & H2).
    apply lang_times_class in H1. destruct H1 as [Hl Hu].
    apply lang_star_class in H2.
    rewrite length_app, forallb_app, Hu, H2. split; [lia | reflexivity].
  - intros [Hl Hv].
    rewrite <- (firstn_skipn n s). rewrite <- (firstn_skipn n s) in Hv.
    rewrite forallb_app in Hv. apply andb_true_iff in Hv. destruct Hv as [H1 H2].
    apply lang_cat.
    + apply lang_times_class. split; [|exact H1].
      rewrite length_firstn. lia.
    + apply lang_star_class. exact H2.
Qed.

(** The phone pattern says: an optional plus sign, then at least ten
    characters, each a digit, white space, a hyphen or a parenthesis. *)
Theorem phone_pattern_shape s :
  matches BookingForm.phone_pattern s = true
  <-> exists body,
        (s = body \/ s = N_of_ascii "+" :: body)
        /\ (10 <= List.length body)%nat
        /\ forallb BookingForm.phone_char body = true.
Proof.
  rewrite matches_lang. unfold BookingForm.phone_pattern, Opt. split.
  - intro H. apply lang_cat_inv in H. destruct H as (u & body & -> & H1 & H2).
    apply lang_at_least_class in H2. destruct H2 as [Hl Hb].
    exists body. split; [|split; assumption].
    apply lang_alt_inv in H1. destruct H1 as [H1|H1].
    + apply lang_eps_inv in H1. subst. left. reflexivity.
    + apply lang_class_inv in H1. destruct H1 as (c & -> & Hc).
      unfold is_char in Hc. apply N.eqb_eq in Hc. subst. right. reflexivity.
  - intros (body & Hs & Hl & Hb).
    assert (H2 : lang (AtLeast 10 (Class BookingForm.phone_char)) body)
      by (apply lang_at_least_class; split; assumption).
    destruct Hs as [->| ->].
    + apply (@lang_cat _ _ [] body); [apply lang_alt_l; constructor | exact H2].
    + apply (@lang_cat _ _ [N_of_ascii "+"] body); [|exact H2].
      apply lang_alt_r. constructor. reflexivity.
Qed.

Example phone_accepted :
  matches BookingForm.phone_pattern (str "+39 123 456 7890") = true.
Proof. vm_compute. reflexivity. Qed.

Example phone_rejected :
  matches BookingForm.phone_pattern (str "abc") = false
  /\ matches BookingForm.phone_pattern (str "123456789") = false
  /\ matches BookingForm.phone_pattern (str "+39 123 456 78x0") = false.
Proof. vm_compute. repeat split. Qed.

Example email_accepted :
  matches BookingForm.email_pattern (str "mario.rossi@email.com") = true
  /\ matches BookingForm.email_pattern (str "M_R+x@A-b.example.IT") = true.
Proof. vm_compute. repeat split. Qed.

Example email_rejected :
  matches BookingForm.email_pattern (str "mario.rossi@email") = false
  /\ matches BookingForm.email_pattern (str "@email.com") = false
  /\ matches BookingForm.email_pattern (str "mario@email.c") = false.
Proof. vm_compute. repeat split. Qed.

(* ===================================================================== *)
(** * Properties of the dates                                             *)
(* ===================================================================== *)

Example iso_parse_local :
  IsoDate.parse 60 (str "2030-01-15T09:00:00") = Some 1894694400000%Z
  /\ IsoDate.parse 60 (str "2030-01-15T10:00") = Some 1894698000000%Z
  /\ IsoDate.parse 60 (str "2030-02-30T10:00") = None
  /\ IsoDate.parse 60 (str "T10:00") = None.
Proof. vm_compute. repeat split. Qed.

Example iso_texts :
  IsoDate.toISOString 1894694400000 = str "2030-01-15T08:00:00.000Z"
  /\ IsoDate.format_HHmm 60 1894694400000 = str "09:00"
  /\ IsoDate.format_yyyyMMdd 60 (IsoDate.addDays 1894694400000 1)
     = str "2030-01-16".
Proof. vm_compute. repeat split. Qed.

Example scenario_clock :
  IsoDate.parse 0 (str "2026-11-02T12:00") = Some Scenario.now
  /\ IsoDate.parse 60 (str "2026-11-02T23:30") = Some Scenario.rendered
  /\ IsoDate.parse 60 (str "2026-11-03T11:00") = Some Scenario.sent.
Proof. vm_compute. repeat split. Qed.

Example civil_round_trip :
  IsoDate.civil_from_days (IsoDate.days_from_civil 2024 2 29) = (2024, 2, 29)%Z
  /\ IsoDate.civil_from_days (IsoDate.days_from_civil 1969 12 31) = (1969, 12, 31)%Z
  /\ IsoDate.days_from_civil 1970 1 1 = 0%Z.
Proof. vm_compute. repeat split. Qed.

(* ===================================================================== *)
(** * Properties of the store                                             *)
(* ===================================================================== *)

Section StoreFacts.
Import AppContext.

Lemma eqb_false_of_neq (a b : string) : a <> b -> String.eqb a b = false.
Proof. intro H. apply String.eqb_neq. exact H. Qed.

(** A type string that is none of [ActionTypes] falls to [default]. *)
Lemma switch_default (type : string) :
  ~ In type ActionTypes -> switch type = CaseDefault.
Proof.
  intro H. unfold switch.
  repeat
    match goal with
    | |- context [String.eqb type ?c] =>
        rewrite (@eqb_false_of_neq type c)
          by (intro E; apply H; rewrite E; unfold ActionTypes; simpl; tauto)
    end.
  reflexivity.
Qed.

Lemma replace_by_id_length payload l :
  List.length (replace_by_id payload l) = List.length l.
Proof. unfold replace_by_id. apply length_map. Qed.

Lemma replace_by_id_nth payload l i apt :
  nth_error l i = Some apt ->
  nth_error (replace_by_id payload l) i
  = Some (if Z.eqb (Appointment.id apt) (Appointment.id payload)
          then payload else apt).
Proof.
  intro H. unfold replace_by_id. rewrite nth_error_map, H. reflexivity.
Qed.

Lemma replace_by_id_absent payload l :
  (forall apt, In apt l -> Appointment.id apt <> Appointment.id payload) ->
  replace_by_id payload l = l.
Proof.
  induction l as [|apt l IH]; intro H; simpl.
  - reflexivity.
  - destruct (Z.eqb_spec (Appointment.id apt) (Appointment.id payload)) as [E|E].
    + exfalso. apply (H apt); [left; reflexivity | exact E].
    + f_equal. apply IH. intros a Ha. apply H. right. exact Ha.
Qed.

Lemma state_eta (s : State) :
  {| user := user s; appointments := appointments s; loading := loading s;
     error := error s; currentBooking := currentBooking s;
     availableSlots := availableSlots s;
     voiceSupported := voiceSupported s |} = s.
Proof. destruct s; reflexivity. Qed.

End StoreFacts.

(** C4. The update-appointment-by-id transition keeps the length and the
    order of the appointment list; at every position it puts the payload
    where the entry's id equals the payload's id and keeps the entry
    otherwise; it touches no other field of the state; and when no entry
    has the payload's id the state, and so the list, is unchanged. *)
Theorem update_appointment_by_id :
  forall (state : AppContext.State) (payload : Appointment.t),
    let state' :=
      AppContext.appReducer state (AppContext.actions.updateAppointment payload) in
    List.length (AppContext.appointments state')
    = List.length (AppContext.appointments state)
    /\ (forall i apt,
          nth_error (AppContext.appointments state) i = Some apt ->
          nth_error (AppContext.appointments state') i
          = Some (if Z.eqb (Appointment.id apt) (Appointment.id payload)
                  then payload else apt))
    /\ (AppContext.user state' = AppContext.user state
        /\ AppContext.loading state' = AppContext.loading state
        /\ AppContext.error state' = AppContext.error state
        /\ AppContext.currentBooking state' = AppContext.currentBooking state
        /\ AppContext.availableSlots state' = AppContext.availableSlots state
        /\ AppContext.voiceSupported state' = AppContext.voiceSupported state)
    /\ ((forall apt, In apt (AppContext.appointments state) ->
           Appointment.id apt <> Appointment.id payload) ->
        AppContext.appointments state' = AppContext.appointments state
        /\ state' = state).
Proof.
  intros state payload state'. subst state'. cbn.
  split; [apply replace_by_id_length|].
  split; [intros i apt H; apply replace_by_id_nth; exact H|].
  split; [repeat split|].
  intro H. rewrite (replace_by_id_absent _ _ H).
  split; [reflexivity | apply state_eta].
Qed.

(** C9. An action whose type is none of the named transition kinds leaves
    the state as it is, field by field. *)
Theorem unrecognized_action_is_noop :
  forall (state : AppContext.State) (action : AppContext.Action),
    ~ In (AppContext.type action) AppContext.ActionTypes ->
    AppContext.appReducer state action = state.
Proof.
  intros state [type payload] H.
  unfold AppContext.appReducer. simpl in *.
  generalize payload. clear payload.
  rewrite (switch_default H). reflexivity.
Qed.

(* ===================================================================== *)
(** * Properties of the booking form                                      *)
(* ===================================================================== *)

Section ReducerSteps.
Import AppContext.

Lemma reduce_setLoading s b :
  appReducer s (actions.setLoading b)
  = {| user := user s; appointments := appointments s; loading := b;
       error := error s; currentBooking := currentBooking s;
       availableSlots := availableSlots s;
       voiceSupported := voiceSupported s |}.
Proof. reflexivity. Qed.

Lemma reduce_setError s m :
  appReducer s (actions.setError m)
  = {| user := user s; appointments := appointments s; loading := false;
       error := m; currentBooking := currentBooking s;
       availableSlots := availableSlots s;
       voiceSupported := voiceSupported s |}.
Proof. reflexivity. Qed.

Lemma reduce_clearError s :
  appReducer s actions.clearError
  = {| user := user s; appointments := appointments s; loading := loading s;
       error := None; currentBooking := currentBooking s;
       availableSlots := availableSlots s;
       voiceSupported := voiceSupported s |}.
Proof. reflexivity. Qed.

Lemma reduce_addAppointment s a :
  appReducer s (actions.addAppointment a)
  = {| user := user s; appointments := appointments s ++ [a];
       loading := loading s; error := error s;
       currentBooking := currentBooking s;
       availableSlots := availableSlots s;
       voiceSupported := voiceSupported s |}.
Proof. reflexivity. Qed.

End ReducerSteps.

Section BookingFacts.
Import BookingForm.
Context {date_api : DateApi} {backend : Backend}.
Variable onSuccess : option (Appointment.t -> option JSError).

(** After the first effect the selected service is the catalogue entry of
    the watched code. *)
Lemma sync_settles w : settled (snd (sync_selectedService w)).
Proof. reflexivity. Qed.

(** A draft with a field error is not passed on: the errors are stored
    and nothing else happens. *)
Lemma submit_invalid w :
  ReactHookForm.validate registered (values w) <> [] ->
  submit onSuccess w
  = (Ok tt, with_errors (ReactHookForm.validate registered (values w)) w).
Proof.
  intro H. unfold submit, handleSubmit.
  destruct (ReactHookForm.validate registered (values w)); [contradiction H|]; reflexivity.
Qed.

Lemma submit_valid w :
  ReactHookForm.validate registered (values w) = [] ->
  submit onSuccess w = onSubmit onSuccess (values w) (with_errors [] w).
Proof. intro H. unfold submit, handleSubmit. rewrite H. reflexivity. Qed.

(** Building the request throws nothing but a RangeError (the date) or a
    TypeError (no selected service). *)
Lemma appointmentData_throws service data e :
  appointmentData service data = Throw e -> e = RangeError \/ e = TypeError.
Proof.
  unfold appointmentData, Date_toISOString.
  destruct (Date_parse _); [destruct service|]; intro H;
    try discriminate H; injection H as <-; auto.
Qed.

(** No request is built: the handler reports the error and returns. *)
Lemma onSubmit_no_request w data e :
  appointmentData (selectedService w) data = Throw e ->
  onSubmit onSuccess data w
  = (Ok tt,
     with_store
       (fun s =>
          AppContext.mkState (AppContext.user s) (AppContext.appointments s)
            false
            (Some (VString default_submit_message))
            (AppContext.currentBooking s)
            (AppContext.availableSlots s) (AppContext.voiceSupported s))
       w).
Proof.
  intro H. unfold onSubmit, try_finally, try_catch, bind, dispatch, modify, gets, lift.
  simpl. rewrite H.
  destruct (appointmentData_throws _ _ H) as [-> | ->]; reflexivity.
Qed.


(** A request is built: it is sent, and it is the only request. *)
Lemma onSubmit_sends w data req :
  appointmentData (selectedService w) data = Ok req ->
  exists rest,
    log (snd (onSubmit onSuccess data w)) = log w ++ CreateAppointment req :: rest
    /\ Forall (fun e => is_request e = false) rest
    /\ errors (snd (onSubmit onSuccess data w)) = errors w
    /\ values (snd (onSubmit onSuccess data w)) = values w.
Proof.
  intro H.
  unfold onSubmit, try_finally, try_catch, bind, dispatch, modify, gets, lift,
    api_create, call_onSuccess.
  simpl. rewrite H. simpl.
  destruct (create (log w) req) as [a|error]; simpl.
  - destruct onSuccess as [callback|]; simpl.
    + destruct (callback a) as [e|]; simpl; [destruct e; simpl|];
        exists [CalledOnSuccess a];
        repeat split; auto; rewrite <- app_assoc; reflexivity.
    + exists []. repeat split; auto.
  - exists []. repeat split; auto.
Qed.

Lemma appointmentData_loaded service data :
  appointmentData service data <> Unloaded.
Proof.
  unfold appointmentData, Date_toISOString.
  destruct (Date_parse _); [destruct service|]; discriminate.
Qed.

(** No request is built: nothing leaves the component. *)
Lemma onSubmit_silent w data :
  (forall req, appointmentData (selectedService w) data <> Ok req) ->
  log (snd (onSubmit onSuccess data w)) = log w.
Proof.
  intro H. destruct (appointmentData (selectedService w) data) as [req|e|] eqn:E.
  - exfalso. apply (H req). reflexivity.
  - rewrite (onSubmit_no_request _ _ E). reflexivity.
  - exfalso. exact (appointmentData_loaded _ _ E).
Qed.

End BookingFacts.


(** ** The field rules *)

Lemma jseqb_eq a b : jseqb a b = true <-> a = b.
Proof.
  revert b. induction a as [|x a IH]; intros [|y b]; simpl; split; intro H;
    try reflexivity; try discriminate.
  - apply andb_true_iff in H. destruct H as [H1 H2].
    apply N.eqb_eq in H1. apply IH in H2. subst. reflexivity.
  - injection H as -> ->. rewrite N.eqb_refl. simpl. apply IH. reflexivity.
Qed.

Lemma falsy_false s : falsy s = false <-> s <> [].
Proof. destruct s; simpl; split; intro H; congruence. Qed.

Lemma required_passes message value :
  ReactHookForm.validateField
    {| ReactHookForm.required := Some message;
       ReactHookForm.minLength := None;
       ReactHookForm.pattern := None |} value = None ->
  value <> [].
Proof.
  unfold ReactHookForm.validateField, ReactHookForm.check_required. simpl.
  destruct value; simpl; [discriminate | intros _; discriminate].
Qed.

Lemma name_rules_pass value :
  ReactHookForm.validateField BookingForm.rules_customer_name value = None ->
  (2 <= List.length value)%nat.
Proof.
  unfold ReactHookForm.validateField, ReactHookForm.check_required,
    ReactHookForm.check_minLength, ReactHookForm.check_pattern. simpl.
  destruct value as [|c [|c' value]]; simpl; try discriminate.
  intros _. lia.
Qed.

Lemma phone_rules_pass value :
  ReactHookForm.validateField BookingForm.rules_customer_phone value = None ->
  matches BookingForm.phone_pattern value = true.
Proof.
  unfold ReactHookForm.validateField, ReactHookForm.check_required,
    ReactHookForm.check_minLength, ReactHookForm.check_pattern.
  cbn [BookingForm.rules_customer_phone ReactHookForm.required
       ReactHookForm.minLength ReactHookForm.pattern].
  destruct (falsy value); [discriminate|].
  destruct (matches BookingForm.phone_pattern value); [reflexivity|discriminate].
Qed.

Lemma email_rules_pass value :
  ReactHookForm.validateField BookingForm.rules_customer_email value = None ->
  value = [] \/ matches BookingForm.email_pattern value = true.
Proof.
  unfold ReactHookForm.validateField, ReactHookForm.check_required,
    ReactHookForm.check_minLength, ReactHookForm.check_pattern.
  cbn [BookingForm.rules_customer_email ReactHookForm.required
       ReactHookForm.minLength ReactHookForm.pattern].
  destruct value as [|c value]; [left; reflexivity|].
  cbn [falsy negb andb].
  destruct (matches BookingForm.email_pattern (c :: value));
    [right; reflexivity | discriminate].
Qed.

(** A field whose rules fail is reported under its name. *)
Lemma validate_reports {D} (fields : list (string * ReactHookForm.Rules * (D -> JSString)))
    (data : D) name rules get message :
  In (name, rules, get) fields ->
  ReactHookForm.validateField rules (get data) = Some message ->
  In (name, message) (ReactHookForm.validate fields data).
Proof.
  induction fields as [|[[n r] g] fields IH]; intros Hin Hv; simpl in *.
  - contradiction.
  - destruct Hin as [E|Hin].
    + injection E as -> -> ->. rewrite Hv. left. reflexivity.
    + destruct (ReactHookForm.validateField r (g data));
        [right|]; apply IH; assumption.
Qed.

(** A form without errors satisfies the rules of every field. *)
Lemma validate_passes data :
  ReactHookForm.validate BookingForm.registered data = [] ->
  (2 <= List.length (FormData.customer_name data))%nat
  /\ matches BookingForm.phone_pattern (FormData.customer_phone data) = true
  /\ (FormData.customer_email data = []
      \/ matches BookingForm.email_pattern (FormData.customer_email data) = true)
  /\ FormData.service_type data <> []
  /\ FormData.appointment_date data <> []
  /\ FormData.appointment_time data <> [].
Proof.
  unfold BookingForm.registered. cbn [ReactHookForm.validate].
  destruct (ReactHookForm.validateField BookingForm.rules_customer_name _) eqn:E1;
    [discriminate|].
  destruct (ReactHookForm.validateField BookingForm.rules_customer_phone _) eqn:E2;
    [discriminate|].
  destruct (ReactHookForm.validateField BookingForm.rules_customer_email _) eqn:E3;
    [discriminate|].
  destruct (ReactHookForm.validateField (BookingForm.rules_required "Seleziona un servizio") _) eqn:E4;
    [discriminate|].
  destruct (ReactHookForm.validateField (BookingForm.rules_required "Seleziona una data") _) eqn:E5;
    [discriminate|].
  destruct (ReactHookForm.validateField (BookingForm.rules_required "Seleziona un orario") _) eqn:E6;
    [discriminate|].
  intros _.
  split; [exact (name_rules_pass _ E1)|].
  split; [exact (phone_rules_pass _ E2)|].
  split; [exact (email_rules_pass _ E3)|].
  split; [exact (required_passes _ E4)|].
  split; [exact (required_passes _ E5) | exact (required_passes _ E6)].
Qed.

Lemma find_service_known code service :
  BookingForm.find_service code = Some service ->
  In service BookingForm.serviceTypes /\ ServiceType.value service = code.
Proof.
  unfold BookingForm.find_service. intro H.
  apply find_some in H. destruct H as [H1 H2].
  split; [exact H1 | apply jseqb_eq; exact H2].
Qed.

Lemma appointmentData_service {date_api : DateApi} selected data req :
  BookingForm.appointmentData selected data = Ok req ->
  exists service t,
    selected = Some service
    /\ Date_parse (FormData.appointment_date data ++ str "T"
                   ++ FormData.appointment_time data) = Some t
    /\ AppointmentData.service_duration req = ServiceType.duration service
    /\ AppointmentData.service_price req = ServiceType.price service
    /\ AppointmentData.appointment_datetime req = toISOString t
    /\ AppointmentData.service_type req = FormData.service_type data.
Proof.
  unfold BookingForm.appointmentData, Date_toISOString.
  destruct (Date_parse _) as [t|]; [|discriminate].
  destruct selected as [service|]; [|discriminate].
  intro H. injection H as <-. exists service, t. repeat split.
Qed.

Lemma appointmentData_built {date_api : DateApi} service data t :
  Date_parse (FormData.appointment_date data ++ str "T"
              ++ FormData.appointment_time data) = Some t ->
  exists req,
    BookingForm.appointmentData (Some service) data = Ok req
    /\ AppointmentData.service_duration req = ServiceType.duration service
    /\ AppointmentData.service_price req = ServiceType.price service
    /\ AppointmentData.appointment_datetime req = toISOString t
    /\ AppointmentData.service_type req = FormData.service_type data.
Proof.
  intro H. unfold BookingForm.appointmentData, Date_toISOString. rewrite H.
  eexists. split; [reflexivity|]. repeat split.
Qed.

(** ** Submitting a booking *)

(** C2. Whenever submitting the form leaves any trace outside the
    component (a request or a callback), the draft has passed every local
    rule: a name of at least two characters, a phone-shaped phone, an email
    that is empty or well formed, a service code of the catalogue, a date
    and a time.  A draft whose phone is "abc" gets an error on the
    [customer_phone] field, and neither the trace nor the store changes. *)
Theorem submit_validates_before_network
    {date_api : DateApi} {backend : BookingForm.Backend}
    (onSuccess : option (Appointment.t -> option JSError))
    (w : BookingForm.World) :
  BookingForm.settled w ->
  let w' := snd (BookingForm.submit onSuccess w) in
  let d := BookingForm.values w in
  (BookingForm.log w' <> BookingForm.log w ->
     (2 <= List.length (FormData.customer_name d))%nat
     /\ matches BookingForm.phone_pattern (FormData.customer_phone d) = true
     /\ (FormData.customer_email d = []
         \/ matches BookingForm.email_pattern (FormData.customer_email d) = true)
     /\ (exists service,
           In service BookingForm.serviceTypes
           /\ ServiceType.value service = FormData.service_type d)
     /\ FormData.appointment_date d <> []
     /\ FormData.appointment_time d <> [])
  /\ (FormData.customer_phone d = str "abc" ->
      In ("customer_phone"%string, str "Inserisci un numero di telefono valido")
         (BookingForm.errors w')
      /\ BookingForm.log w' = BookingForm.log w
      /\ BookingForm.store w' = BookingForm.store w).
Proof.
  intros Hsettled w' d. subst w' d. split.
  - intro Hlog.
    destruct (ReactHookForm.validate BookingForm.registered (BookingForm.values w))
      as [|err errs] eqn:Hv.
    + destruct (validate_passes _ Hv) as (H1 & H2 & H3 & H4 & H5 & H6).
      repeat (split; [assumption|]).
      split; [|split; assumption].
      destruct (BookingForm.appointmentData (BookingForm.selectedService w)
                  (BookingForm.values w)) as [req|e|] eqn:Hreq.
      * destruct (appointmentData_service _ _ Hreq) as (service & t & Hs & _).
        rewrite Hsettled in Hs. exists service.
        apply find_service_known. exact Hs.
      * exfalso. apply Hlog. rewrite (submit_valid onSuccess _ Hv).
        apply (onSubmit_silent onSuccess (BookingForm.with_errors [] w)).
        intros req. simpl. rewrite Hreq. discriminate.
      * exfalso. exact (appointmentData_loaded _ _ Hreq).
    + exfalso. apply Hlog. rewrite submit_invalid; [reflexivity|].
      rewrite Hv. discriminate.
  - intro Hphone.
    assert (Hin : In ("customer_phone"%string,
                      str "Inserisci un numero di telefono valido")
                    (ReactHookForm.validate BookingForm.registered
                       (BookingForm.values w))).
    { apply validate_reports
        with (rules := BookingForm.rules_customer_phone)
             (get := FormData.customer_phone).
      - unfold BookingForm.registered. simpl. tauto.
      - rewrite Hphone. vm_compute. reflexivity. }
    rewrite submit_invalid.
    + simpl. split; [exact Hin | split; reflexivity].
    + intro E. rewrite E in Hin. exact Hin.
Qed.

(** Every entry of the catalogue is the one that the lookup finds for
    its own code: no two entries share a code. *)
Lemma find_service_entry service :
  In service BookingForm.serviceTypes ->
  BookingForm.find_service (ServiceType.value service) = Some service.
Proof.
  unfold BookingForm.serviceTypes.
  intros [<-|[<-|[<-|[<-|[<-|[]]]]]]; vm_compute; reflexivity.
Qed.

(** C5. Whatever service was selected before, once the effect that follows
    the watched service code has run, a draft that passes the rules, whose
    code is the code of a catalogue entry and whose date and time parse is
    sent as one request whose duration and price are those of that entry,
    whose [appointment_datetime] is the ISO text of the instant that the
    date, "T" and the time denote together, and whose other members are the
    draft's; for the code "haircut" the price is 25 and the duration 30. *)
Theorem request_carries_catalogue_values
    {date_api : DateApi} {backend : BookingForm.Backend}
    (onSuccess : option (Appointment.t -> option JSError))
    (w : BookingForm.World) (service : ServiceType.t) (t : Z) :
  let d := BookingForm.values w in
  In service BookingForm.serviceTypes ->
  ServiceType.value service = FormData.service_type d ->
  ReactHookForm.validate BookingForm.registered d = [] ->
  Date_parse (FormData.appointment_date d ++ str "T"
              ++ FormData.appointment_time d) = Some t ->
  let w' :=
    snd (BookingForm.submit onSuccess
           (snd (BookingForm.sync_selectedService w))) in
  let req :=
    {| AppointmentData.customer_name := FormData.customer_name d;
       AppointmentData.customer_phone := FormData.customer_phone d;
       AppointmentData.customer_email := or_null (FormData.customer_email d);
       AppointmentData.appointment_datetime := toISOString t;
       AppointmentData.service_type := ServiceType.value service;
       AppointmentData.service_duration := ServiceType.duration service;
       AppointmentData.service_price := ServiceType.price service;
       AppointmentData.notes := or_null (FormData.notes d);
       AppointmentData.requires_prepayment := FormData.requires_prepayment d |} in
  (exists rest,
     BookingForm.log w'
     = BookingForm.log w ++ BookingForm.CreateAppointment req :: rest
     /\ Forall (fun e => BookingForm.is_request e = false) rest)
  /\ (FormData.service_type d = str "haircut" ->
      AppointmentData.service_price req = 25%Z
      /\ AppointmentData.service_duration req = 30%Z).
Proof.
  intros d Hin Hval Hv Hparse w' req. subst d w' req.
  pose proof (find_service_entry Hin) as Hfind. rewrite Hval in Hfind.
  set (w1 := snd (BookingForm.sync_selectedService w)).
  assert (Hvals : BookingForm.values w1 = BookingForm.values w) by reflexivity.
  assert (Hsel : BookingForm.selectedService w1 = Some service)
    by (subst w1; simpl; exact Hfind).
  assert (Hv1 : ReactHookForm.validate BookingForm.registered
                  (BookingForm.values w1) = [])
    by (rewrite Hvals; exact Hv).
  split.
  - rewrite (submit_valid onSuccess _ Hv1). rewrite Hvals.
    assert (Hreq : BookingForm.appointmentData
                     (BookingForm.selectedService
                        (BookingForm.with_errors [] w1))
                     (BookingForm.values w)
                   = Ok {| AppointmentData.customer_name :=
                             FormData.customer_name (BookingForm.values w);
                           AppointmentData.customer_phone :=
                             FormData.customer_phone (BookingForm.values w);
                           AppointmentData.customer_email :=
                             or_null (FormData.customer_email (BookingForm.values w));
                           AppointmentData.appointment_datetime := toISOString t;
                           AppointmentData.service_type :=
                             ServiceType.value service;
                           AppointmentData.service_duration :=
                             ServiceType.duration service;
                           AppointmentData.service_price :=
                             ServiceType.price service;
                           AppointmentData.notes :=
                             or_null (FormData.notes (BookingForm.values w));
                           AppointmentData.requires_prepayment :=
                             FormData.requires_prepayment (BookingForm.values w) |}).
    { cbn [BookingForm.selectedService BookingForm.with_errors].
      rewrite Hsel. unfold BookingForm.appointmentData, Date_toISOString.
      rewrite Hparse, Hval. reflexivity. }
    destruct (onSubmit_sends onSuccess _ _ Hreq) as (rest & Hlog & Hrest & _).
    exists rest. split; [exact Hlog | exact Hrest].
  - intro Hhair. rewrite Hhair in Hfind. vm_compute in Hfind.
    injection Hfind as <-. split; reflexivity.
Qed.


(** C7 (as the code has it). The rules of the date and of the time ask
    only that they be chosen: a draft that passes the field rules, with a
    selected service and a date and time that parse to an instant [t], is
    sent to the server with no field error, also when [t] is not after the
    current time [now].  The one restriction on the date is the browser's:
    it holds the form back while the date is before the [min] attribute
    of the input; from [min] on, the draft goes through as it does without
    the browser. *)
Theorem past_instant_is_not_rejected
    {date_api : DateApi} {backend : BookingForm.Backend}
    (onSuccess : option (Appointment.t -> option JSError))
    (w : BookingForm.World) (service : ServiceType.t) (now t : Z) :
  let d := BookingForm.values w in
  ReactHookForm.validate BookingForm.registered d = [] ->
  BookingForm.selectedService w = Some service ->
  Date_parse (FormData.appointment_date d ++ str "T"
              ++ FormData.appointment_time d) = Some t ->
  (t <= now)%Z ->
  (exists req rest,
     BookingForm.log (snd (BookingForm.submit onSuccess w))
     = BookingForm.log w ++ BookingForm.CreateAppointment req :: rest
     /\ AppointmentData.appointment_datetime req = toISOString t
     /\ BookingForm.errors (snd (BookingForm.submit onSuccess w)) = [])
  /\ (forall min,
        BookingForm.rangeUnderflow (FormData.appointment_date d) min = false ->
        BookingForm.requestSubmit onSuccess min w
        = BookingForm.submit onSuccess w)
  /\ (forall min,
        BookingForm.rangeUnderflow (FormData.appointment_date d) min = true ->
        BookingForm.requestSubmit onSuccess min w = (Ok tt, w)).
Proof.
  intros d Hv Hsel Hparse _. subst d.
  destruct (appointmentData_built service (BookingForm.values w) Hparse)
    as (req & Hreq & _ & _ & Ht & _).
  assert (Hreq' : BookingForm.appointmentData
                    (BookingForm.selectedService (BookingForm.with_errors [] w))
                    (BookingForm.values w) = Ok req).
  { simpl. rewrite Hsel. exact Hreq. }
  destruct (onSubmit_sends onSuccess _ _ Hreq') as (rest & Hlog & _ & Herr & _).
  split.
  - exists req, rest. rewrite (submit_valid onSuccess _ Hv).
    split; [exact Hlog|]. split; [exact Ht | exact Herr].
  - split; intros min Hmin; unfold BookingForm.requestSubmit; rewrite Hmin;
      reflexivity.
Qed.

(** Scenario E: the phone "abc" stops the draft at the form. *)
Lemma submit_validates_before_network_witness :
  let w := Scenario.world Scenario.mistyped in
  let w' := snd (@BookingForm.submit Scenario.rome Scenario.accepting None w) in
  BookingForm.settled w
  /\ In ("customer_phone"%string, str "Inserisci un numero di telefono valido")
        (BookingForm.errors w')
  /\ BookingForm.log w' = []
  /\ BookingForm.store w' = AppContext.initialState.
Proof.
  split; [reflexivity|].
  apply (@submit_validates_before_network Scenario.rome Scenario.accepting None
           (Scenario.world Scenario.mistyped)); reflexivity.
Defined.

(** Scenario A, with another service still selected from before: the
    haircut costs 25 and lasts 30 minutes; 10:00 in a zone one hour east of
    UTC is 09:00 UTC.  And the other way round: a styling, the last entry
    of the catalogue, while the haircut is still selected, costs 30 and
    lasts 40 minutes. *)
Lemma request_carries_catalogue_values_witness :
  let haircut := ServiceType.mk (str "haircut") (str "Taglio di Capelli") 25 30 in
  let styling := ServiceType.mk (str "styling") (str "Styling") 30 40 in
  let restyle :=
    Scenario.draft "+39 123 456 7890" "styling" "2030-01-15" "10:00" false in
  let run selected d :=
    snd (@BookingForm.submit Scenario.rome Scenario.accepting None
           (snd (BookingForm.sync_selectedService
                   (BookingForm.with_selectedService (Some selected)
                      (Scenario.world d))))) in
  (exists rest,
     BookingForm.log (run styling Scenario.mario)
     = BookingForm.CreateAppointment
         (Scenario.haircut_request Scenario.mario "2030-01-15T09:00:00.000Z")
       :: rest)
  /\ (exists req rest,
        BookingForm.log (run haircut restyle)
        = BookingForm.CreateAppointment req :: rest
        /\ AppointmentData.service_type req = str "styling"
        /\ AppointmentData.service_price req = 30%Z
        /\ AppointmentData.service_duration req = 40%Z).
Proof.
  split.
  - destruct (@request_carries_catalogue_values Scenario.rome
                Scenario.accepting None
                (BookingForm.with_selectedService
                   (Some (ServiceType.mk (str "styling") (str "Styling") 30 40))
                   (Scenario.world Scenario.mario))
                (ServiceType.mk (str "haircut") (str "Taglio di Capelli") 25 30)
                1894698000000%Z)
      as ((rest & Hlog & _) & _);
      first [ exists rest; exact Hlog
            | vm_compute; auto
            | vm_compute; reflexivity ].
  - destruct (@request_carries_catalogue_values Scenario.rome
                Scenario.accepting None
                (BookingForm.with_selectedService
                   (Some (ServiceType.mk (str "haircut")
                            (str "Taglio di Capelli") 25 30))
                   (Scenario.world
                      (Scenario.draft "+39 123 456 7890" "styling"
                         "2030-01-15" "10:00" false)))
                (ServiceType.mk (str "styling") (str "Styling") 30 40)
                1894698000000%Z)
      as ((rest & Hlog & _) & _);
      first [ eexists; exists rest; split; [exact Hlog|];
              split; [reflexivity|]; split; reflexivity
            | vm_compute; tauto
            | vm_compute; reflexivity ].
Defined.



(** C7, counterexample. On 2 November 2026 a haircut for 1 January 2020 at
    10:00 passes the form and is sent to the server.  And with the browser
    enforcing [min]: the page is rendered on Monday at 23:30, so [min] is
    Tuesday; on Tuesday at 11:00 a haircut for Tuesday 10:00, an hour gone,
    passes the browser and the form and is sent to the server. *)
Lemma past_booking_reaches_server :
  let d := Scenario.stale in
  let run :=
    @BookingForm.submit Scenario.rome Scenario.accepting None (Scenario.world d) in
  let d' := Scenario.overnight in
  let min := @BookingForm.minDate Scenario.rome Scenario.rendered in
  let run' :=
    @BookingForm.requestSubmit Scenario.rome Scenario.accepting None min
      (Scenario.world d') in
  (@Date_parse Scenario.rome
     (FormData.appointment_date d ++ str "T" ++ FormData.appointment_time d)
   = Some 1577869200000%Z
   /\ (1577869200000 <= Scenario.now)%Z
   /\ fst run = Ok tt
   /\ BookingForm.errors (snd run) = []
   /\ BookingForm.log (snd run)
      = [BookingForm.CreateAppointment
           (Scenario.haircut_request d "2020-01-01T09:00:00.000Z")]
   /\ AppContext.appointments (BookingForm.store (snd run))
      = [Scenario.record_of 7
           (Scenario.haircut_request d "2020-01-01T09:00:00.000Z")])
  /\ (min = str "2026-11-03"
      /\ @Date_parse Scenario.rome
           (FormData.appointment_date d' ++ str "T" ++ FormData.appointment_time d')
         = Some 1793696400000%Z
      /\ (1793696400000 <= Scenario.sent)%Z
      /\ fst run' = Ok tt
      /\ BookingForm.errors (snd run') = []
      /\ BookingForm.log (snd run')
         = [BookingForm.CreateAppointment
              (Scenario.haircut_request d' "2026-11-03T09:00:00.000Z")]).
Proof.
  vm_compute. repeat split; discriminate.
Qed.

Lemma past_instant_is_not_rejected_witness :
  exists req rest,
    BookingForm.log
      (snd (@BookingForm.requestSubmit Scenario.rome Scenario.accepting None
              (@BookingForm.minDate Scenario.rome Scenario.rendered)
              (Scenario.world Scenario.overnight)))
    = BookingForm.CreateAppointment req :: rest
    /\ AppointmentData.appointment_datetime req = str "2026-11-03T09:00:00.000Z".
Proof.
  destruct (@past_instant_is_not_rejected Scenario.rome Scenario.accepting None
              (Scenario.world Scenario.overnight)
              (ServiceType.mk (str "haircut") (str "Taglio di Capelli") 25 30)
              Scenario.sent 1793696400000%Z)
    as ((req & rest & Hlog & Ht & _) & Hmin & _);
    first [ exists req, rest; rewrite Hmin by (vm_compute; reflexivity);
            split; [exact Hlog|];
            rewrite Ht; vm_compute; reflexivity
          | vm_compute; reflexivity
          | vm_compute; discriminate ].
Defined.

(** ** Resolving the free slots *)

Section SlotFacts.
Import BookingForm.
Context {date_api : DateApi}.

Lemma map_result_ok {A B} (f : A -> Result B) l out :
  map_result f l = Ok out -> Forall2 (fun x y => f x = Ok y) l out.
Proof.
  revert out. induction l as [|x l IH]; simpl; intros out H.
  - injection H as <-. constructor.
  - destruct (f x) as [y| |] eqn:E; try discriminate.
    destruct (map_result f l) as [ys| |]; try discriminate.
    injection H as <-. constructor; [exact E | apply IH; reflexivity].
Qed.

Lemma map_result_total {A B} (f : A -> Result B) l :
  Forall (fun x => exists y, f x = Ok y) l -> exists out, map_result f l = Ok out.
Proof.
  induction 1 as [|x l [y Hy] _ [ys IH]]; simpl.
  - exists []. reflexivity.
  - rewrite Hy, IH. exists (y :: ys). reflexivity.
Qed.

Lemma Forall2_in_right {A B} (R : A -> B -> Prop) l l' y :
  Forall2 R l l' -> In y l' -> exists x, In x l /\ R x y.
Proof.
  induction 1 as [|x y' l l' Hxy _ IH]; intro Hy.
  - contradiction.
  - destruct Hy as [<-|Hy].
    + exists x. split; [left; reflexivity | exact Hxy].
    + destruct (IH Hy) as (x' & Hin & Hr).
      exists x'. split; [right; exact Hin | exact Hr].
Qed.

Lemma timeSlots_ok slots out :
  timeSlots slots = Ok out ->
  Forall2 option_of (List.filter available slots) out.
Proof.
  intro H. apply map_result_ok in H.
  induction H as [|slot o l l' Hso _ IH]; constructor; [|exact IH].
  destruct (format_time (Date_parse (start_time slot))) as [time| |] eqn:E;
    try discriminate.
  injection Hso as <-. unfold option_of. simpl. rewrite E. repeat split.
Qed.

Lemma timeSlots_order slots out :
  timeSlots slots = Ok out ->
  List.map TimeOption.datetime out
  = List.map start_time (List.filter available slots).
Proof.
  intro H. apply timeSlots_ok in H.
  induction H as [|slot o l l' [Hd _] _ IH]; simpl; [reflexivity|].
  rewrite Hd, IH. reflexivity.
Qed.

Lemma filter_none {A} (f : A -> bool) l :
  (forall x, In x l -> f x = false) -> List.filter f l = [].
Proof.
  induction l as [|x l IH]; intro H; simpl; [reflexivity|].
  rewrite (H x) by (left; reflexivity).
  apply IH. intros y Hy. apply H. right. exact Hy.
Qed.

(** The derived slots exist as soon as the start of every free slot
    parses. *)
Lemma timeSlots_total slots :
  (forall slot, In slot slots -> available slot = true ->
     Date_parse (start_time slot) <> None) ->
  exists out, timeSlots slots = Ok out.
Proof.
  intro H. apply map_result_total. apply Forall_forall.
  intros slot Hin. apply filter_In in Hin. destruct Hin as [Hin Hav].
  specialize (H slot Hin Hav).
  destruct (Date_parse (start_time slot)) as [t|]; [|contradiction].
  simpl. eexists. reflexivity.
Qed.

Context {backend : Backend}.

(** The query under way: the request that is sent and the state it
    leaves, by what the server answers. *)
Lemma fetchAvailableSlots_resolved w service t1 t2 answer :
  selectedService w = Some service ->
  FormData.appointment_date (values w) <> [] ->
  Date_parse (FormData.appointment_date (values w) ++ str "T09:00:00") = Some t1 ->
  Date_parse (FormData.appointment_date (values w) ++ str "T18:00:00") = Some t2 ->
  getAvailability (log w)
    {| AvailabilityParams.start_date := toISOString t1;
       AvailabilityParams.end_date := toISOString t2;
       AvailabilityParams.duration_minutes := ServiceType.duration service |}
  = Resolved answer ->
  fetchAvailableSlots w
  = (Ok tt,
     {| store :=
          AppContext.mkState (AppContext.user (store w))
            (AppContext.appointments (store w)) false
            (AppContext.error (store w)) (AppContext.currentBooking (store w))
            (AppContext.availableSlots (store w))
            (AppContext.voiceSupported (store w));
        values := values w;
        errors := errors w;
        availableSlots := match answer with Some slots => slots | None => [] end;
        selectedService := selectedService w;
        log := log w
               ++ [GetAvailability
                     {| AvailabilityParams.start_date := toISOString t1;
                        AvailabilityParams.end_date := toISOString t2;
                        AvailabilityParams.duration_minutes :=
                          ServiceType.duration service |}];
        browser := browser w |}).
Proof.
  intros Hs Hd H1 H2 Ha.
  unfold fetchAvailableSlots. rewrite Hs.
  apply falsy_false in Hd. rewrite Hd.
  unfold try_finally, try_catch, bind, dispatch, modify, lift, api_getAvailability.
  simpl. rewrite H1, H2. simpl. rewrite Ha.
  unfold with_store, with_availableSlots, with_event. simpl.
  rewrite Hs. reflexivity.
Qed.

End SlotFacts.

(** C3. Every element of the derived time slots stems from a slot of the
    response whose [available] is true, of which it carries the start time;
    slots marked unavailable leave no element behind; and when no slot of
    the response is free the result is the empty sequence, not an error. *)
Theorem timeSlots_only_available {date_api : DateApi} (slots : list Slot) :
  (forall out, BookingForm.timeSlots slots = Ok out ->
     (forall o, In o out ->
        exists slot,
          In slot slots /\ available slot = true
          /\ TimeOption.datetime o = start_time slot)
     /\ List.length out = List.length (List.filter available slots))
  /\ ((forall slot, In slot slots -> available slot = false) ->
      BookingForm.timeSlots slots = Ok []).
Proof.
  split.
  - intros out H. apply timeSlots_ok in H. split.
    + intros o Ho.
      destruct (@Forall2_in_right _ _ _ _ _ o H Ho) as (slot & Hin & Hd & _).
      apply filter_In in Hin. destruct Hin as [Hin Hav].
      exists slot. repeat split; assumption.
    + symmetry. exact (Forall2_length H).
  - intro H. unfold BookingForm.timeSlots.
    rewrite (filter_none _ _ H). reflexivity.
Qed.

(** The morning of the scenario: the slot at 09:30 is taken, and the two
    free ones come out in the order of the response. *)
Example timeSlots_morning :
  @BookingForm.timeSlots Scenario.rome Scenario.morning
  = Ok [ {| TimeOption.value := str "10:00"; TimeOption.label := str "10:00";
            TimeOption.datetime := str "2030-01-15T10:00:00" |};
         {| TimeOption.value := str "09:00"; TimeOption.label := str "09:00";
            TimeOption.datetime := str "2030-01-15T09:00:00" |} ].
Proof. vm_compute. reflexivity. Qed.

(** C8, counterexample. The server lists 10:00 before 09:00; the query
    covers 09:00 to 18:00 local time of the day, and the slots come back as
    10:00, 09:00: not ascending by start instant. *)
Lemma slots_come_in_server_order :
  let run :=
    @BookingForm.getAvailableSlots Scenario.rome Scenario.accepting
      (Scenario.world Scenario.mario) in
  BookingForm.log (snd run)
  = [ BookingForm.GetAvailability
        {| AvailabilityParams.start_date := str "2030-01-15T08:00:00.000Z";
           AvailabilityParams.end_date := str "2030-01-15T17:00:00.000Z";
           AvailabilityParams.duration_minutes := 30 |} ]
  /\ fst run
     = Ok [ {| TimeOption.value := str "10:00"; TimeOption.label := str "10:00";
               TimeOption.datetime := str "2030-01-15T10:00:00" |};
            {| TimeOption.value := str "09:00"; TimeOption.label := str "09:00";
               TimeOption.datetime := str "2030-01-15T09:00:00" |} ]
  /\ (exists out,
        fst run = Ok out
        /\ @BookingForm.startInstants Scenario.rome out
           = [1894698000000; 1894694400000]%Z
        /\ BookingForm.ascending (@BookingForm.startInstants Scenario.rome out)
           = false).
Proof.
  split; [vm_compute; reflexivity|].
  split; [vm_compute; reflexivity|].
  eexists. split; [vm_compute; reflexivity|].
  split; vm_compute; reflexivity.
Qed.

(** C8 (as the code has it). For a chosen date and a selected service,
    when the date followed by "T09:00:00" and by "T18:00:00" parses, one
    availability query is sent: from the first instant to the second, for
    the duration of the service.  When the server answers, the selectable
    slots are the free slots of the answer in the order of the answer: no
    sorting takes place, and their start instants are those of the answer's
    free slots, in that order. *)
Theorem slots_window_and_order
    {date_api : DateApi} {backend : BookingForm.Backend}
    (w : BookingForm.World) (service : ServiceType.t) (t1 t2 : Z)
    (answer : option (list Slot)) :
  let date := FormData.appointment_date (BookingForm.values w) in
  let query :=
    {| AvailabilityParams.start_date := toISOString t1;
       AvailabilityParams.end_date := toISOString t2;
       AvailabilityParams.duration_minutes := ServiceType.duration service |} in
  let slots := match answer with Some l => l | None => [] end in
  BookingForm.selectedService w = Some service ->
  date <> [] ->
  Date_parse (date ++ str "T09:00:00") = Some t1 ->
  Date_parse (date ++ str "T18:00:00") = Some t2 ->
  BookingForm.getAvailability (BookingForm.log w) query = Resolved answer ->
  BookingForm.log (snd (BookingForm.getAvailableSlots w))
  = BookingForm.log w ++ [BookingForm.GetAvailability query]
  /\ fst (BookingForm.getAvailableSlots w) = BookingForm.timeSlots slots
  /\ (forall out,
        fst (BookingForm.getAvailableSlots w) = Ok out ->
        List.map TimeOption.datetime out
        = List.map start_time (List.filter available slots)
        /\ BookingForm.startInstants out
           = BookingForm.instants
               (List.map start_time (List.filter available slots))).
Proof.
  intros date query slots Hs Hd H1 H2 Ha. subst date query slots.
  unfold BookingForm.getAvailableSlots.
  rewrite (fetchAvailableSlots_resolved w Hs Hd H1 H2 Ha). simpl.
  split; [reflexivity|]. split; [reflexivity|].
  intros out Hout. apply timeSlots_order in Hout.
  split; [exact Hout|].
  unfold BookingForm.startInstants. rewrite Hout. reflexivity.
Qed.

Lemma slots_window_and_order_witness :
  BookingForm.log
    (snd (@BookingForm.getAvailableSlots Scenario.rome Scenario.accepting
            (Scenario.world Scenario.mario)))
  = [ BookingForm.GetAvailability
        {| AvailabilityParams.start_date := str "2030-01-15T08:00:00.000Z";
           AvailabilityParams.end_date := str "2030-01-15T17:00:00.000Z";
           AvailabilityParams.duration_minutes := 30 |} ].
Proof.
  destruct (@slots_window_and_order Scenario.rome Scenario.accepting
              (Scenario.world Scenario.mario)
              (ServiceType.mk (str "haircut") (str "Taglio di Capelli") 25 30)
              1894694400000%Z 1894726800000%Z (Some Scenario.morning))
    as (Hlog & _);
    first [ rewrite Hlog; vm_compute; reflexivity
          | vm_compute; reflexivity
          | vm_compute; discriminate ].
Defined.

(** C10. When the availability query succeeds and the response has no
    [available_slots], the handler returns normally, stores the empty list
    of slots, derives no selectable time slot from it, leaves the store's
    error field as it was and turns the loading flag off; the query is all
    that left the component. *)
Theorem missing_slots_field_gives_empty_list
    {date_api : DateApi} {backend : BookingForm.Backend}
    (w : BookingForm.World) (service : ServiceType.t) (t1 t2 : Z) :
  let date := FormData.appointment_date (BookingForm.values w) in
  let query :=
    {| AvailabilityParams.start_date := toISOString t1;
       AvailabilityParams.end_date := toISOString t2;
       AvailabilityParams.duration_minutes := ServiceType.duration service |} in
  BookingForm.selectedService w = Some service ->
  date <> [] ->
  Date_parse (date ++ str "T09:00:00") = Some t1 ->
  Date_parse (date ++ str "T18:00:00") = Some t2 ->
  BookingForm.getAvailability (BookingForm.log w) query = Resolved None ->
  let w' := snd (BookingForm.fetchAvailableSlots w) in
  fst (BookingForm.fetchAvailableSlots w) = Ok tt
  /\ BookingForm.availableSlots w' = []
  /\ BookingForm.timeSlots (BookingForm.availableSlots w') = Ok []
  /\ fst (BookingForm.getAvailableSlots w) = Ok []
  /\ AppContext.error (BookingForm.store w')
     = AppContext.error (BookingForm.store w)
  /\ AppContext.loading (BookingForm.store w') = false
  /\ BookingForm.log w' = BookingForm.log w ++ [BookingForm.GetAvailability query].
Proof.
  intros date query Hs Hd H1 H2 Ha w'. subst date query w'.
  unfold BookingForm.getAvailableSlots.
  rewrite (fetchAvailableSlots_resolved w Hs Hd H1 H2 Ha). simpl.
  repeat split.
Qed.

Lemma missing_slots_field_gives_empty_list_witness :
  let run :=
    @BookingForm.fetchAvailableSlots Scenario.rome Scenario.refusing
      (Scenario.world Scenario.mario) in
  fst run = Ok tt
  /\ BookingForm.availableSlots (snd run) = []
  /\ AppContext.error (BookingForm.store (snd run)) = None.
Proof.
  destruct (@missing_slots_field_gives_empty_list Scenario.rome Scenario.refusing
              (Scenario.world Scenario.mario)
              (ServiceType.mk (str "haircut") (str "Taglio di Capelli") 25 30)
              1894694400000%Z 1894726800000%Z)
    as (Hr & Hslots & _ & _ & Herr & _);
    first [ split; [exact Hr|]; split; [exact Hslots | exact Herr]
          | vm_compute; reflexivity
          | vm_compute; discriminate ].
Defined.

(* ===================================================================== *)
(** * Properties of the checkout form                                     *)
(* ===================================================================== *)

(** Closes a goal [exists rest, log = old ++ ... :: rest /\ Forall _ rest]
    once the trace is known. *)
Ltac close_trace :=
  eexists; split;
  [ repeat rewrite <- app_assoc; simpl; reflexivity | repeat constructor ].

Section CheckoutFacts.
Import CheckoutForm.
Context {processor : Processor}.
Variable a : Appointment.t.
Variable onSuccess : option (PaymentIntent.t -> Appointment.t -> option JSError).
Variable onError : option (JSError -> option JSError).
Variable origin : JSString.

Lemma call_onError_trace e w :
  exists rest,
    log (snd (call_onError onError e w)) = log w ++ rest
    /\ Forall (fun ev => is_request ev = false) rest.
Proof.
  unfold call_onError. destruct onError as [callback|]; simpl.
  - destruct (callback e); simpl; exists [CalledOnError e]; split; auto.
  - exists []. rewrite app_nil_r. split; auto.
Qed.

(** With Stripe loaded and a handle obtained, a submission asks for the
    handle, confirms it, and sends nothing else. *)
Lemma handleSubmit_trace w secret :
  stripe w = true ->
  elements w = true ->
  createIntent (log w) (Appointment.service_price a) (str "eur")
    (Appointment.id a) = Resolved secret ->
  exists rest,
    log (snd (handleSubmit (Some a) onSuccess onError origin w))
    = log w
      ++ CreateIntent (Appointment.service_price a) (str "eur") (Appointment.id a)
      :: confirm_request a origin (email w) secret :: rest
    /\ Forall (fun ev => is_request ev = false) rest.
Proof.
  intros Hs He Hc.
  unfold handleSubmit. rewrite Hs, He. simpl.
  unfold try_finally, try_catch, bind, setIsProcessing, setMessage, modify,
    gets, read_appointment, ret, api_createIntent, stripe_confirmPayment,
    console_error, call_onSuccess, call_onError, confirm_request.
  simpl. rewrite Hc. simpl.
  destruct (confirmPayment _ _ _ _) as [msg|intent| |msg]; simpl.
  - destruct onError as [callback|]; simpl; [|close_trace].
    destruct (callback (ForeignError msg)) as [e|]; simpl; [|close_trace].
    destruct (callback e) as [e'|]; simpl; close_trace.
  - destruct (jseqb (PaymentIntent.status intent) succeeded); simpl;
      [|close_trace].
    destruct onSuccess as [callback|]; simpl; [|close_trace].
    destruct (callback intent a) as [e|]; simpl; [|close_trace].
    destruct onError as [callback'|]; simpl; [|close_trace].
    destruct (callback' e) as [e'|]; simpl; close_trace.
  - close_trace.
  - destruct onError as [callback|]; simpl; [|close_trace].
    destruct (callback (ForeignError msg)) as [e|]; simpl; close_trace.
Qed.

End CheckoutFacts.

Lemma confirms_of_quiet secret rest :
  Forall (fun ev => CheckoutForm.is_request ev = false) rest ->
  CheckoutForm.confirms_of secret rest = [].
Proof.
  induction 1 as [|ev rest Hev _ IH]; simpl; [reflexivity|].
  destruct ev; simpl in *; try discriminate; exact IH.
Qed.

Lemma jseqb_refl s : jseqb s s = true.
Proof. apply jseqb_eq. reflexivity. Qed.

(** C1 (as the code has it). The form keeps no record of outcomes.  With
    Stripe loaded, every submission that obtains a handle asks for it and
    then sends one confirm request for it, whatever the trace already
    holds: the confirm requests for that handle grow by exactly one, also
    when the handle was confirmed before. *)
Theorem handleSubmit_confirms_on_every_call
    {processor : CheckoutForm.Processor} (a : Appointment.t)
    (onSuccess : option (CheckoutForm.PaymentIntent.t -> Appointment.t
                         -> option JSError))
    (onError : option (JSError -> option JSError))
    (origin : JSString) (w : CheckoutForm.World) (secret : JSString) :
  CheckoutForm.stripe w = true ->
  CheckoutForm.elements w = true ->
  CheckoutForm.createIntent (CheckoutForm.log w) (Appointment.service_price a)
    (str "eur") (Appointment.id a) = Resolved secret ->
  let w' := snd (CheckoutForm.handleSubmit (Some a) onSuccess onError origin w) in
  let confirm :=
    CheckoutForm.confirm_request a origin (CheckoutForm.email w) secret in
  (exists rest,
     CheckoutForm.log w'
     = CheckoutForm.log w
       ++ CheckoutForm.CreateIntent (Appointment.service_price a) (str "eur")
            (Appointment.id a)
       :: confirm :: rest
     /\ Forall (fun ev => CheckoutForm.is_request ev = false) rest)
  /\ CheckoutForm.confirms_of secret (CheckoutForm.log w')
     = CheckoutForm.confirms_of secret (CheckoutForm.log w) ++ [confirm].
Proof.
  intros Hs He Hc w' confirm. subst w' confirm.
  destruct (handleSubmit_trace a onSuccess onError origin w Hs He Hc)
    as (rest & Hlog & Hrest).
  split; [exists rest; split; assumption|].
  rewrite Hlog. unfold CheckoutForm.confirms_of at 1.
  rewrite filter_app. simpl. rewrite jseqb_refl.
  fold (CheckoutForm.confirms_of secret rest).
  rewrite (confirms_of_quiet secret Hrest). reflexivity.
Qed.

(** C1, counterexample. The back end hands out the same handle for the
    appointment.  The first submission is confirmed and succeeds; the second
    submission sends a second confirm request for that handle.  The same
    happens after a decline. *)
Lemma resolved_handle_is_confirmed_again :
  let submit p w :=
    snd (@CheckoutForm.handleSubmit p (Some Scenario.booked) None None
           Scenario.origin w) in
  let intent := CheckoutForm.CreateIntent 25 (str "eur") 7 in
  let confirm :=
    CheckoutForm.confirm_request Scenario.booked Scenario.origin
      (str "mario.rossi@email.com") Scenario.secret in
  let paid1 := submit Scenario.approving Scenario.checkout in
  let paid2 := submit Scenario.approving paid1 in
  let declined1 := submit Scenario.declining Scenario.checkout in
  let declined2 := submit Scenario.declining declined1 in
  CheckoutForm.message paid1 = Some CheckoutForm.success_message
  /\ CheckoutForm.log paid1 = [intent; confirm]
  /\ CheckoutForm.log paid2 = [intent; confirm; intent; confirm]
  /\ CheckoutForm.confirms_of Scenario.secret (CheckoutForm.log paid2)
     = [confirm; confirm]
  /\ CheckoutForm.message declined1 = Some (str "Your card was declined.")
  /\ CheckoutForm.log declined1
     = [intent; confirm; CheckoutForm.ConsoleError]
  /\ CheckoutForm.confirms_of Scenario.secret (CheckoutForm.log declined2)
     = [confirm; confirm].
Proof. vm_compute. repeat split. Qed.

Lemma handleSubmit_confirms_on_every_call_witness :
  let paid1 :=
    snd (@CheckoutForm.handleSubmit Scenario.approving (Some Scenario.booked)
           None None Scenario.origin Scenario.checkout) in
  let paid2 :=
    snd (@CheckoutForm.handleSubmit Scenario.approving (Some Scenario.booked)
           None None Scenario.origin paid1) in
  List.length (CheckoutForm.confirms_of Scenario.secret (CheckoutForm.log paid2))
  = 2%nat.
Proof.
  destruct (@handleSubmit_confirms_on_every_call Scenario.approving
              Scenario.booked None None Scenario.origin
              (snd (@CheckoutForm.handleSubmit Scenario.approving
                      (Some Scenario.booked) None None Scenario.origin
                      Scenario.checkout))
              Scenario.secret)
    as (_ & Hgrow);
    first [ cbv zeta; rewrite Hgrow; vm_compute; reflexivity
          | vm_compute; reflexivity ].
Defined.

(** The action [{ type: 'RESET' }] is not a named transition and leaves the
    initial state alone. *)
Lemma unrecognized_action_is_noop_witness :
  AppContext.appReducer AppContext.initialState
    (@AppContext.mkAction "RESET" tt)
  = AppContext.initialState.
Proof.
  apply (@unrecognized_action_is_noop AppContext.initialState
           (@AppContext.mkAction "RESET" tt)).
  unfold AppContext.ActionTypes. simpl.
  intros [H|[H|[H|[H|[H|[H|[H|[H|[H|[H|H]]]]]]]]]]; try discriminate H; exact H.
Defined.

(* ===================================================================== *)
(** * Further properties of the store                                     *)
(* ===================================================================== *)

Section StoreRuns.
Import AppContext.

Lemma replace_by_id_idempotent payload l :
  replace_by_id payload (replace_by_id payload l) = replace_by_id payload l.
Proof.
  induction l as [|apt l IH]; simpl; [reflexivity|].
  rewrite IH. f_equal.
  destruct (Z.eqb (Appointment.id apt) (Appointment.id payload)) eqn:E.
  - rewrite Z.eqb_refl. reflexivity.
  - rewrite E. reflexivity.
Qed.

Lemma replace_by_id_ids payload l :
  List.map Appointment.id (replace_by_id payload l) = List.map Appointment.id l.
Proof.
  induction l as [|apt l IH]; simpl; [reflexivity|].
  rewrite IH. f_equal.
  destruct (Z.eqb_spec (Appointment.id apt) (Appointment.id payload)) as [E|E];
    [symmetry; exact E | reflexivity].
Qed.

Lemma replace_by_id_hit payload l apt :
  In apt (replace_by_id payload l) ->
  Appointment.id apt = Appointment.id payload -> apt = payload.
Proof.
  unfold replace_by_id. intros Hin Hid. apply in_map_iff in Hin.
  destruct Hin as (old & Heq & _).
  destruct (Z.eqb_spec (Appointment.id old) (Appointment.id payload)) as [E|E].
  - symmetry. exact Heq.
  - subst apt. contradiction.
Qed.

(** Which arm a type string selects, read backwards. *)
Lemma switch_inv (type : string) :
  match switch type with
  | CaseSetLoading => type = SET_LOADING
  | CaseSetError => type = SET_ERROR
  | CaseClearError => type = CLEAR_ERROR
  | CaseSetUser => type = SET_USER
  | CaseSetAppointments => type = SET_APPOINTMENTS
  | CaseAddAppointment => type = ADD_APPOINTMENT
  | CaseUpdateAppointment => type = UPDATE_APPOINTMENT
  | CaseSetCurrentBooking => type = SET_CURRENT_BOOKING
  | CaseSetAvailableSlots => type = SET_AVAILABLE_SLOTS
  | CaseSetVoiceSupported => type = SET_VOICE_SUPPORTED
  | CaseDefault => ~ In type ActionTypes
  end.
Proof.
  unfold switch.
  repeat
    match goal with
    | |- context [String.eqb type ?c] =>
        destruct (String.eqb_spec type c); [assumption|]
    end.
  unfold ActionTypes. simpl.
  intros [H|[H|[H|[H|[H|[H|[H|[H|[H|[H|H]]]]]]]]]]; try (symmetry in H; contradiction).
  exact H.
Qed.

(** One step of the store extends the sequence of ids at the end, unless
    the whole list is replaced. *)
Lemma step_extends_ids state action :
  type action <> SET_APPOINTMENTS ->
  exists tail, ids (appReducer state action) = ids state ++ tail
               /\ (List.length tail <= 1)%nat.
Proof.
  destruct action as [ty p]. simpl. intro Hty.
  unfold appReducer, ids. simpl.
  pose proof (switch_inv ty) as Hinv.
  revert p. destruct (switch ty); intro p; simpl;
    try (exists []; rewrite app_nil_r; split; [reflexivity | simpl; lia]).
  - contradiction.
  - exists [Appointment.id p]. rewrite map_app. split; [reflexivity | simpl; lia].
  - exists []. rewrite app_nil_r, replace_by_id_ids.
    split; [reflexivity | simpl; lia].
Qed.

End StoreRuns.

(** X1. Dispatching the same update twice gives the state that
    dispatching it once gives. *)
Theorem update_twice_is_update_once :
  forall (state : AppContext.State) (payload : Appointment.t),
    AppContext.appReducer
      (AppContext.appReducer state (AppContext.actions.updateAppointment payload))
      (AppContext.actions.updateAppointment payload)
    = AppContext.appReducer state (AppContext.actions.updateAppointment payload).
Proof.
  intros state payload.
  unfold AppContext.appReducer, AppContext.actions.updateAppointment. simpl.
  rewrite replace_by_id_idempotent. reflexivity.
Qed.

(** X2. An update never changes which ids the list holds nor where: the
    sequence of ids is the same before and after; and afterwards every
    entry that has the payload's id is the payload, so entries that shared
    the id are all replaced. *)
Theorem update_keeps_ids :
  forall (state : AppContext.State) (payload : Appointment.t),
    let state' :=
      AppContext.appReducer state (AppContext.actions.updateAppointment payload) in
    ids state' = ids state
    /\ (forall apt, In apt (AppContext.appointments state') ->
          Appointment.id apt = Appointment.id payload -> apt = payload)
    /\ (NoDup (ids state) -> NoDup (ids state')).
Proof.
  intros state payload state'. subst state'.
  unfold ids, AppContext.appReducer, AppContext.actions.updateAppointment. simpl.
  split; [apply replace_by_id_ids|].
  split; [intros apt; apply replace_by_id_hit|].
  rewrite replace_by_id_ids. auto.
Qed.

(** X3. Each field of the state is written by its own transitions only:
    the appointment list by set-appointments, add-appointment and
    update-appointment; the loading flag by set-loading and set-error; the
    error by set-error and clear-error; the user, the current booking, the
    available slots and the voice flag each by the one transition named
    after them. *)
Theorem reducer_frame :
  forall (state : AppContext.State) (action : AppContext.Action),
    let ty := AppContext.type action in
    let state' := AppContext.appReducer state action in
    (~ In ty [AppContext.SET_APPOINTMENTS; AppContext.ADD_APPOINTMENT;
              AppContext.UPDATE_APPOINTMENT] ->
       AppContext.appointments state' = AppContext.appointments state)
    /\ (~ In ty [AppContext.SET_LOADING; AppContext.SET_ERROR] ->
        AppContext.loading state' = AppContext.loading state)
    /\ (~ In ty [AppContext.SET_ERROR; AppContext.CLEAR_ERROR] ->
        AppContext.error state' = AppContext.error state)
    /\ (ty <> AppContext.SET_USER ->
        AppContext.user state' = AppContext.user state)
    /\ (ty <> AppContext.SET_CURRENT_BOOKING ->
        AppContext.currentBooking state' = AppContext.currentBooking state)
    /\ (ty <> AppContext.SET_AVAILABLE_SLOTS ->
        AppContext.availableSlots state' = AppContext.availableSlots state)
    /\ (ty <> AppContext.SET_VOICE_SUPPORTED ->
        AppContext.voiceSupported state' = AppContext.voiceSupported state).
Proof.
  intros state [ty p] ty' state'. subst ty' state'.
  unfold AppContext.appReducer. simpl.
  pose proof (switch_inv ty) as Hinv.
  revert p. destruct (AppContext.switch ty); intro p; simpl;
    repeat split; intro H; try reflexivity;
    exfalso; apply H; rewrite Hinv; simpl; tauto.
Qed.

(** X4. Along any run of the store in which the list is never replaced as
    a whole, the ids that were in the list stay where they were: the old
    sequence of ids is a prefix of the new one, which is longer by at most
    one id per action. *)
Theorem ids_are_kept_in_place :
  forall (actions : list AppContext.Action) (state : AppContext.State),
    Forall (fun a => AppContext.type a <> AppContext.SET_APPOINTMENTS) actions ->
    exists tail,
      ids (dispatch_all state actions) = ids state ++ tail
      /\ (List.length tail <= List.length actions)%nat.
Proof.
  induction actions as [|a actions IH]; intros state H; simpl.
  - exists []. rewrite app_nil_r. split; [reflexivity | simpl; lia].
  - inversion H as [|? ? Ha Hrest]; subst.
    destruct (step_extends_ids state a Ha) as (t1 & E1 & L1).
    destruct (IH (AppContext.appReducer state a) Hrest) as (t2 & E2 & L2).
    exists (t1 ++ t2). unfold dispatch_all in *. simpl.
    rewrite E2, E1, <- app_assoc. split; [reflexivity|].
    rewrite length_app. lia.
Qed.

Lemma ids_are_kept_in_place_witness :
  ids (dispatch_all AppContext.initialState
         [ AppContext.actions.addAppointment Scenario.booked;
           AppContext.actions.setLoading true;
           AppContext.actions.updateAppointment Scenario.booked;
           AppContext.actions.clearError ])
  = [7%Z].
Proof.
  destruct (@ids_are_kept_in_place
              [ AppContext.actions.addAppointment Scenario.booked;
                AppContext.actions.setLoading true;
                AppContext.actions.updateAppointment Scenario.booked;
                AppContext.actions.clearError ]
              AppContext.initialState)
    as (tail & Hids & _);
    first [ vm_compute; reflexivity
          | repeat constructor; discriminate ].
Defined.

(* ===================================================================== *)
(** * Further properties of the booking form                              *)
(* ===================================================================== *)

(** Unfolds a handler of the booking form down to the answers of the
    remote party. *)
Ltac run_booking :=
  unfold BookingForm.onSubmit, BookingForm.fetchAvailableSlots,
    try_finally, try_catch, bind, BookingForm.dispatch, modify, gets, lift,
    BookingForm.api_create, BookingForm.api_getAvailability,
    BookingForm.call_onSuccess;
  simpl.

(** X5. Whatever the draft and whatever the server or the callback do,
    [onSubmit] ends with the loading flag off; it leaves the form values,
    the field errors, the loaded slots and the selected service alone; and
    it sends at most one request, which is then the first thing it lets
    out.  It returns normally, with one exception: when the server accepted
    the booking and the [onSuccess] callback threw [null] or [undefined],
    the [catch] clause throws on reading the caught value, and [onSubmit]
    ends with that TypeError once [finally] has run. *)
Theorem onSubmit_settles_or_rethrows
    {date_api : DateApi} {backend : BookingForm.Backend}
    (onSuccess : option (Appointment.t -> option JSError))
    (data : FormData.t) (w : BookingForm.World) :
  let run := BookingForm.onSubmit onSuccess data w in
  let w' := snd run in
  (fst run = Ok tt \/ fst run = Throw TypeError)
  /\ (fst run = Throw TypeError <->
      exists callback req a,
        onSuccess = Some callback
        /\ BookingForm.appointmentData (BookingForm.selectedService w) data
           = Ok req
        /\ BookingForm.create (BookingForm.log w) req = Resolved a
        /\ callback a = Some ThrownNullish)
  /\ AppContext.loading (BookingForm.store w') = false
  /\ BookingForm.values w' = BookingForm.values w
  /\ BookingForm.errors w' = BookingForm.errors w
  /\ BookingForm.availableSlots w' = BookingForm.availableSlots w
  /\ BookingForm.selectedService w' = BookingForm.selectedService w
  /\ exists new,
       BookingForm.log w' = BookingForm.log w ++ new
       /\ Forall (fun e => BookingForm.is_request e = false) (List.tl new)
       /\ (List.length new <= 2)%nat.
Proof.
  run_booking.
  destruct (BookingForm.appointmentData (BookingForm.selectedService w) data)
    as [req|e|] eqn:Hreq; simpl.
  - destruct (BookingForm.create (BookingForm.log w) req) as [a|error] eqn:Hc;
      simpl.
    + destruct onSuccess as [callback|]; simpl.
      * destruct (callback a) as [e|] eqn:Hcb; simpl.
        -- destruct e; simpl;
             (split; [first [left; reflexivity | right; reflexivity]|]);
             (split;
              [ split;
                [ first [ (intro Hbad; discriminate Hbad)
                        | intros _; exists callback, req, a; auto ]
                | first [ reflexivity
                        | intros (cb & rq & ap & Hcb' & Hrq & Hap & Hthrown);
                          injection Hcb' as <-; injection Hrq as <-;
                          rewrite Hc in Hap; injection Hap as <-;
                          rewrite Hcb in Hthrown; discriminate Hthrown ] ]
              | ]);
             do 5 (split; [reflexivity|]);
             exists [BookingForm.CreateAppointment req;
                     BookingForm.CalledOnSuccess a];
             rewrite <- app_assoc; simpl; repeat split; auto.
        -- split; [left; reflexivity|].
           split.
           { split; [(intro Hbad; discriminate Hbad)|].
             intros (cb & rq & ap & Hcb' & Hrq & Hap & Hthrown).
             injection Hcb' as <-. injection Hrq as <-.
             rewrite Hc in Hap. injection Hap as <-.
             rewrite Hcb in Hthrown. discriminate Hthrown. }
           do 5 (split; [reflexivity|]).
           exists [BookingForm.CreateAppointment req;
                   BookingForm.CalledOnSuccess a].
           rewrite <- app_assoc. simpl. repeat split; auto.
      * split; [left; reflexivity|].
        split.
        { split; [(intro Hbad; discriminate Hbad)|].
          intros (cb & _ & _ & Hcb' & _). discriminate Hcb'. }
        do 5 (split; [reflexivity|]).
        exists [BookingForm.CreateAppointment req]. simpl. repeat split; auto.
    + split; [left; reflexivity|].
      split.
      { split; [(intro Hbad; discriminate Hbad)|].
        intros (cb & rq & ap & _ & Hrq & Hap & _).
        injection Hrq as <-. rewrite Hc in Hap. discriminate Hap. }
      do 5 (split; [reflexivity|]).
      exists [BookingForm.CreateAppointment req]. simpl. repeat split; auto.
  - destruct (appointmentData_throws _ _ Hreq) as [-> | ->]; simpl;
      (split; [left; reflexivity|]);
      (split;
       [ split; [(intro Hbad; discriminate Hbad)|];
         intros (cb & rq & ap & _ & Hrq & _); discriminate Hrq
       | ]);
      do 5 (split; [reflexivity|]);
      exists []; rewrite app_nil_r; simpl; repeat split; auto.
  - exfalso. exact (appointmentData_loaded _ _ Hreq).
Qed.

(** X6. When the server accepts the booking and the [onSuccess] callback,
    if there is one, returns, the record of the response is appended at the
    end of the store's list, the error of an earlier attempt is cleared,
    the loading flag is off, and the callback has been called once, after
    the request, with that same record. *)
Theorem accepted_booking_is_appended
    {date_api : DateApi} {backend : BookingForm.Backend}
    (onSuccess : option (Appointment.t -> option JSError))
    (data : FormData.t) (w : BookingForm.World)
    (req : AppointmentData.t) (a : Appointment.t) :
  BookingForm.appointmentData (BookingForm.selectedService w) data = Ok req ->
  BookingForm.create (BookingForm.log w) req = Resolved a ->
  match onSuccess with
  | Some callback => callback a = None
  | None => True
  end ->
  let w' := snd (BookingForm.onSubmit onSuccess data w) in
  AppContext.appointments (BookingForm.store w')
  = AppContext.appointments (BookingForm.store w) ++ [a]
  /\ AppContext.error (BookingForm.store w') = None
  /\ AppContext.loading (BookingForm.store w') = false
  /\ BookingForm.log w'
     = BookingForm.log w
       ++ BookingForm.CreateAppointment req
       :: match onSuccess with
          | Some _ => [BookingForm.CalledOnSuccess a]
          | None => []
          end.
Proof.
  intros Hreq Hcreate Hcb. run_booking. rewrite Hreq. simpl.
  rewrite Hcreate. simpl.
  destruct onSuccess as [callback|]; simpl.
  - rewrite Hcb. simpl. rewrite <- app_assoc. repeat split.
  - repeat split.
Qed.

(** X7. When the server accepts the booking but the [onSuccess] callback
    throws, the appointment stays in the store's list and the loading flag
    is off.  If the thrown value is [null] or [undefined], the [catch]
    clause throws on reading it: [onSubmit] ends with a TypeError and the
    error field stays cleared.  Otherwise [onSubmit] returns normally and
    the error field shows the message for a failed creation: the detail
    that the thrown object carries, if it is truthy, and else the fixed
    message. *)
Theorem failing_callback_keeps_appointment
    {date_api : DateApi} {backend : BookingForm.Backend}
    (callback : Appointment.t -> option JSError)
    (data : FormData.t) (w : BookingForm.World)
    (req : AppointmentData.t) (a : Appointment.t) (e : JSError) :
  BookingForm.appointmentData (BookingForm.selectedService w) data = Ok req ->
  BookingForm.create (BookingForm.log w) req = Resolved a ->
  callback a = Some e ->
  let run := BookingForm.onSubmit (Some callback) data w in
  let shown := AppContext.error (BookingForm.store (snd run)) in
  AppContext.appointments (BookingForm.store (snd run))
  = AppContext.appointments (BookingForm.store w) ++ [a]
  /\ AppContext.loading (BookingForm.store (snd run)) = false
  /\ BookingForm.log (snd run)
     = BookingForm.log w
       ++ [BookingForm.CreateAppointment req; BookingForm.CalledOnSuccess a]
  /\ BookingForm.browser (snd run) = BookingForm.browser w
  /\ match e with
     | ThrownNullish => fst run = Throw TypeError /\ shown = None
     | RequestError error =>
         fst run = Ok tt
         /\ shown = value_or (Api.detail error)
                      BookingForm.default_submit_message
     | TypeError | RangeError | ForeignError _ =>
         fst run = Ok tt
         /\ shown = Some (VString BookingForm.default_submit_message)
     end.
Proof.
  intros Hreq Hcreate Hcb. run_booking. rewrite Hreq. simpl.
  rewrite Hcreate. simpl. rewrite Hcb. simpl.
  destruct e; simpl; rewrite <- app_assoc; repeat split.
Qed.

(** X8. When no service is selected, or the date and the time do not
    denote a date, [onSubmit] sends nothing: the trace and the list are as
    before, the error field holds the fixed message for a failed creation
    and the loading flag is off. *)
Theorem unbuildable_request_is_not_sent
    {date_api : DateApi} {backend : BookingForm.Backend}
    (onSuccess : option (Appointment.t -> option JSError))
    (data : FormData.t) (w : BookingForm.World) :
  BookingForm.selectedService w = None
  \/ Date_parse (FormData.appointment_date data ++ str "T"
                 ++ FormData.appointment_time data) = None ->
  let run := BookingForm.onSubmit onSuccess data w in
  fst run = Ok tt
  /\ BookingForm.log (snd run) = BookingForm.log w
  /\ AppContext.appointments (BookingForm.store (snd run))
     = AppContext.appointments (BookingForm.store w)
  /\ AppContext.error (BookingForm.store (snd run))
     = Some (VString BookingForm.default_submit_message)
  /\ AppContext.loading (BookingForm.store (snd run)) = false.
Proof.
  intro H.
  assert (He : exists e,
             BookingForm.appointmentData (BookingForm.selectedService w) data
             = Throw e /\ BookingForm.response_detail e = Ok None).
  { unfold BookingForm.appointmentData, Date_toISOString.
    destruct (Date_parse _) as [t|].
    - destruct H as [H|H]; [|discriminate H]. rewrite H.
      exists TypeError. split; reflexivity.
    - exists RangeError. split; reflexivity. }
  destruct He as (e & He & Hd).
  run_booking. rewrite He. simpl. rewrite Hd. repeat split.
Qed.

Lemma accepted_booking_is_appended_witness :
  let w := Scenario.world Scenario.mario in
  let w' :=
    snd (@BookingForm.onSubmit Scenario.rome Scenario.accepting None
           Scenario.mario w) in
  AppContext.appointments (BookingForm.store w')
  = [Scenario.record_of 7
       (Scenario.haircut_request Scenario.mario "2030-01-15T09:00:00.000Z")]
  /\ AppContext.error (BookingForm.store w') = None.
Proof.
  destruct (@accepted_booking_is_appended Scenario.rome Scenario.accepting None
              Scenario.mario (Scenario.world Scenario.mario)
              (Scenario.haircut_request Scenario.mario "2030-01-15T09:00:00.000Z")
              (Scenario.record_of 7
                 (Scenario.haircut_request Scenario.mario
                    "2030-01-15T09:00:00.000Z")))
    as (Happ & Herr & _);
    first [ split; [exact Happ | exact Herr]
          | vm_compute; reflexivity
          | exact I ].
Defined.

(** A callback that throws [null]: the booking is in the list, nothing is
    shown, and the handler ends with a TypeError. *)
Lemma failing_callback_keeps_appointment_witness :
  let run :=
    @BookingForm.onSubmit Scenario.rome Scenario.accepting
      (Some (fun _ => Some ThrownNullish)) Scenario.mario
      (Scenario.world Scenario.mario) in
  fst run = Throw TypeError
  /\ List.length (AppContext.appointments (BookingForm.store (snd run))) = 1%nat
  /\ AppContext.error (BookingForm.store (snd run)) = None
  /\ AppContext.loading (BookingForm.store (snd run)) = false.
Proof.
  destruct (@failing_callback_keeps_appointment Scenario.rome Scenario.accepting
              (fun _ => Some ThrownNullish) Scenario.mario
              (Scenario.world Scenario.mario)
              (Scenario.haircut_request Scenario.mario "2030-01-15T09:00:00.000Z")
              (Scenario.record_of 7
                 (Scenario.haircut_request Scenario.mario
                    "2030-01-15T09:00:00.000Z"))
              ThrownNullish)
    as (Happ & Hload & _ & _ & Hr & Herr);
    first [ split; [exact Hr|];
            split; [rewrite Happ; reflexivity|];
            split; [exact Herr | exact Hload]
          | vm_compute; reflexivity ].
Defined.

Lemma unbuildable_request_is_not_sent_witness :
  let d := Scenario.draft "+39 123 456 7890" "haircut" "2030-13-01" "10:00" false in
  let run :=
    @BookingForm.onSubmit Scenario.rome Scenario.accepting None d
      (Scenario.world d) in
  BookingForm.log (snd run) = []
  /\ AppContext.error (BookingForm.store (snd run))
     = Some (VString BookingForm.default_submit_message).
Proof.
  destruct (@unbuildable_request_is_not_sent Scenario.rome Scenario.accepting None
              (Scenario.draft "+39 123 456 7890" "haircut" "2030-13-01" "10:00"
                 false)
              (Scenario.world
                 (Scenario.draft "+39 123 456 7890" "haircut" "2030-13-01"
                    "10:00" false)))
    as (_ & Hlog & _ & Herr & _);
    first [ split; [exact Hlog | exact Herr]
          | right; vm_compute; reflexivity ].
Defined.

(** ** The form's rules, both ways *)

Lemma required_fails_iff message value :
  ReactHookForm.validateField
    {| ReactHookForm.required := Some message;
       ReactHookForm.minLength := None;
       ReactHookForm.pattern := None |} value = None
  <-> value <> [].
Proof.
  split; [apply required_passes|].
  destruct value; [intro H; contradiction H; reflexivity | reflexivity].
Qed.

Lemma name_rules_iff value :
  ReactHookForm.validateField BookingForm.rules_customer_name value = None
  <-> (2 <= List.length value)%nat.
Proof.
  split; [apply name_rules_pass|].
  destruct value as [|c [|c' value]]; simpl; intro H; try lia. reflexivity.
Qed.

Lemma phone_rules_iff value :
  ReactHookForm.validateField BookingForm.rules_customer_phone value = None
  <-> matches BookingForm.phone_pattern value = true.
Proof.
  split; [apply phone_rules_pass|].
  intro H.
  unfold ReactHookForm.validateField, ReactHookForm.check_required,
    ReactHookForm.check_minLength, ReactHookForm.check_pattern.
  cbn [BookingForm.rules_customer_phone ReactHookForm.required
       ReactHookForm.minLength ReactHookForm.pattern].
  rewrite H.
  destruct value as [|c value]; [vm_compute in H; discriminate H | reflexivity].
Qed.

Lemma email_rules_iff value :
  ReactHookForm.validateField BookingForm.rules_customer_email value = None
  <-> value = [] \/ matches BookingForm.email_pattern value = true.
Proof.
  split; [apply email_rules_pass|].
  unfold ReactHookForm.validateField, ReactHookForm.check_required,
    ReactHookForm.check_minLength, ReactHookForm.check_pattern.
  cbn [BookingForm.rules_customer_email ReactHookForm.required
       ReactHookForm.minLength ReactHookForm.pattern].
  intros [->|H]; [reflexivity|].
  rewrite H. destruct (falsy value); reflexivity.
Qed.

(** X9. The form lets a draft through exactly when the name has at least
    two characters, the phone matches the phone pattern, the email is empty
    or matches the email pattern, and a service, a date and a time are
    chosen; the notes and the prepayment box play no part. *)
Theorem form_accepts_exactly (data : FormData.t) :
  ReactHookForm.validate BookingForm.registered data = []
  <-> (2 <= List.length (FormData.customer_name data))%nat
      /\ matches BookingForm.phone_pattern (FormData.customer_phone data) = true
      /\ (FormData.customer_email data = []
          \/ matches BookingForm.email_pattern (FormData.customer_email data) = true)
      /\ FormData.service_type data <> []
      /\ FormData.appointment_date data <> []
      /\ FormData.appointment_time data <> [].
Proof.
  split; [apply validate_passes|].
  intros (H1 & H2 & H3 & H4 & H5 & H6).
  unfold BookingForm.registered. cbn [ReactHookForm.validate].
  apply name_rules_iff in H1. apply phone_rules_iff in H2.
  apply email_rules_iff in H3.
  apply (required_fails_iff (str "Seleziona un servizio")) in H4.
  apply (required_fails_iff (str "Seleziona una data")) in H5.
  apply (required_fails_iff (str "Seleziona un orario")) in H6.
  unfold BookingForm.rules_required.
  rewrite H1, H2, H3, H4, H5, H6. reflexivity.
Qed.

(** The fields of a form that fail their rules. *)
Lemma validate_names {D}
    (fields : list (string * ReactHookForm.Rules * (D -> JSString))) (data : D) :
  List.map fst (ReactHookForm.validate fields data)
  = List.map (fun f => fst (fst f))
      (List.filter
         (fun f =>
            match ReactHookForm.validateField (snd (fst f)) (snd f data) with
            | Some _ => true
            | None => false
            end)
         fields).
Proof.
  induction fields as [|[[name rules] get] fields IH]; simpl; [reflexivity|].
  destruct (ReactHookForm.validateField rules (get data)); simpl;
    rewrite IH; reflexivity.
Qed.

Lemma NoDup_map_filter {A B} (f : A -> B) (p : A -> bool) l :
  NoDup (List.map f l) -> NoDup (List.map f (List.filter p l)).
Proof.
  induction l as [|x l IH]; simpl; intro H; [constructor|].
  inversion H as [|? ? Hx Hl]; subst.
  destruct (p x); simpl; [|apply IH; exact Hl].
  constructor; [|apply IH; exact Hl].
  intro Hin. apply Hx. apply in_map_iff in Hin.
  destruct Hin as (y & Hy & Hin). apply filter_In in Hin.
  apply in_map_iff. exists y. split; [exact Hy | apply Hin].
Qed.

(** X10. The errors of the form name each failing field once, in the
    order in which the fields are registered, with the message of the
    field's first failing rule; the notes field never has an error. *)
Theorem errors_follow_registration (data : FormData.t) :
  let errs := ReactHookForm.validate BookingForm.registered data in
  List.map fst errs
  = List.map (fun f => fst (fst f))
      (List.filter
         (fun f =>
            match ReactHookForm.validateField (snd (fst f)) (snd f data) with
            | Some _ => true
            | None => false
            end)
         BookingForm.registered)
  /\ NoDup (List.map fst errs)
  /\ (forall name message,
        In (name, message) errs ->
        exists rules get,
          In (name, rules, get) BookingForm.registered
          /\ ReactHookForm.validateField rules (get data) = Some message)
  /\ ~ In "notes"%string (List.map fst errs).
Proof.
  intro errs. subst errs.
  split; [apply validate_names|].
  split.
  - rewrite validate_names. apply NoDup_map_filter.
    unfold BookingForm.registered. simpl.
    repeat constructor; simpl; intuition discriminate.
  - split.
    + intros name message.
      generalize BookingForm.registered as fields.
      induction fields as [|[[n r] g] fields IH]; simpl; [contradiction|].
      destruct (ReactHookForm.validateField r (g data)) as [m|] eqn:E.
      * intros [Heq|Hin].
        -- injection Heq as -> ->. exists r, g. split; [left; reflexivity | exact E].
        -- destruct (IH Hin) as (rules & get & H1 & H2).
           exists rules, get. split; [right; exact H1 | exact H2].
      * intro Hin. destruct (IH Hin) as (rules & get & H1 & H2).
        exists rules, get. split; [right; exact H1 | exact H2].
    + rewrite validate_names. intro Hin. apply in_map_iff in Hin.
      destruct Hin as ([[n r] g] & Hn & Hin). simpl in Hn. subst n.
      apply filter_In in Hin. destruct Hin as [Hin Hfail].
      unfold BookingForm.registered in Hin. simpl in Hin.
      repeat (destruct Hin as [Hin|Hin]; [try discriminate Hin|]);
        try contradiction.
      injection Hin as <- <-. simpl in Hfail. discriminate Hfail.
Qed.

(** ** The availability query, whatever happens *)

(** X11. [fetchAvailableSlots] always returns normally.  Without a date or
    without a selected service it does nothing at all.  Otherwise it ends
    with the loading flag off, sends at most one request (an availability
    query, never a booking), and leaves the appointment list, the form
    values, the field errors and the selected service alone. *)
Theorem fetchAvailableSlots_is_contained
    {date_api : DateApi} {backend : BookingForm.Backend}
    (w : BookingForm.World) :
  let run := BookingForm.fetchAvailableSlots w in
  fst run = Ok tt
  /\ (BookingForm.selectedService w = None
      \/ FormData.appointment_date (BookingForm.values w) = [] ->
      snd run = w)
  /\ (BookingForm.selectedService w <> None ->
      FormData.appointment_date (BookingForm.values w) <> [] ->
      AppContext.loading (BookingForm.store (snd run)) = false)
  /\ AppContext.appointments (BookingForm.store (snd run))
     = AppContext.appointments (BookingForm.store w)
  /\ BookingForm.values (snd run) = BookingForm.values w
  /\ BookingForm.errors (snd run) = BookingForm.errors w
  /\ BookingForm.selectedService (snd run) = BookingForm.selectedService w
  /\ exists new,
       BookingForm.log (snd run) = BookingForm.log w ++ new
       /\ (new = []
           \/ new = [BookingForm.ConsoleError]
           \/ exists query,
                new = [BookingForm.GetAvailability query]
                \/ new = [BookingForm.GetAvailability query;
                          BookingForm.ConsoleError]).
Proof.
  unfold BookingForm.fetchAvailableSlots.
  destruct (BookingForm.selectedService w) as [service|] eqn:Hs.
  2:{ simpl. repeat (split; [intros; try reflexivity; try congruence|]).
      exists []. rewrite app_nil_r. split; [reflexivity | left; reflexivity]. }
  destruct (FormData.appointment_date (BookingForm.values w)) as [|c date] eqn:Hd.
  { simpl. repeat (split; [intros; try reflexivity; try congruence|]).
    exists []. rewrite app_nil_r. split; [reflexivity | left; reflexivity]. }
  cbn [falsy].
  unfold try_finally, try_catch, bind, BookingForm.dispatch, modify, lift,
    BookingForm.api_getAvailability, Date_toISOString.
  simpl.
  destruct (Date_parse (c :: date ++ str "T09:00:00")) as [t1|]; simpl.
  - destruct (Date_parse (c :: date ++ str "T18:00:00")) as [t2|]; simpl.
    + destruct (BookingForm.getAvailability _ _) as [answer|error]; simpl.
      * split; [reflexivity|].
        split; [intros [H|H]; discriminate H|].
        split; [reflexivity|].
        do 3 (split; [reflexivity|]). split; [exact Hs|].
        eexists. split; [reflexivity|].
        right. right. eexists. left. reflexivity.
      * split; [reflexivity|].
        split; [intros [H|H]; discriminate H|].
        split; [reflexivity|].
        do 3 (split; [reflexivity|]). split; [exact Hs|].
        eexists. split; [rewrite <- app_assoc; reflexivity|].
        right. right. eexists. right. reflexivity.
    + split; [reflexivity|].
      split; [intros [H|H]; discriminate H|].
      split; [reflexivity|].
      do 3 (split; [reflexivity|]). split; [exact Hs|].
      eexists. split; [reflexivity|]. right. left. reflexivity.
  - split; [reflexivity|].
    split; [intros [H|H]; discriminate H|].
    split; [reflexivity|].
    do 3 (split; [reflexivity|]). split; [exact Hs|].
    eexists. split; [reflexivity|]. right. left. reflexivity.
Qed.

(** X12. When the availability query cannot be made (the chosen date does
    not parse) or is rejected, the slots loaded before stay as they were,
    the store's error field holds the fixed message for a failed load, the
    loading flag is off and the failure is written to the console; a query
    that cannot be made is not sent. *)
Theorem failed_query_keeps_loaded_slots
    {date_api : DateApi} {backend : BookingForm.Backend}
    (w : BookingForm.World) (service : ServiceType.t) :
  let date := FormData.appointment_date (BookingForm.values w) in
  let w' := snd (BookingForm.fetchAvailableSlots w) in
  let failed :=
    BookingForm.availableSlots w' = BookingForm.availableSlots w
    /\ AppContext.error (BookingForm.store w')
       = Some (VString BookingForm.default_slots_message)
    /\ AppContext.loading (BookingForm.store w') = false in
  BookingForm.selectedService w = Some service ->
  date <> [] ->
  (Date_parse (date ++ str "T09:00:00") = None
   \/ Date_parse (date ++ str "T18:00:00") = None ->
   failed
   /\ BookingForm.log w' = BookingForm.log w ++ [BookingForm.ConsoleError])
  /\ (forall t1 t2 error,
        Date_parse (date ++ str "T09:00:00") = Some t1 ->
        Date_parse (date ++ str "T18:00:00") = Some t2 ->
        BookingForm.getAvailability (BookingForm.log w)
          {| AvailabilityParams.start_date := toISOString t1;
             AvailabilityParams.end_date := toISOString t2;
             AvailabilityParams.duration_minutes := ServiceType.duration service |}
        = Rejected error ->
        failed
        /\ BookingForm.log w'
           = BookingForm.log w
             ++ [BookingForm.GetAvailability
                   {| AvailabilityParams.start_date := toISOString t1;
                      AvailabilityParams.end_date := toISOString t2;
                      AvailabilityParams.duration_minutes :=
                        ServiceType.duration service |};
                 BookingForm.ConsoleError]).
Proof.
  intros date w' failed Hs Hd. subst date w' failed.
  unfold BookingForm.fetchAvailableSlots. rewrite Hs.
  apply falsy_false in Hd. rewrite Hd.
  unfold try_finally, try_catch, bind, BookingForm.dispatch, modify, lift,
    BookingForm.api_getAvailability, Date_toISOString.
  simpl. split.
  - intros [H|H].
    + rewrite H. simpl. repeat split.
    + destruct (Date_parse (_ ++ str "T09:00:00")); simpl;
        [rewrite H; simpl|]; repeat split.
  - intros t1 t2 error H1 H2 Hrej.
    rewrite H1. simpl. rewrite H2. simpl. rewrite Hrej. simpl.
    rewrite <- app_assoc. repeat split.
Qed.

(** A server that is down. *)
Lemma failed_query_keeps_loaded_slots_witness :
  let down : BookingForm.Backend :=
    {| BookingForm.create := fun _ _ => Rejected Cases.no_response;
       BookingForm.getAvailability := fun _ _ => Rejected Cases.no_response |} in
  let w :=
    BookingForm.with_availableSlots Scenario.morning
      (Scenario.world Scenario.mario) in
  let w' := snd (@BookingForm.fetchAvailableSlots Scenario.rome down w) in
  BookingForm.availableSlots w' = Scenario.morning
  /\ AppContext.error (BookingForm.store w')
     = Some (VString BookingForm.default_slots_message).
Proof.
  cbv zeta.
  destruct (@failed_query_keeps_loaded_slots Scenario.rome
              {| BookingForm.create := fun _ _ => Rejected Cases.no_response;
                 BookingForm.getAvailability :=
                   fun _ _ => Rejected Cases.no_response |}
              (BookingForm.with_availableSlots Scenario.morning
                 (Scenario.world Scenario.mario))
              (ServiceType.mk (str "haircut") (str "Taglio di Capelli") 25 30))
    as (_ & Hrej);
    first [ destruct (Hrej 1894694400000%Z 1894726800000%Z Cases.no_response)
              as ((Hslots & Herr & _) & _);
            [ vm_compute; reflexivity | vm_compute; reflexivity | reflexivity | ];
            split; [exact Hslots | exact Herr]
          | vm_compute; reflexivity
          | vm_compute; discriminate ].
Defined.

(** ** The derived slots, when a start time does not parse *)

(** X13. Deriving the selectable slots throws (a RangeError) exactly when
    some free slot has a start time that does not parse, and yields a
    sequence otherwise; a start time that does not parse does no harm on a
    slot that is not free. *)
Theorem timeSlots_throws_exactly {date_api : DateApi} (slots : list Slot) :
  (BookingForm.timeSlots slots = Throw RangeError
   <-> exists slot,
         In slot slots /\ available slot = true
         /\ Date_parse (start_time slot) = None)
  /\ ((exists out, BookingForm.timeSlots slots = Ok out)
      <-> forall slot,
            In slot slots -> available slot = true ->
            Date_parse (start_time slot) <> None).
Proof.
  unfold BookingForm.timeSlots.
  induction slots as [|slot slots [IH1 IH2]]; simpl.
  - split; split.
    + discriminate.
    + intros (slot & [] & _).
    + intros _ slot [].
    + intros _. exists []. reflexivity.
  - destruct (available slot) eqn:Hav; simpl.
    + unfold format_time at 1 3.
      destruct (Date_parse (start_time slot)) as [t|] eqn:Hp; simpl.
      * destruct (map_result _ (List.filter available slots)) as [ys|e|] eqn:Hm.
        -- split; split.
           ++ discriminate.
           ++ intros (s & [<-|Hin] & Ha & Hn); [congruence|].
              destruct IH1 as [_ IH1]. discriminate IH1. exists s. auto.
           ++ intros _ s [<-|Hin] Ha; [congruence|].
              destruct IH2 as [IH2 _]. apply IH2; [eexists; reflexivity | |]; auto.
           ++ intros _. eexists. reflexivity.
        -- split; split.
           ++ intro H. injection H as ->.
              destruct IH1 as [IH1 _]. destruct (IH1 eq_refl) as (s & Hin & Ha & Hn).
              exists s. auto.
           ++ intros (s & [<-|Hin] & Ha & Hn); [congruence|].
              destruct IH1 as [_ IH1]. apply IH1. exists s. auto.
           ++ intros (out & H). discriminate H.
           ++ intro H. destruct IH2 as [_ IH2].
              destruct IH2 as (out & Hout); [|discriminate Hout].
              intros s Hin Ha. apply H; auto.
        -- split; split.
           ++ discriminate.
           ++ intros (s & [<-|Hin] & Ha & Hn); [congruence|].
              destruct IH1 as [_ IH1]. discriminate IH1. exists s. auto.
           ++ intros (out & H). discriminate H.
           ++ intro H. destruct IH2 as [_ IH2].
              destruct IH2 as (out & Hout); [|discriminate Hout].
              intros s Hin Ha. apply H; auto.
      * split; split.
        -- intros _. exists slot. auto.
        -- reflexivity.
        -- intros (out & H). discriminate H.
        -- intro H. exfalso. apply (H slot); auto.
    + split; split.
      * intro H. destruct IH1 as [IH1 _]. destruct (IH1 H) as (s & Hin & Ha & Hn).
        exists s. auto.
      * intros (s & [<-|Hin] & Ha & Hn); [congruence|].
        destruct IH1 as [_ IH1]. apply IH1. exists s. auto.
      * intros H s [<-|Hin] Ha; [congruence|].
        destruct IH2 as [IH2 _]. apply IH2; auto.
      * intro H. destruct IH2 as [_ IH2]. apply IH2.
        intros s Hin Ha. apply H; auto.
Qed.

(** ** The catalogue and the patterns *)

(** Every entry of the catalogue is found by its own code, a code
    finds nothing exactly when no entry carries it, and every entry has a
    positive price and a positive duration. *)
Theorem catalogue_lookup :
  (forall service,
     In service BookingForm.serviceTypes ->
     BookingForm.find_service (ServiceType.value service) = Some service)
  /\ (forall code,
        BookingForm.find_service code = None
        <-> ~ In code (List.map ServiceType.value BookingForm.serviceTypes))
  /\ (forall service,
        In service BookingForm.serviceTypes ->
        (0 < ServiceType.price service)%Z /\ (0 < ServiceType.duration service)%Z).
Proof.
  split; [|split].
  - intros service Hin. unfold BookingForm.serviceTypes in Hin. simpl in Hin.
    repeat (destruct Hin as [<-|Hin]; [vm_compute; reflexivity|]).
    contradiction.
  - intro code. unfold BookingForm.find_service. split.
    + intros Hnone Hin. apply in_map_iff in Hin.
      destruct Hin as (service & Hv & Hin).
      pose proof (find_none _ _ Hnone service Hin) as Hf. simpl in Hf.
      rewrite Hv, jseqb_refl in Hf. discriminate Hf.
    + intro Hnot.
      destruct (List.find _ BookingForm.serviceTypes) as [service|] eqn:Hf;
        [|reflexivity].
      exfalso. apply Hnot. apply find_some in Hf. destruct Hf as [Hin Heq].
      apply jseqb_eq in Heq. apply in_map_iff. exists service. auto.
  - intros service Hin. unfold BookingForm.serviceTypes in Hin. simpl in Hin.
    repeat (destruct Hin as [<-|Hin]; [simpl; split; reflexivity|]).
    contradiction.
Qed.

Lemma lang_plus_class p s :
  lang (Plus (Class p)) s <-> s <> [] /\ forallb p s = true.
Proof.
  unfold Plus. split.
  - intro H. apply lang_cat_inv in H. destruct H as (u & v & -> & H1 & H2).
    apply lang_class_inv in H1. destruct H1 as (c & -> & Hc).
    apply lang_star_class in H2. simpl. rewrite Hc, H2.
    split; [discriminate | reflexivity].
  - intros [Hne Hs]. destruct s as [|c s]; [contradiction Hne; reflexivity|].
    simpl in Hs. apply andb_true_iff in Hs. destruct Hs as [Hc Hs].
    apply (@lang_cat (Class p) (Star (Class p)) [c] s).
    + constructor. exact Hc.
    + apply lang_star_class. exact Hs.
Qed.

(** The email pattern says: one or more characters out of letters,
    digits and [._%+-]; an at sign; one or more characters out of letters,
    digits, dot and hyphen; a dot; and two or more letters to the end.
    Letters are the ASCII ones, of either case. *)
Theorem email_pattern_shape s :
  matches BookingForm.email_pattern s = true
  <-> exists local domain tld,
        s = local ++ N_of_ascii "@" :: domain ++ N_of_ascii "." :: tld
        /\ local <> [] /\ forallb BookingForm.email_local_char local = true
        /\ domain <> [] /\ forallb BookingForm.email_domain_char domain = true
        /\ (2 <= List.length tld)%nat /\ forallb letter_i tld = true.
Proof.
  rewrite matches_lang. unfold BookingForm.email_pattern. split.
  - intro H.
    apply lang_cat_inv in H. destruct H as (local & r1 & -> & Hl & H).
    apply lang_cat_inv in H. destruct H as (at_ & r2 & -> & Hat & H).
    apply lang_cat_inv in H. destruct H as (domain & r3 & -> & Hd & H).
    apply lang_cat_inv in H. destruct H as (dot & tld & -> & Hdot & Ht).
    apply lang_plus_class in Hl. apply lang_plus_class in Hd.
    apply lang_at_least_class in Ht.
    apply lang_class_inv in Hat. destruct Hat as (c & -> & Hc).
    apply lang_class_inv in Hdot. destruct Hdot as (c' & -> & Hc').
    unfold is_char in Hc, Hc'. apply N.eqb_eq in Hc, Hc'. subst c c'.
    exists local, domain, tld. simpl. tauto.
  - intros (local & domain & tld & -> & Hl1 & Hl2 & Hd1 & Hd2 & Ht1 & Ht2).
    apply lang_cat; [apply lang_plus_class; auto|].
    apply (@lang_cat _ _ [N_of_ascii "@"]); [constructor; reflexivity|].
    apply lang_cat; [apply lang_plus_class; auto|].
    apply (@lang_cat _ _ [N_of_ascii "."]); [constructor; reflexivity|].
    apply lang_at_least_class. auto.
Qed.

(** X14. What the two patterns of the form accept.  A phone: an optional
    plus sign, then ten or more characters, each a digit, white space, a
    hyphen or a parenthesis, and nothing else.  An email: one or more
    characters out of ASCII letters, digits and [._%+-]; an at sign; one or
    more characters out of ASCII letters, digits, dot and hyphen; a dot;
    and two or more ASCII letters to the end. *)
Theorem form_patterns_shape (s : JSString) :
  (matches BookingForm.phone_pattern s = true
   <-> exists body,
         (s = body \/ s = N_of_ascii "+" :: body)
         /\ (10 <= List.length body)%nat
         /\ forallb BookingForm.phone_char body = true)
  /\ (matches BookingForm.email_pattern s = true
      <-> exists local domain tld,
            s = local ++ N_of_ascii "@" :: domain ++ N_of_ascii "." :: tld
            /\ local <> [] /\ forallb BookingForm.email_local_char local = true
            /\ domain <> [] /\ forallb BookingForm.email_domain_char domain = true
            /\ (2 <= List.length tld)%nat /\ forallb letter_i tld = true).
Proof.
  split; [apply phone_pattern_shape | apply email_pattern_shape].
Qed.

(* ===================================================================== *)
(** * Further properties of the checkout form                             *)
(* ===================================================================== *)

(** Unfolds a submission of the checkout form down to the answers of the
    remote parties and of the callbacks. *)
Ltac run_checkout :=
  unfold CheckoutForm.handleSubmit, try_finally, try_catch, bind,
    CheckoutForm.setIsProcessing, CheckoutForm.setMessage, modify, gets,
    CheckoutForm.read_appointment, ret, throw, CheckoutForm.api_createIntent,
    CheckoutForm.stripe_confirmPayment, CheckoutForm.console_error,
    CheckoutForm.call_onSuccess, CheckoutForm.call_onError;
  simpl.

(** X15. A declined payment: when the confirmation resolves with an error
    and the [onError] callback, if there is one, returns, the form shows
    the processor's message word for word, the submission ends with the
    processing flag off, [onError] has been called with that message and
    [onSuccess] has not been called. *)
Theorem declined_payment_is_reported
    {processor : CheckoutForm.Processor} (a : Appointment.t)
    (onSuccess : option (CheckoutForm.PaymentIntent.t -> Appointment.t
                         -> option JSError))
    (onError : option (JSError -> option JSError))
    (origin : JSString) (w : CheckoutForm.World) (secret reason : JSString) :
  let intent :=
    CheckoutForm.CreateIntent (Appointment.service_price a) (str "eur")
      (Appointment.id a) in
  let confirm :=
    CheckoutForm.confirm_request a origin (CheckoutForm.email w) secret in
  let run := CheckoutForm.handleSubmit (Some a) onSuccess onError origin w in
  CheckoutForm.stripe w = true ->
  CheckoutForm.elements w = true ->
  CheckoutForm.createIntent (CheckoutForm.log w) (Appointment.service_price a)
    (str "eur") (Appointment.id a) = Resolved secret ->
  CheckoutForm.confirmPayment (CheckoutForm.log w ++ [intent]) secret
    (origin ++ str "/payment-success")
    {| CheckoutForm.BillingDetails.name := Appointment.customer_name a;
       CheckoutForm.BillingDetails.email := CheckoutForm.email w;
       CheckoutForm.BillingDetails.phone := Appointment.customer_phone a |}
  = CheckoutForm.WithError reason ->
  match onError with
  | Some callback => callback (ForeignError reason) = None
  | None => True
  end ->
  fst run = Ok tt
  /\ CheckoutForm.message (snd run) = Some reason
  /\ CheckoutForm.isProcessing (snd run) = false
  /\ CheckoutForm.log (snd run)
     = CheckoutForm.log w
       ++ intent :: confirm :: CheckoutForm.ConsoleError
       :: match onError with
          | Some _ => [CheckoutForm.CalledOnError (ForeignError reason)]
          | None => []
          end.
Proof.
  intros intent confirm run Hs He Hc Hp Hcb. subst intent confirm run.
  run_checkout. rewrite Hs, He. simpl. rewrite Hc. simpl.
  unfold CheckoutForm.with_event at 1. simpl.
  rewrite Hp. simpl.
  destruct onError as [callback|]; simpl.
  - rewrite Hcb. simpl. repeat rewrite <- app_assoc. repeat split.
  - repeat rewrite <- app_assoc. repeat split.
Qed.

(** X16. A confirmation that resolves with a payment intent whose status
    is not "succeeded" (still processing, say) leaves no message, calls
    neither callback and ends with the processing flag off: the form looks
    as it did before the submission. *)
Theorem unfinished_intent_is_silent
    {processor : CheckoutForm.Processor} (a : Appointment.t)
    (onSuccess : option (CheckoutForm.PaymentIntent.t -> Appointment.t
                         -> option JSError))
    (onError : option (JSError -> option JSError))
    (origin : JSString) (w : CheckoutForm.World) (secret : JSString)
    (paymentIntent : CheckoutForm.PaymentIntent.t) :
  let intent :=
    CheckoutForm.CreateIntent (Appointment.service_price a) (str "eur")
      (Appointment.id a) in
  let confirm :=
    CheckoutForm.confirm_request a origin (CheckoutForm.email w) secret in
  let run := CheckoutForm.handleSubmit (Some a) onSuccess onError origin w in
  CheckoutForm.stripe w = true ->
  CheckoutForm.elements w = true ->
  CheckoutForm.createIntent (CheckoutForm.log w) (Appointment.service_price a)
    (str "eur") (Appointment.id a) = Resolved secret ->
  CheckoutForm.confirmPayment (CheckoutForm.log w ++ [intent]) secret
    (origin ++ str "/payment-success")
    {| CheckoutForm.BillingDetails.name := Appointment.customer_name a;
       CheckoutForm.BillingDetails.email := CheckoutForm.email w;
       CheckoutForm.BillingDetails.phone := Appointment.customer_phone a |}
  = CheckoutForm.WithIntent paymentIntent ->
  CheckoutForm.PaymentIntent.status paymentIntent <> CheckoutForm.succeeded ->
  fst run = Ok tt
  /\ CheckoutForm.message (snd run) = None
  /\ CheckoutForm.isProcessing (snd run) = false
  /\ CheckoutForm.log (snd run) = CheckoutForm.log w ++ [intent; confirm].
Proof.
  intros intent confirm run Hs He Hc Hp Hst. subst intent confirm run.
  run_checkout. rewrite Hs, He. simpl. rewrite Hc. simpl.
  unfold CheckoutForm.with_event at 1. simpl.
  rewrite Hp. simpl.
  destruct (jseqb (CheckoutForm.PaymentIntent.status paymentIntent)
              CheckoutForm.succeeded) eqn:E.
  - apply jseqb_eq in E. contradiction.
  - simpl. repeat rewrite <- app_assoc. repeat split.
Qed.

(** X17. A payment that succeeds: the form shows the success message and
    ends with the processing flag off, and [onSuccess], if there is one, is
    called once, with the intent and the appointment.  If that callback
    throws, the form shows the failure message instead, although the
    payment went through, and [onError] is called with what was thrown. *)
Theorem succeeded_payment_is_announced
    {processor : CheckoutForm.Processor} (a : Appointment.t)
    (onSuccess : option (CheckoutForm.PaymentIntent.t -> Appointment.t
                         -> option JSError))
    (onError : option (JSError -> option JSError))
    (origin : JSString) (w : CheckoutForm.World) (secret : JSString)
    (paymentIntent : CheckoutForm.PaymentIntent.t) :
  let intent :=
    CheckoutForm.CreateIntent (Appointment.service_price a) (str "eur")
      (Appointment.id a) in
  let confirm :=
    CheckoutForm.confirm_request a origin (CheckoutForm.email w) secret in
  let run := CheckoutForm.handleSubmit (Some a) onSuccess onError origin w in
  CheckoutForm.stripe w = true ->
  CheckoutForm.elements w = true ->
  CheckoutForm.createIntent (CheckoutForm.log w) (Appointment.service_price a)
    (str "eur") (Appointment.id a) = Resolved secret ->
  CheckoutForm.confirmPayment (CheckoutForm.log w ++ [intent]) secret
    (origin ++ str "/payment-success")
    {| CheckoutForm.BillingDetails.name := Appointment.customer_name a;
       CheckoutForm.BillingDetails.email := CheckoutForm.email w;
       CheckoutForm.BillingDetails.phone := Appointment.customer_phone a |}
  = CheckoutForm.WithIntent paymentIntent ->
  CheckoutForm.PaymentIntent.status paymentIntent = CheckoutForm.succeeded ->
  CheckoutForm.isProcessing (snd run) = false
  /\ (match onSuccess with
      | Some callback => callback paymentIntent a = None
      | None => True
      end ->
      fst run = Ok tt
      /\ CheckoutForm.message (snd run) = Some CheckoutForm.success_message
      /\ CheckoutForm.log (snd run)
         = CheckoutForm.log w
           ++ intent :: confirm
           :: match onSuccess with
              | Some _ => [CheckoutForm.CalledOnSuccess paymentIntent a]
              | None => []
              end)
  /\ (forall callback e,
        onSuccess = Some callback ->
        callback paymentIntent a = Some e ->
        CheckoutForm.message (snd run) = Some CheckoutForm.failure_message
        /\ CheckoutForm.log (snd run)
           = CheckoutForm.log w
             ++ intent :: confirm
             :: CheckoutForm.CalledOnSuccess paymentIntent a
             :: CheckoutForm.ConsoleError
             :: match onError with
                | Some _ => [CheckoutForm.CalledOnError e]
                | None => []
                end).
Proof.
  intros intent confirm run Hs He Hc Hp Hst. subst intent confirm run.
  run_checkout. rewrite Hs, He. simpl. rewrite Hc. simpl.
  unfold CheckoutForm.with_event at 1. simpl.
  rewrite Hp. simpl. rewrite Hst, jseqb_refl. simpl.
  destruct onSuccess as [callback|]; simpl.
  - destruct (callback paymentIntent a) as [e|] eqn:Hcb; simpl.
    + destruct onError as [callback'|]; simpl.
      * destruct (callback' e); simpl;
          (split; [reflexivity|]); (split; [intro H; discriminate H|]);
          intros cb e' Hcb' Hthrow; injection Hcb' as <-;
          rewrite Hcb in Hthrow; injection Hthrow as <-;
          repeat rewrite <- app_assoc; split; reflexivity.
      * split; [reflexivity|]. split; [intro H; discriminate H|].
        intros cb e' Hcb' Hthrow. injection Hcb' as <-.
        rewrite Hcb in Hthrow. injection Hthrow as <-.
        repeat rewrite <- app_assoc. split; reflexivity.
    + split; [reflexivity|]. split.
      * intros _. repeat rewrite <- app_assoc. repeat split.
      * intros cb e' Hcb' Hthrow. injection Hcb' as <-.
        rewrite Hcb in Hthrow. discriminate Hthrow.
  - split; [reflexivity|]. split.
    + intros _. repeat rewrite <- app_assoc. repeat split.
    + intros cb e' Hcb'. discriminate Hcb'.
Qed.

(** X18. When no handle can be had, nothing is confirmed: if the
    create-intent request is rejected, it is the only request of the
    submission; if the form has no appointment, no request is made at all.
    Either way the form shows the failure message, ends with the processing
    flag off, and passes the error to [onError]. *)
Theorem no_handle_no_confirmation
    {processor : CheckoutForm.Processor}
    (onSuccess : option (CheckoutForm.PaymentIntent.t -> Appointment.t
                         -> option JSError))
    (onError : option (JSError -> option JSError))
    (origin : JSString) (w : CheckoutForm.World) :
  CheckoutForm.stripe w = true ->
  CheckoutForm.elements w = true ->
  match onError with
  | Some callback => forall e, callback e = None
  | None => True
  end ->
  let reported e :=
    match onError with
    | Some _ => [CheckoutForm.ConsoleError; CheckoutForm.CalledOnError e]
    | None => [CheckoutForm.ConsoleError]
    end in
  (forall a error,
     CheckoutForm.createIntent (CheckoutForm.log w) (Appointment.service_price a)
       (str "eur") (Appointment.id a) = Rejected error ->
     let run := CheckoutForm.handleSubmit (Some a) onSuccess onError origin w in
     fst run = Ok tt
     /\ CheckoutForm.message (snd run) = Some CheckoutForm.failure_message
     /\ CheckoutForm.isProcessing (snd run) = false
     /\ CheckoutForm.log (snd run)
        = CheckoutForm.log w
          ++ CheckoutForm.CreateIntent (Appointment.service_price a) (str "eur")
               (Appointment.id a)
          :: reported (RequestError error))
  /\ (let run := CheckoutForm.handleSubmit None onSuccess onError origin w in
      fst run = Ok tt
      /\ CheckoutForm.message (snd run) = Some CheckoutForm.failure_message
      /\ CheckoutForm.isProcessing (snd run) = false
      /\ CheckoutForm.log (snd run) = CheckoutForm.log w ++ reported TypeError).
Proof.
  intros Hs He Hcb reported. subst reported. split.
  - intros a error Hc run. subst run.
    run_checkout. rewrite Hs, He. simpl. rewrite Hc. simpl.
    destruct onError as [callback|]; simpl.
    + rewrite Hcb. simpl. repeat rewrite <- app_assoc. repeat split.
    + repeat rewrite <- app_assoc. repeat split.
  - run_checkout. rewrite Hs, He. simpl.
    destruct onError as [callback|]; simpl.
    + rewrite Hcb. simpl. repeat rewrite <- app_assoc. repeat split.
    + repeat split.
Qed.

(** Closes one leaf of the case analysis of [handleSubmit_discipline]. *)
Ltac close_discipline :=
  split;
  [ intros [?|?]; discriminate
  | split;
    [ intros _ _; split;
      [ intro; first [ discriminate | split; reflexivity ]
      | let H := fresh "H" in
        intro H; first [ reflexivity | exfalso; apply H; reflexivity ] ]
    | eexists; split;
      [ repeat rewrite <- app_assoc; simpl; reflexivity
      | simpl;
        first [ left; reflexivity
              | right; left; do 2 eexists; reflexivity
              | right; right; do 5 eexists;
                split; [reflexivity | eassumption] ] ] ] ].

(** X19. The order of a submission.  While Stripe or its elements are not
    loaded a submission does nothing.  Otherwise it sends no request, or
    the create-intent request alone, or the create-intent request followed
    by one confirm request for the handle that request returned: nothing is
    confirmed without a handle, and nothing is asked twice.  It ends with
    the processing flag off, unless the processor takes the browser to
    another page: then the flag stays on and no message is set. *)
Theorem handleSubmit_discipline
    {processor : CheckoutForm.Processor} (appointment : option Appointment.t)
    (onSuccess : option (CheckoutForm.PaymentIntent.t -> Appointment.t
                         -> option JSError))
    (onError : option (JSError -> option JSError))
    (origin : JSString) (w : CheckoutForm.World) :
  let run := CheckoutForm.handleSubmit appointment onSuccess onError origin w in
  (CheckoutForm.stripe w = false \/ CheckoutForm.elements w = false ->
   run = (Ok tt, w))
  /\ (CheckoutForm.stripe w = true -> CheckoutForm.elements w = true ->
      (fst run = Unloaded ->
       CheckoutForm.isProcessing (snd run) = true
       /\ CheckoutForm.message (snd run) = None)
      /\ (fst run <> Unloaded -> CheckoutForm.isProcessing (snd run) = false))
  /\ exists new,
       CheckoutForm.log (snd run) = CheckoutForm.log w ++ new
       /\ (List.filter CheckoutForm.is_request new = []
           \/ (exists amount id,
                 List.filter CheckoutForm.is_request new
                 = [CheckoutForm.CreateIntent amount (str "eur") id])
           \/ (exists amount id secret url billing,
                 List.filter CheckoutForm.is_request new
                 = [CheckoutForm.CreateIntent amount (str "eur") id;
                    CheckoutForm.ConfirmPayment secret url billing]
                 /\ CheckoutForm.createIntent (CheckoutForm.log w) amount
                      (str "eur") id = Resolved secret)).
Proof.
  intro run. subst run. unfold CheckoutForm.handleSubmit.
  destruct (CheckoutForm.stripe w) eqn:Hs; simpl.
  2:{ split; [reflexivity|]. split; [intro H; discriminate H|].
      exists []. rewrite app_nil_r. split; [reflexivity | left; reflexivity]. }
  destruct (CheckoutForm.elements w) eqn:He; simpl.
  2:{ split; [reflexivity|]. split; [intros _ H; discriminate H|].
      exists []. rewrite app_nil_r. split; [reflexivity | left; reflexivity]. }
  unfold try_finally, try_catch, bind,
    CheckoutForm.setIsProcessing, CheckoutForm.setMessage, modify, gets,
    CheckoutForm.read_appointment, ret, throw, CheckoutForm.api_createIntent,
    CheckoutForm.stripe_confirmPayment, CheckoutForm.console_error,
    CheckoutForm.call_onSuccess, CheckoutForm.call_onError.
  simpl.
  destruct appointment as [a|]; simpl.
  2:{ destruct onError as [callback|]; simpl;
        [destruct (callback TypeError); simpl|]; close_discipline. }
  destruct (CheckoutForm.createIntent (CheckoutForm.log w)
              (Appointment.service_price a) (str "eur") (Appointment.id a))
    as [secret|error] eqn:Hc; simpl.
  2:{ destruct onError as [callback|]; simpl;
        [destruct (callback (RequestError error)); simpl|]; close_discipline. }
  destruct (CheckoutForm.confirmPayment _ _ _ _) as [msg|intent| |msg]; simpl.
  - destruct onError as [callback|]; simpl; [|close_discipline].
    destruct (callback (ForeignError msg)) as [e|]; simpl; [|close_discipline].
    destruct (callback e); simpl; close_discipline.
  - destruct (jseqb (CheckoutForm.PaymentIntent.status intent)
                CheckoutForm.succeeded); simpl; [|close_discipline].
    destruct onSuccess as [callback|]; simpl; [|close_discipline].
    destruct (callback intent a) as [e|]; simpl; [|close_discipline].
    destruct onError as [callback'|]; simpl; [|close_discipline].
    destruct (callback' e); simpl; close_discipline.
  - close_discipline.
  - destruct onError as [callback|]; simpl; [|close_discipline].
    destruct (callback (ForeignError msg)); simpl; close_discipline.
Qed.

Lemma declined_payment_is_reported_witness :
  let run :=
    @CheckoutForm.handleSubmit Scenario.declining (Some Scenario.booked)
      None (Some (fun _ => None)) Scenario.origin Scenario.checkout in
  CheckoutForm.message (snd run) = Some (str "Your card was declined.")
  /\ CheckoutForm.isProcessing (snd run) = false.
Proof.
  destruct (@declined_payment_is_reported Scenario.declining Scenario.booked
              None (Some (fun _ => None)) Scenario.origin Scenario.checkout
              Scenario.secret (str "Your card was declined."))
    as (_ & Hm & Hp & _);
    first [ split; [exact Hm | exact Hp] | reflexivity ].
Defined.

Lemma unfinished_intent_is_silent_witness :
  let run :=
    @CheckoutForm.handleSubmit Cases.stalling (Some Scenario.booked)
      (Some (fun _ _ => None)) (Some (fun _ => None)) Scenario.origin
      Scenario.checkout in
  CheckoutForm.message (snd run) = None
  /\ List.length (CheckoutForm.log (snd run)) = 2%nat.
Proof.
  destruct (@unfinished_intent_is_silent Cases.stalling Scenario.booked
              (Some (fun _ _ => None)) (Some (fun _ => None)) Scenario.origin
              Scenario.checkout Scenario.secret
              {| CheckoutForm.PaymentIntent.id := str "pi_7";
                 CheckoutForm.PaymentIntent.status := str "processing" |})
    as (_ & Hm & _ & Hlog);
    first [ split; [exact Hm | rewrite Hlog; reflexivity]
          | reflexivity
          | vm_compute; discriminate ].
Defined.

Lemma succeeded_payment_is_announced_witness :
  let run :=
    @CheckoutForm.handleSubmit Scenario.approving (Some Scenario.booked)
      (Some (fun _ _ => None)) None Scenario.origin Scenario.checkout in
  CheckoutForm.message (snd run) = Some CheckoutForm.success_message
  /\ CheckoutForm.isProcessing (snd run) = false.
Proof.
  destruct (@succeeded_payment_is_announced Scenario.approving Scenario.booked
              (Some (fun _ _ => None)) None Scenario.origin Scenario.checkout
              Scenario.secret Scenario.paid)
    as (Hp & Hok & _);
    first [ destruct Hok as (_ & Hm & _); [reflexivity|];
            split; [exact Hm | exact Hp]
          | reflexivity ].
Defined.

Lemma no_handle_no_confirmation_witness :
  let run :=
    @CheckoutForm.handleSubmit Cases.unreachable (Some Scenario.booked)
      None (Some (fun _ => None)) Scenario.origin Scenario.checkout in
  CheckoutForm.message (snd run) = Some CheckoutForm.failure_message
  /\ CheckoutForm.log (snd run)
     = [ CheckoutForm.CreateIntent 25 (str "eur") 7;
         CheckoutForm.ConsoleError;
         CheckoutForm.CalledOnError
           (RequestError
              {| Api.status := Some 503%Z;
                 Api.detail :=
                   Some (VString (str "Payment service unavailable")) |}) ].
Proof.
  destruct (@no_handle_no_confirmation Cases.unreachable None
              (Some (fun _ => None)) Scenario.origin Scenario.checkout)
    as (Hrej & _);
    first [ destruct (Hrej Scenario.booked
                        {| Api.status := Some 503%Z;
                           Api.detail :=
                             Some (VString (str "Payment service unavailable")) |})
              as (_ & Hm & _ & Hlog); [reflexivity|];
            split; [exact Hm | exact Hlog]
          | reflexivity
          | intro; reflexivity ].
Defined.

(* ===================================================================== *)
(** * Properties of the confirmation page                                 *)
(* ===================================================================== *)

(** X20. [handlePayment] never throws.  It calls [onPaymentRequired] only
    for an appointment that requires prepayment (and only if the callback
    is given), once; a rejection of the callback is written to the console
    and goes no further; after a call the processing flag is off.  In
    every other case it changes nothing. *)
Theorem handlePayment_contains_failures
    (appointment : Appointment.t)
    (onPaymentRequired : option (Appointment.t -> option JSError))
    (w : Confirmation.World) :
  let run := Confirmation.handlePayment appointment onPaymentRequired w in
  fst run = Ok tt
  /\ (Appointment.requires_prepayment appointment = false
      \/ onPaymentRequired = None ->
      snd run = w)
  /\ (forall callback,
        onPaymentRequired = Some callback ->
        Appointment.requires_prepayment appointment = true ->
        Confirmation.isProcessing (snd run) = false
        /\ Confirmation.log (snd run)
           = Confirmation.log w
             ++ Confirmation.CalledOnPaymentRequired appointment
             :: match callback appointment with
                | Some _ => [Confirmation.ConsoleError]
                | None => []
                end).
Proof.
  intro run. subst run. unfold Confirmation.handlePayment.
  destruct onPaymentRequired as [callback|].
  - destruct (Appointment.requires_prepayment appointment) eqn:Hp; simpl.
    + unfold try_finally, try_catch, bind, Confirmation.setIsProcessing, modify.
      simpl. destruct (callback appointment) as [e|] eqn:Hcb; simpl.
      * split; [reflexivity|]. split; [intros [H|H]; discriminate H|].
        intros cb Hcb' _. injection Hcb' as <-. rewrite Hcb.
        rewrite <- app_assoc. split; reflexivity.
      * split; [reflexivity|]. split; [intros [H|H]; discriminate H|].
        intros cb Hcb' _. injection Hcb' as <-. rewrite Hcb.
        split; reflexivity.
    + split; [reflexivity|]. split; [reflexivity|].
      intros cb _ H. discriminate H.
  - split; [reflexivity|]. split; [reflexivity|].
    intros cb H. discriminate H.
Qed.

(** X21. The confirmation page and the booking form agree on the
    services: the page's label table has the codes of the catalogue, in the
    same order, and for every entry of the catalogue the page shows the
    catalogue's label.  For a code that is no own key of the table and no
    inherited member the page shows the code itself. *)
Theorem confirmation_labels_match_catalogue (inherited : JSString -> bool) :
  List.map fst Confirmation.serviceTypeLabels
  = List.map ServiceType.value BookingForm.serviceTypes
  /\ (forall service,
        In service BookingForm.serviceTypes ->
        Confirmation.shown_service inherited (ServiceType.value service)
        = Some (ServiceType.label service))
  /\ (forall code,
        ~ In code (List.map ServiceType.value BookingForm.serviceTypes) ->
        inherited code = false ->
        Confirmation.shown_service inherited code = Some code).
Proof.
  split; [reflexivity|]. split.
  - intros service Hin. unfold BookingForm.serviceTypes in Hin. simpl in Hin.
    repeat (destruct Hin as [<-|Hin]; [vm_compute; reflexivity|]).
    contradiction.
  - intros code Hnot Hinh. unfold Confirmation.shown_service.
    assert (Hown : Confirmation.own Confirmation.serviceTypeLabels code = None).
    { assert (Hgen : forall table,
                ~ In code (List.map fst table) -> Confirmation.own table code = None).
      { induction table as [|[k v] table IH]; simpl; intro H; [reflexivity|].
        destruct (jseqb k code) eqn:E.
        - apply jseqb_eq in E. exfalso. apply H. left. exact E.
        - apply IH. intro Hin. apply H. right. exact Hin. }
      apply Hgen. exact Hnot. }
    rewrite Hown, Hinh. reflexivity.
Qed.

(* ===================================================================== *)
(** * Properties of the calendar                                          *)
(* ===================================================================== *)

Section SortFacts.
Context {A : Type} (key : A -> Z).

Lemma insert_by_perm x l : Permutation (x :: l) (insert_by key x l).
Proof.
  induction l as [|y l IH]; simpl; [reflexivity|].
  destruct (Z.leb (key x) (key y)); [reflexivity|].
  rewrite perm_swap. apply perm_skip. exact IH.
Qed.

Lemma sort_by_perm l : Permutation l (sort_by key l).
Proof.
  induction l as [|x l IH]; simpl; [constructor|].
  rewrite <- insert_by_perm. apply perm_skip. exact IH.
Qed.

Lemma insert_by_sorted x l :
  StronglySorted (fun a b => (key a <= key b)%Z) l ->
  StronglySorted (fun a b => (key a <= key b)%Z) (insert_by key x l).
Proof.
  induction 1 as [|y l Hl IH Hy]; simpl.
  - constructor; constructor.
  - destruct (Z.leb_spec (key x) (key y)) as [Hxy|Hxy].
    + constructor; [constructor; assumption|].
      constructor; [exact Hxy|].
      rewrite Forall_forall in Hy |- *. intros z Hz. specialize (Hy z Hz). lia.
    + constructor; [exact IH|].
      rewrite Forall_forall in Hy |- *. intros z Hz.
      apply (Permutation_in _ (Permutation_sym (insert_by_perm x l))) in Hz.
      destruct Hz as [<-|Hz]; [lia | apply Hy; exact Hz].
Qed.

Lemma sort_by_sorted l :
  StronglySorted (fun a b => (key a <= key b)%Z) (sort_by key l).
Proof.
  induction l as [|x l IH]; simpl; [constructor | apply insert_by_sorted; exact IH].
Qed.

(** The sort is stable: entries with the same key keep their order. *)
Lemma insert_by_stable k x l :
  List.filter (fun y => Z.eqb (key y) k) (insert_by key x l)
  = List.filter (fun y => Z.eqb (key y) k) (x :: l).
Proof.
  induction l as [|y l IH]; simpl; [reflexivity|].
  destruct (Z.leb_spec (key x) (key y)) as [Hxy|Hxy]; [reflexivity|].
  simpl. rewrite IH. simpl.
  destruct (Z.eqb_spec (key x) k) as [Hx|Hx]; [|reflexivity].
  destruct (Z.eqb_spec (key y) k) as [Hy|Hy]; [lia | reflexivity].
Qed.

Lemma sort_by_stable k l :
  List.filter (fun y => Z.eqb (key y) k) (sort_by key l)
  = List.filter (fun y => Z.eqb (key y) k) l.
Proof.
  induction l as [|x l IH]; simpl; [reflexivity|].
  rewrite insert_by_stable. simpl. rewrite IH. reflexivity.
Qed.

End SortFacts.

Lemma filter_nonempty_existsb {A} (f : A -> bool) l :
  Nat.ltb 0 (List.length (List.filter f l)) = List.existsb f l.
Proof.
  induction l as [|x l IH]; simpl; [reflexivity|].
  destruct (f x); simpl; [reflexivity | exact IH].
Qed.

(** X22. In the month view a tile gets its dot exactly when it gets the
    class [has-appointments], and that is exactly when some appointment
    falls on the tile's day; in any other view it gets neither. *)
Theorem tile_dot_and_class_agree
    {calendar_dates : CalendarDates}
    (appointments : list Appointment.t) (date : Z) (view : JSString) :
  let dot := CalendarView.tileContent appointments date view in
  let class := CalendarView.tileClassName appointments date view in
  (dot = true <-> class = Some (str "has-appointments"))
  /\ (dot = false <-> class = None)
  /\ (dot = true
      <-> view = str "month"
          /\ exists apt,
               In apt appointments
               /\ CalendarView.isSameDay (Appointment.appointment_datetime apt)
                    date = true).
Proof.
  intros dot class. subst dot class.
  unfold CalendarView.tileContent, CalendarView.tileClassName,
    CalendarView.dayAppointments.
  rewrite filter_nonempty_existsb.
  destruct (jseqb view (str "month")) eqn:Hv.
  - apply jseqb_eq in Hv.
    destruct (List.existsb _ appointments) eqn:He.
    + split; [tauto|]. split; [split; discriminate|].
      split; [|reflexivity]. intros _. split; [exact Hv|].
      apply existsb_exists in He. exact He.
    + split; [split; discriminate|]. split; [tauto|].
      split; [discriminate|]. intros [_ Hex].
      apply existsb_exists in Hex. congruence.
  - split; [split; discriminate|]. split; [tauto|].
    split; [discriminate|]. intros [Hm _].
    apply jseqb_eq in Hm. congruence.
Qed.

(** X23. When the date of every appointment of the selected day parses,
    the day's list is displayed in full and once each (a permutation of the
    day's appointments), from the earliest to the latest, appointments of
    the same instant in the order they had; and it holds exactly the
    appointments that fall on the selected day. *)
Theorem displayed_day_is_sorted
    {date_api : DateApi} {calendar_dates : CalendarDates}
    (appointments : list Appointment.t) (selectedDate : Z) :
  let day := CalendarView.dayAppointments appointments selectedDate in
  (forall apt, In apt day -> CalendarView.instant apt <> None) ->
  exists shown,
    CalendarView.displayed day = Some shown
    /\ Permutation day shown
    /\ StronglySorted
         (fun a b =>
            (CalendarView.instant_or_zero a <= CalendarView.instant_or_zero b)%Z)
         shown
    /\ (forall t,
          List.filter (fun a => Z.eqb (CalendarView.instant_or_zero a) t) shown
          = List.filter (fun a => Z.eqb (CalendarView.instant_or_zero a) t) day)
    /\ (forall apt,
          In apt shown
          <-> In apt appointments
              /\ CalendarView.isSameDay (Appointment.appointment_datetime apt)
                   selectedDate = true).
Proof.
  intros day Hparse.
  exists (sort_by CalendarView.instant_or_zero day).
  split.
  - unfold CalendarView.displayed.
    assert (Hall : List.forallb
                     (fun apt =>
                        match CalendarView.instant apt with
                        | Some _ => true
                        | None => false
                        end) day = true).
    { apply forallb_forall. intros apt Hin. specialize (Hparse apt Hin).
      destruct (CalendarView.instant apt); [reflexivity | contradiction]. }
    rewrite Hall. reflexivity.
  - split; [apply sort_by_perm|].
    split; [apply sort_by_sorted|].
    split; [intro t; apply sort_by_stable|].
    intro apt. split.
    + intro Hin.
      apply (Permutation_in _ (Permutation_sym (sort_by_perm _ day))) in Hin.
      subst day. unfold CalendarView.dayAppointments in Hin.
      apply filter_In in Hin. exact Hin.
    + intro Hin. apply (Permutation_in _ (sort_by_perm _ day)).
      subst day. unfold CalendarView.dayAppointments.
      apply filter_In. exact Hin.
Qed.

Lemma displayed_day_is_sorted_witness :
  @CalendarView.displayed Scenario.rome
    (@CalendarView.dayAppointments Fixtures.rome_calendar Fixtures.agenda
       Fixtures.that_day)
  = Some [ Fixtures.at_ 3 "2030-01-15T09:00:00";
           Fixtures.at_ 1 "2030-01-15T10:00:00" ].
Proof.
  destruct (@displayed_day_is_sorted Scenario.rome Fixtures.rome_calendar
              Fixtures.agenda Fixtures.that_day)
    as (shown & Hshown & _).
  - intros apt Hin. vm_compute in Hin.
    destruct Hin as [<-|[<-|[]]]; vm_compute; discriminate.
  - vm_compute. reflexivity.
Defined.

(* ===================================================================== *)
(** * Properties of the voice input                                       *)
(* ===================================================================== *)

(** The loop sorts the parts into the final text and the text in
    progress, each in the order of the results. *)
Lemma collect_parts (l : list VoiceInput.SpeechResult) (f i : JSString) :
  List.fold_left VoiceInput.take_part l (f, i)
  = (f ++ List.concat (List.map VoiceInput.transcript
                         (List.filter VoiceInput.isFinal l)),
     i ++ List.concat (List.map VoiceInput.transcript
                         (List.filter (fun r => negb (VoiceInput.isFinal r)) l))).
Proof.
  revert f i. induction l as [|r l IH]; intros f i; simpl.
  - rewrite !app_nil_r. reflexivity.
  - destruct (VoiceInput.isFinal r); simpl; rewrite IH, <- app_assoc; reflexivity.
Qed.

Lemma concat_parts_length (l : list VoiceInput.SpeechResult) :
  (List.length (List.concat (List.map VoiceInput.transcript
                               (List.filter VoiceInput.isFinal l)))
   + List.length (List.concat (List.map VoiceInput.transcript
                     (List.filter (fun r => negb (VoiceInput.isFinal r)) l))))%nat
  = List.length (List.concat (List.map VoiceInput.transcript l)).
Proof.
  induction l as [|r l IH]; simpl; [reflexivity|].
  destruct (VoiceInput.isFinal r); simpl; rewrite !length_app; lia.
Qed.

(** X24. A result event adds to the transcript, at its end, the texts of
    the final results from [resultIndex] on, in order, and replaces the
    text in progress by the texts of the results that are not final; every
    part from [resultIndex] on lands in exactly one of the two.  Whether
    the recogniser is listening is not touched, and [onTranscript] is
    called, with the added text, exactly when that text is not empty. *)
Theorem onresult_appends_final_text
    (onTranscript : option (JSString -> option JSError))
    (event : VoiceInput.ResultEvent) (w : VoiceInput.World) :
  let parts := List.skipn (VoiceInput.resultIndex event) (VoiceInput.results event) in
  let added :=
    List.concat (List.map VoiceInput.transcript
                   (List.filter VoiceInput.isFinal parts)) in
  let pending :=
    List.concat (List.map VoiceInput.transcript
                   (List.filter (fun r => negb (VoiceInput.isFinal r)) parts)) in
  let w' := snd (VoiceInput.onresult onTranscript event w) in
  VoiceInput.heard w' = VoiceInput.heard w ++ added
  /\ VoiceInput.interimTranscript w' = pending
  /\ (List.length added + List.length pending)%nat
     = List.length (List.concat (List.map VoiceInput.transcript parts))
  /\ VoiceInput.isListening w' = VoiceInput.isListening w
  /\ VoiceInput.log w'
     = VoiceInput.log w
       ++ match onTranscript, added with
          | Some _, _ :: _ => [VoiceInput.CalledOnTranscript added]
          | _, _ => []
          end.
Proof.
  intros parts added pending w'. subst w'.
  unfold VoiceInput.onresult, VoiceInput.collect.
  fold parts. rewrite collect_parts. simpl. fold added. fold pending.
  unfold bind, modify, ret. simpl.
  split; [|split; [|split; [apply concat_parts_length|]]].
  - destruct onTranscript as [callback|]; [|reflexivity].
    destruct added as [|c added']; simpl; [reflexivity|].
    destruct (callback (c :: added')); reflexivity.
  - destruct onTranscript as [callback|]; [|reflexivity].
    destruct added as [|c added']; simpl; [reflexivity|].
    destruct (callback (c :: added')); reflexivity.
  - destruct onTranscript as [callback|].
    + destruct added as [|c added']; simpl.
      * rewrite app_nil_r. split; reflexivity.
      * destruct (callback (c :: added')); split; reflexivity.
    + simpl. rewrite app_nil_r. split; reflexivity.
Qed.

(** A run: "voglio " is in the transcript already, "prenotare " is added,
    and "un tag" replaces what was in progress. *)
Example onresult_speech :
  let w' := snd (VoiceInput.onresult None Fixtures.speech Fixtures.listening) in
  VoiceInput.heard w' = str "voglio prenotare "
  /\ VoiceInput.interimTranscript w' = str "un tag".
Proof. vm_compute. split; reflexivity. Qed.

(* ===================================================================== *)
(** * Properties of the speech player                                     *)
(* ===================================================================== *)

Lemma trimStart_split s :
  exists a, s = a ++ trimStart s /\ forallb white_space a = true.
Proof.
  induction s as [|c s (a & Hs & Ha)]; simpl.
  - exists []. split; reflexivity.
  - destruct (white_space c) eqn:Hc.
    + exists (c :: a). simpl. rewrite Hc, Ha. split; [f_equal; exact Hs | reflexivity].
    + exists []. split; reflexivity.
Qed.

Lemma trimStart_head s :
  match trimStart s with
  | [] => True
  | c :: _ => white_space c = false
  end.
Proof.
  induction s as [|c s IH]; simpl; [exact I|].
  destruct (white_space c) eqn:Hc; [exact IH | exact Hc].
Qed.

Lemma trimStart_nil s : trimStart s = [] <-> forallb white_space s = true.
Proof.
  induction s as [|c s IH]; simpl; [tauto|].
  destruct (white_space c); simpl; [exact IH|].
  split; discriminate.
Qed.

Lemma forallb_rev {A} (f : A -> bool) l : forallb f (List.rev l) = forallb f l.
Proof.
  induction l as [|x l IH]; simpl; [reflexivity|].
  rewrite forallb_app, IH. simpl. rewrite andb_true_r. apply andb_comm.
Qed.

Lemma trimEnd_split s :
  exists b, s = trimEnd s ++ b /\ forallb white_space b = true.
Proof.
  unfold trimEnd. destruct (trimStart_split (List.rev s)) as (a & Hs & Ha).
  exists (List.rev a). split.
  - rewrite <- rev_app_distr, <- Hs, rev_involutive. reflexivity.
  - rewrite forallb_rev. exact Ha.
Qed.

Lemma trimEnd_nil s : trimEnd s = [] <-> forallb white_space s = true.
Proof.
  unfold trimEnd. rewrite <- (forallb_rev white_space s), <- trimStart_nil.
  split; intro H.
  - apply (f_equal (@List.rev N)) in H. rewrite rev_involutive in H. exact H.
  - rewrite H. reflexivity.
Qed.

Lemma trim_nil s : trim s = [] <-> forallb white_space s = true.
Proof.
  unfold trim. rewrite trimEnd_nil. split; intro H.
  - destruct (trimStart s) as [|c t] eqn:E.
    + apply trimStart_nil. exact E.
    + pose proof (trimStart_head s) as Hh. rewrite E in Hh.
      simpl in H. rewrite Hh in H. discriminate H.
  - apply trimStart_nil in H. rewrite H. reflexivity.
Qed.

(** X25. [trim] takes white space, and nothing else, off both ends: the
    text is the trimmed text between two runs of white space, and the
    trimmed text neither starts nor ends with white space.  So a text
    counts as blank for the player exactly when all its characters are
    white space. *)
Theorem blank_is_all_white_space (text : JSString) :
  (exists a b,
     text = a ++ trim text ++ b
     /\ forallb white_space a = true /\ forallb white_space b = true)
  /\ match trim text with
     | [] => True
     | c :: _ => white_space c = false
     end
  /\ match List.rev (trim text) with
     | [] => True
     | c :: _ => white_space c = false
     end
  /\ (TTSPlayer.blank text = true <-> forallb white_space text = true).
Proof.
  split; [|split; [|split]].
  - destruct (trimStart_split text) as (a & Hs & Ha).
    destruct (trimEnd_split (trimStart text)) as (b & Ht & Hb).
    exists a, b. unfold trim. rewrite <- Ht. auto.
  - unfold trim.
    destruct (trimEnd_split (trimStart text)) as (b & Ht & _).
    pose proof (trimStart_head text) as Hh.
    destruct (trimEnd (trimStart text)) as [|c r]; [exact I|].
    rewrite Ht in Hh. exact Hh.
  - unfold trim, trimEnd. rewrite rev_involutive. apply trimStart_head.
  - unfold TTSPlayer.blank. rewrite orb_true_iff, jseqb_eq, trim_nil.
    split; [|tauto]. intros [H|H]; [|exact H].
    destruct text; [reflexivity | discriminate H].
Qed.

(** X26. [playTTS] never throws.  For a blank text it does nothing.
    Otherwise it asks once for the synthesis, first of all, and ends with
    the loading flag off.  If the synthesis fails, no object URL is made,
    the current audio is left alone and the error is the synthesis message.
    If it succeeds, a URL is made for the sound, the audio that was current
    is paused and its URL released, and the new audio becomes current and
    is played; a refusal to play is reported with the same message. *)
Theorem playTTS_behaviour
    {player : TTSPlayer.Player} (text language : JSString)
    (w : TTSPlayer.World) :
  let run := TTSPlayer.playTTS text language w in
  let asked := TTSPlayer.log w ++ [TTSPlayer.Synthesize text language] in
  fst run = Ok tt
  /\ (TTSPlayer.blank text = true -> snd run = w)
  /\ (TTSPlayer.blank text = false ->
      TTSPlayer.isLoading (snd run) = false
      /\ TTSPlayer.isPlaying (snd run) = TTSPlayer.isPlaying w
      /\ (forall error,
            TTSPlayer.synthesize (TTSPlayer.log w) text language
            = Rejected error ->
            TTSPlayer.audio (snd run) = TTSPlayer.audio w
            /\ TTSPlayer.error (snd run) = Some TTSPlayer.synthesis_message
            /\ TTSPlayer.log (snd run) = asked ++ [TTSPlayer.ConsoleError])
      /\ (forall data,
            TTSPlayer.synthesize (TTSPlayer.log w) text language
            = Resolved data ->
            let url := TTSPlayer.createObjectURL asked in
            let released :=
              match TTSPlayer.audio w with
              | Some old => [TTSPlayer.Pause old; TTSPlayer.RevokeObjectURL old]
              | None => []
              end in
            let before_play := asked ++ TTSPlayer.CreateObjectURL :: released in
            TTSPlayer.audio (snd run) = Some url
            /\ TTSPlayer.log (snd run)
               = before_play
                 ++ TTSPlayer.Play url
                 :: match TTSPlayer.play before_play url with
                    | Some _ => [TTSPlayer.ConsoleError]
                    | None => []
                    end
            /\ TTSPlayer.error (snd run)
               = match TTSPlayer.play before_play url with
                 | Some _ => Some TTSPlayer.synthesis_message
                 | None => None
                 end)).
Proof.
  intros run asked. subst run asked. unfold TTSPlayer.playTTS.
  destruct (TTSPlayer.blank text) eqn:Hb.
  - split; [reflexivity|]. split; [reflexivity|]. intro H. discriminate H.
  - unfold try_finally, try_catch, bind, modify, gets, ret,
      TTSPlayer.api_synthesize, TTSPlayer.URL_createObjectURL,
      TTSPlayer.audio_play.
    simpl.
    destruct (TTSPlayer.synthesize (TTSPlayer.log w) text language)
      as [data|error] eqn:Hsyn; simpl.
    + destruct (TTSPlayer.audio w) as [old|] eqn:Ha; simpl.
      * repeat rewrite <- app_assoc. simpl.
        destruct (TTSPlayer.play _ _) as [e|] eqn:Hplay; simpl.
        -- split; [reflexivity|]. split; [intro H; discriminate H|].
           intros _. split; [reflexivity|]. split; [reflexivity|].
           split; [intros d H; discriminate H|].
           intros d _. cbv zeta. repeat rewrite <- app_assoc. simpl.
           rewrite ?Hplay. repeat rewrite <- app_assoc. repeat split.
        -- split; [reflexivity|]. split; [intro H; discriminate H|].
           intros _. split; [reflexivity|]. split; [reflexivity|].
           split; [intros d H; discriminate H|].
           intros d _. cbv zeta. repeat rewrite <- app_assoc. simpl.
           rewrite ?Hplay. repeat split.
      * repeat rewrite <- app_assoc. simpl.
        destruct (TTSPlayer.play _ _) as [e|] eqn:Hplay; simpl.
        -- split; [reflexivity|]. split; [intro H; discriminate H|].
           intros _. split; [reflexivity|]. split; [reflexivity|].
           split; [intros d H; discriminate H|].
           intros d _. cbv zeta. repeat rewrite <- app_assoc. simpl.
           rewrite ?Hplay. repeat rewrite <- app_assoc. repeat split.
        -- split; [reflexivity|]. split; [intro H; discriminate H|].
           intros _. split; [reflexivity|]. split; [reflexivity|].
           split; [intros d H; discriminate H|].
           intros d _. cbv zeta. repeat rewrite <- app_assoc. simpl.
           rewrite ?Hplay. repeat split.
    + split; [reflexivity|]. split; [intro H; discriminate H|].
      intros _. split; [reflexivity|]. split; [reflexivity|].
      split; [|intros d H; discriminate H].
      intros d _. repeat rewrite <- app_assoc. repeat split.
Qed.

(** Two runs of the player: a new text while an older one is playing, and
    a text when the synthesis service is down. *)
Example playTTS_runs :
  let text := str "Appuntamento confermato" in
  let said := snd (@TTSPlayer.playTTS Fixtures.speaking text (str "it")
                     Fixtures.playing) in
  let failed := snd (@TTSPlayer.playTTS Fixtures.mute text (str "it")
                       Fixtures.playing) in
  TTSPlayer.log said
  = [ TTSPlayer.Synthesize text (str "it");
      TTSPlayer.CreateObjectURL;
      TTSPlayer.Pause (str "blob:old");
      TTSPlayer.RevokeObjectURL (str "blob:old");
      TTSPlayer.Play (str "blob:001") ]
  /\ TTSPlayer.audio said = Some (str "blob:001")
  /\ TTSPlayer.audio failed = Some (str "blob:old")
  /\ TTSPlayer.error failed = Some TTSPlayer.synthesis_message.
Proof. vm_compute. repeat split. Qed.

(* ===================================================================== *)
(** * Properties of the interceptors and of the authentication service    *)
(* ===================================================================== *)

Lemma getItem_removeItem_same key d : getItem (removeItem key d) key = None.
Proof.
  induction d as [|[k v] d IH]; simpl; [reflexivity|].
  destruct (String.eqb k key) eqn:E; simpl; [exact IH|].
  rewrite E. exact IH.
Qed.

Lemma getItem_removeItem_other key key' d :
  key' <> key -> getItem (removeItem key d) key' = getItem d key'.
Proof.
  intro Hne. induction d as [|[k v] d IH]; simpl; [reflexivity|].
  destruct (String.eqb_spec k key) as [->|Hk]; simpl.
  - rewrite IH. destruct (String.eqb_spec key key'); [congruence | reflexivity].
  - rewrite IH. reflexivity.
Qed.

Lemma getItem_setItem_same key value d : getItem (setItem key value d) key = Some value.
Proof. unfold setItem. simpl. rewrite String.eqb_refl. reflexivity. Qed.

Lemma getItem_setItem_other key key' value d :
  key' <> key -> getItem (setItem key value d) key' = getItem d key'.
Proof.
  intro Hne. unfold setItem. simpl.
  destruct (String.eqb_spec key key'); [congruence|].
  apply getItem_removeItem_other. exact Hne.
Qed.

Lemma onRequest_without_token storage config :
  getItem storage "authToken" = None -> Api.onRequest storage config = config.
Proof. intro H. unfold Api.onRequest. rewrite H. reflexivity. Qed.

Lemma onRequest_with_token storage config token :
  getItem storage "authToken" = Some token -> token <> [] ->
  getItem (Api.headers (Api.onRequest storage config)) "Authorization"
  = Some (str "Bearer " ++ token).
Proof.
  intros H Hne. unfold Api.onRequest. rewrite H.
  apply falsy_false in Hne. rewrite Hne.
  cbn [Api.headers]. apply getItem_setItem_same.
Qed.

(** X27. After a 401 the interceptors take the session apart: the token
    is gone from the storage, the browser is sent to the login page, every
    other key of the storage is as it was, and the request interceptor
    leaves every later request as it is, without an [Authorization] header
    of its making.  After any other rejection nothing has changed. *)
Theorem unauthorized_response_drops_token
    (error : Api.HttpError) (b : Api.Browser) :
  let b' := Api.onResponseError error b in
  (Api.status error = Some 401%Z ->
   getItem (Api.localStorage b') "authToken" = None
   /\ Api.href b' = str "/login"
   /\ (forall key, key <> "authToken"%string ->
         getItem (Api.localStorage b') key = getItem (Api.localStorage b) key)
   /\ (forall config, Api.onRequest (Api.localStorage b') config = config))
  /\ (Api.status error <> Some 401%Z -> b' = b).
Proof.
  intro b'. subst b'. unfold Api.onResponseError. split.
  - intro H. rewrite H. simpl.
    split; [apply getItem_removeItem_same|]. split; [reflexivity|].
    split; [intros key Hk; apply getItem_removeItem_other; exact Hk|].
    intro config. apply onRequest_without_token. apply getItem_removeItem_same.
  - intro H. destruct (Api.status error) as [code|]; [|reflexivity].
    destruct (Z.eqb_spec code 401) as [->|Hc]; [contradiction H|]; reflexivity.
Qed.

(** X28. A login that succeeds with a non-empty token: the service
    answers with the user, reports itself authenticated, the storage holds
    the token and the user's JSON text while its other keys and the page
    are as they were, and the next request leaves with the header
    [Authorization: Bearer <token>]. *)
Theorem login_authorizes_next_requests
    (token_endpoint :
       list Api.Config -> Api.Config -> JSString -> JSString
       -> Response AuthService.Tokens)
    (stringify_user : JSString -> JSString)
    (username password : JSString) (w : AuthService.World)
    (tokens : AuthService.Tokens) :
  let config :=
    Api.onRequest (Api.localStorage (AuthService.browser w)) Api.login_config in
  let run := AuthService.login token_endpoint stringify_user username password w in
  let storage' := Api.localStorage (AuthService.browser (snd run)) in
  token_endpoint (AuthService.sent w) config username password
  = Resolved tokens ->
  AuthService.access_token tokens <> [] ->
  fst run = AuthService.Success username
  /\ AuthService.isAuthenticated (snd run) = true
  /\ AuthService.user (snd run) = Some username
  /\ getItem storage' "authToken" = Some (AuthService.access_token tokens)
  /\ getItem storage' "user" = Some (stringify_user username)
  /\ (forall key, key <> "authToken"%string -> key <> "user"%string ->
        getItem storage' key
        = getItem (Api.localStorage (AuthService.browser w)) key)
  /\ Api.href (AuthService.browser (snd run)) = Api.href (AuthService.browser w)
  /\ AuthService.next_authorization (snd run)
     = Some (str "Bearer " ++ AuthService.access_token tokens)
  /\ AuthService.sent (snd run) = AuthService.sent w ++ [config].
Proof.
  intros config run storage' Hok Hne. subst run storage'.
  unfold AuthService.login. fold config. rewrite Hok. simpl.
  assert (Htok : getItem
                   (setItem "user" (stringify_user username)
                      (setItem "authToken" (AuthService.access_token tokens)
                         (Api.localStorage (AuthService.browser w))))
                   "authToken" = Some (AuthService.access_token tokens)).
  { rewrite getItem_setItem_other by discriminate. apply getItem_setItem_same. }
  split; [reflexivity|].
  split; [unfold AuthService.isAuthenticated; simpl;
          apply falsy_false in Hne; rewrite Hne; reflexivity|].
  split; [reflexivity|].
  split; [exact Htok|].
  split; [reflexivity|].
  split; [intros key H1 H2;
          change (getItem
                    (setItem "user" (stringify_user username)
                       (setItem "authToken" (AuthService.access_token tokens)
                          (Api.localStorage (AuthService.browser w)))) key
                  = getItem (Api.localStorage (AuthService.browser w)) key);
          rewrite !getItem_setItem_other by assumption; reflexivity|].
  split; [reflexivity|].
  split; [|reflexivity].
  unfold AuthService.next_authorization.
  cbn [AuthService.browser Api.localStorage snd].
  apply onRequest_with_token; assumption.
Qed.

(** X29. After a logout the service reports itself not authenticated, the
    storage holds neither the token nor the user, its other keys are as
    they were, and the next request leaves without an [Authorization]
    header; no request is made for it. *)
Theorem logout_forgets_the_session (w : AuthService.World) :
  let w' := AuthService.logout w in
  let storage' := Api.localStorage (AuthService.browser w') in
  AuthService.isAuthenticated w' = false
  /\ AuthService.user w' = None
  /\ getItem storage' "authToken" = None
  /\ getItem storage' "user" = None
  /\ (forall key, key <> "authToken"%string -> key <> "user"%string ->
        getItem storage' key
        = getItem (Api.localStorage (AuthService.browser w)) key)
  /\ AuthService.next_authorization w' = None
  /\ AuthService.sent w' = AuthService.sent w.
Proof.
  intros w' storage'. subst w' storage'. unfold AuthService.logout. simpl.
  assert (Htok : getItem
                   (removeItem "user"
                      (removeItem "authToken"
                         (Api.localStorage (AuthService.browser w))))
                   "authToken" = None).
  { rewrite getItem_removeItem_other by discriminate.
    apply getItem_removeItem_same. }
  split; [reflexivity|]. split; [reflexivity|].
  split; [exact Htok|].
  split; [first [reflexivity | apply getItem_removeItem_same]|].
  split; [intros key H1 H2;
          change (getItem
                    (removeItem "user"
                       (removeItem "authToken"
                          (Api.localStorage (AuthService.browser w)))) key
                  = getItem (Api.localStorage (AuthService.browser w)) key);
          rewrite !getItem_removeItem_other by assumption; reflexivity|].
  split; [|reflexivity].
  unfold AuthService.next_authorization.
  cbn [AuthService.browser Api.localStorage].
  rewrite (onRequest_without_token _ _ Htok). reflexivity.
Qed.

(** X30. A login that fails never throws: the service answers with the
    server's detail as it is, or with "Login failed" when there is none or
    a falsy one, and keeps the token and the user it had.  Unless the
    status is 401 the browser is untouched; on a 401 the stored token is
    dropped and the page goes to the login page, so that the next request
    leaves without an [Authorization] header, whatever the service still
    holds. *)
Theorem failed_login_is_reported
    (token_endpoint :
       list Api.Config -> Api.Config -> JSString -> JSString
       -> Response AuthService.Tokens)
    (stringify_user : JSString -> JSString)
    (username password : JSString) (w : AuthService.World)
    (error : Api.HttpError) :
  let config :=
    Api.onRequest (Api.localStorage (AuthService.browser w)) Api.login_config in
  let run := AuthService.login token_endpoint stringify_user username password w in
  token_endpoint (AuthService.sent w) config username password
  = Rejected error ->
  fst run
  = AuthService.Failure (value_or (Api.detail error) (str "Login failed"))
  /\ AuthService.token (snd run) = AuthService.token w
  /\ AuthService.user (snd run) = AuthService.user w
  /\ AuthService.isAuthenticated (snd run) = AuthService.isAuthenticated w
  /\ (Api.status error <> Some 401%Z ->
      AuthService.browser (snd run) = AuthService.browser w)
  /\ (Api.status error = Some 401%Z ->
      AuthService.next_authorization (snd run) = None
      /\ Api.href (AuthService.browser (snd run)) = str "/login").
Proof.
  intros config run Hfail. subst run.
  unfold AuthService.login. fold config. rewrite Hfail. simpl.
  split; [reflexivity|]. split; [reflexivity|]. split; [reflexivity|].
  split; [reflexivity|].
  unfold Api.onResponseError. split.
  - intro H. destruct (Api.status error) as [code|]; [|reflexivity].
    destruct (Z.eqb_spec code 401) as [->|Hc]; [contradiction H|]; reflexivity.
  - intro H. rewrite H. simpl. split; [|reflexivity].
    unfold AuthService.next_authorization. simpl.
    rewrite onRequest_without_token by apply getItem_removeItem_same.
    reflexivity.
Qed.

Lemma login_authorizes_next_requests_witness :
  let run :=
    AuthService.login Fixtures.endpoint Fixtures.stringify (str "mario")
      (str "forbici") Fixtures.anonymous in
  fst run = AuthService.Success (str "mario")
  /\ AuthService.next_authorization (snd run) = Some (str "Bearer tok_mario")
  /\ getItem (Api.localStorage (AuthService.browser (snd run))) "theme"
     = Some (str "dark").
Proof.
  destruct (@login_authorizes_next_requests Fixtures.endpoint Fixtures.stringify
              (str "mario") (str "forbici") Fixtures.anonymous
              {| AuthService.access_token := str "tok_mario";
                 AuthService.token_type := str "bearer" |})
    as (Hr & _ & _ & _ & _ & Hkeys & _ & Hnext & _);
    first [ split; [exact Hr|]; split; [exact Hnext|];
            rewrite Hkeys by discriminate; reflexivity
          | vm_compute; reflexivity
          | vm_compute; discriminate ].
Defined.

Lemma failed_login_is_reported_witness :
  let run :=
    AuthService.login Fixtures.endpoint Fixtures.stringify (str "mario")
      (str "rasoio") Fixtures.logged_in in
  fst run
  = AuthService.Failure (Some (VString (str "Incorrect username or password")))
  /\ AuthService.isAuthenticated (snd run) = true
  /\ AuthService.next_authorization (snd run) = None.
Proof.
  destruct (@failed_login_is_reported Fixtures.endpoint Fixtures.stringify
              (str "mario") (str "rasoio") Fixtures.logged_in
              {| Api.status := Some 401%Z;
                 Api.detail :=
                   Some (VString (str "Incorrect username or password")) |})
    as (Hr & _ & _ & Hauth & _ & H401);
    first [ split; [exact Hr|]; split; [rewrite Hauth; reflexivity|];
            apply H401; reflexivity
          | vm_compute; reflexivity ].
Defined.
